(** * dataUrnas-br: the ingestion pipeline, embedded and verified

    A shallow embedding of the download client, the TSE API navigator, the
    download manager, the BU parser, the DuckDB store and the realtime
    builder of dataUrnas-br, with the properties the specification states
    about them.

    Conventions of the embedding:
    - a Python call that may raise returns an [Outcome]; state that the
      call mutates (files on disk, tables, counters) is threaded explicitly;
    - the network is an oracle: for a URL and an attempt number it says what
      the transport does on that attempt;
    - the local disk is a finite map from paths to file contents. *)

From stdpp Require Import gmap strings list fin_maps pretty sorting.
From Stdlib Require Import ZArith Lia Ascii.

#[local] Set Warnings "-clear-no-such-hyp".

Abbreviation bytes := (list Byte.byte).

(** A [pathlib.Path] is the list of its parts; [p / name] appends a part. *)
Abbreviation Path := (list string).
Abbreviation Disk := (gmap Path bytes).

(** ** Exceptions and results *)

Inductive Exn :=
  | HTTPStatusError (status : Z)   (* httpx.HTTPStatusError, from raise_for_status *)
  | OtherException.                (* any other subclass of Exception *)

Inductive Outcome (A : Type) :=
  | Returned (a : A)
  | Raised (e : Exn).
Arguments Returned {A} a.
Arguments Raised {A} e.

Definition is_raised {A} (o : Outcome A) : bool :=
  match o with Raised _ => true | Returned _ => false end.

(** ** config.py *)

Module Config.
Definition TSE_BASE_URL : string := "https://resultados.tse.jus.br/oficial".
Definition MAX_RETRIES : nat := 10.
Definition MAX_CONCURRENT_DOWNLOADS : nat := 500.
End Config.

(** ** downloader/client.py *)

Module Client.
Import Config.

(** What the transport does on one attempt, before a status is seen or
    while the body is read. *)
Inductive TransportError :=
  | ConnectError      (* httpx.ConnectError *)
  | ReadTimeout       (* httpx.ReadTimeout *)
  | OtherError.       (* anything else: ConnectTimeout, RemoteProtocolError, OSError, ... *)

(** Reply to [client.get(url)]: a response with a status code and a body
    ([None] when [response.json()] raises), or a transport exception. *)
Inductive JsonReply (J : Type) :=
  | JResponse (status : Z) (body : option J)
  | JTransport (e : TransportError).
Arguments JResponse {J} status body.
Arguments JTransport {J} e.

(** Reply to [client.stream("GET", url)]: a response whose body arrives as
    [chunks] and then, when [abort] is [Some e], fails with [e] while the
    file is still open; or a transport exception before any response. *)
Inductive StreamReply :=
  | SResponse (status : Z) (chunks : list bytes) (abort : option TransportError)
  | STransport (e : TransportError).

(** What an observer of the process sees, in order. *)
Inductive Event :=
  | EvAcquire                          (* self._rate_limiter.acquire() *)
  | EvGet (url : string)               (* client.get(url) *)
  | EvStream (url : string)            (* client.stream("GET", url) *)
  | EvSleep (secs : Z)                 (* asyncio.sleep(wait) *)
  | EvOpen (path : Path)               (* open(dest, "wb") *)
  | EvWrite (path : Path) (chunk : bytes)
  | EvUnlink (path : Path)             (* dest.unlink() *)
  | EvCallback (section_dir : Path) (pleito : string).   (* self._on_section_done(...) *)

(** [response.raise_for_status()] returns only for a 2xx status. *)
Definition is_success (status : Z) : bool :=
  ((200 <=? status) && (status <=? 299))%Z.

(** [2 ** attempt] *)
Definition pow2 (attempt : nat) : Z := (2 ^ Z.of_nat attempt)%Z.

Section FetchJson.
Context {J : Type}.
Variable reply : nat -> JsonReply J.
Variable url : string.

(** The body of [for attempt in range(MAX_RETRIES)], from [attempt] on,
    with [remaining] iterations left. *)
Fixpoint fetch_json_loop (attempt remaining : nat)
  : Outcome (option J) * list Event :=
  match remaining with
  | O => (Returned None, [])
  | S remaining' =>
      let retry (pause : list Event) :=
        let '(o, evs) := fetch_json_loop (S attempt) remaining' in
        (o, EvAcquire :: EvGet url :: pause ++ evs) in
      let stop (o : Outcome (option J)) := (o, [EvAcquire; EvGet url]) in
      match reply attempt with
      | JResponse status body =>
          if (status =? 404)%Z then stop (Returned None)
          else if is_success status then
            match body with
            | Some j => stop (Returned (Some j))
            | None => stop (Raised OtherException)
            end
          else if (status =? 429)%Z then retry [EvSleep (pow2 attempt)]
          else if Nat.eqb attempt (MAX_RETRIES - 1)
               then stop (Raised (HTTPStatusError status))
               else retry []
      | JTransport ConnectError | JTransport ReadTimeout =>
          retry [EvSleep (Z.min (pow2 attempt) 30)]
      | JTransport OtherError => stop (Raised OtherException)
      end
  end.

Definition fetch_json : Outcome (option J) * list Event :=
  fetch_json_loop 0 MAX_RETRIES.
End FetchJson.

(** [if dest.exists(): dest.unlink()] *)
Definition unlink_if_exists (dest : Path) (fs : Disk) : Disk * list Event :=
  match fs !! dest with
  | Some _ => (delete dest fs, [EvUnlink dest])
  | None => (fs, [])
  end.

(** [dest.exists() and dest.stat().st_size > 0] *)
Definition exists_nonempty (dest : Path) (fs : Disk) : bool :=
  match fs !! dest with
  | Some content => negb (Nat.eqb (length content) 0)
  | None => false
  end.

Section DownloadFile.
Variable reply : nat -> StreamReply.
Variable url : string.
Variable dest : Path.

(** [with open(dest, "wb") as f: ... f.write(chunk)] for the chunks that
    arrive: the file is created or truncated, then grows. *)
Definition write_events (chunks : list bytes) : list Event :=
  EvOpen dest :: map (EvWrite dest) chunks.

Fixpoint download_loop (attempt remaining : nat) (fs : Disk)
  : Outcome bool * Disk * list Event :=
  match remaining with
  | O => (Returned false, fs, [])
  | S remaining' =>
      let retry (fs' : Disk) (done : list Event) :=
        let '(o, fs'', evs) := download_loop (S attempt) remaining' fs' in
        (o, fs'', EvAcquire :: EvStream url :: done ++ evs) in
      let stop (o : Outcome bool) (fs' : Disk) (done : list Event) :=
        (o, fs', EvAcquire :: EvStream url :: done) in
      let on_transport (e : TransportError) (fs' : Disk) (done : list Event) :=
        let '(fs'', un) := unlink_if_exists dest fs' in
        match e with
        | ConnectError | ReadTimeout =>
            retry fs'' (done ++ un ++ [EvSleep (Z.min (pow2 attempt) 30)])
        | OtherError => stop (Raised OtherException) fs'' (done ++ un)
        end in
      match reply attempt with
      | SResponse status chunks abort =>
          if (status =? 404)%Z then stop (Returned false) fs []
          else if negb (is_success status) then
            if (status =? 429)%Z then retry fs [EvSleep (pow2 attempt)]
            else
              let '(fs', un) := unlink_if_exists dest fs in
              if Nat.eqb attempt (MAX_RETRIES - 1)
              then stop (Returned false) fs' un
              else retry fs' un
          else
            let fs' := <[dest := concat chunks]> fs in
            match abort with
            | None => stop (Returned true) fs' (write_events chunks)
            | Some e => on_transport e fs' (write_events chunks)
            end
      | STransport e => on_transport e fs []
      end
  end.

Definition download_file (skip_existing : bool) (fs : Disk)
  : Outcome bool * Disk * list Event :=
  if skip_existing && exists_nonempty dest fs
  then (Returned true, fs, [])
  else download_loop 0 MAX_RETRIES fs.
End DownloadFile.

(** The pauses of a run, in order. *)
Definition sleeps (evs : list Event) : list Z :=
  omap (fun ev => match ev with EvSleep s => Some s | _ => None end) evs.

(** The number of requests a run issued. *)
Definition is_request (ev : Event) : bool :=
  match ev with EvGet _ | EvStream _ => true | _ => false end.

Definition requests (evs : list Event) : nat :=
  length (List.filter is_request evs).

(** The effect of the file events of a run on the disk. *)
Definition replay_event (fs : Disk) (ev : Event) : Disk :=
  match ev with
  | EvOpen p => <[p := []]> fs
  | EvWrite p chunk => alter (fun content => content ++ chunk) p fs
  | EvUnlink p => delete p fs
  | _ => fs
  end.

Definition replay (evs : list Event) (fs : Disk) : Disk :=
  fold_left replay_event evs fs.
End Client.

(** ** Python string operations used by the downloader *)

Module PyStr.
Definition lower_ascii (c : ascii) : ascii :=
  let n := nat_of_ascii c in
  if (Nat.leb 65 n && Nat.leb n 90)%bool then ascii_of_nat (n + 32) else c.

Definition upper_ascii (c : ascii) : ascii :=
  let n := nat_of_ascii c in
  if (Nat.leb 97 n && Nat.leb n 122)%bool then ascii_of_nat (n - 32) else c.

Fixpoint map_string (f : ascii -> ascii) (s : string) : string :=
  match s with
  | EmptyString => EmptyString
  | String c s' => String (f c) (map_string f s')
  end.

(** [s.lower()] and [s.upper()], on ASCII text *)
Definition lower : string -> string := map_string lower_ascii.
Definition upper : string -> string := map_string upper_ascii.

(** [s.startswith(p)] *)
Definition startswith (s p : string) : bool := String.prefix p s.

(** [p in s] *)
Fixpoint contains (s p : string) : bool :=
  String.prefix p s ||
  match s with
  | EmptyString => false
  | String _ s' => contains s' p
  end.

(** [s.endswith(p)] *)
Fixpoint endswith (s p : string) : bool :=
  String.eqb s p ||
  match s with
  | EmptyString => false
  | String _ s' => endswith s' p
  end.

(** [sep.join(parts)] *)
Fixpoint join (sep : string) (parts : list string) : string :=
  match parts with
  | [] => ""
  | [p] => p
  | p :: rest => p +:+ sep +:+ join sep rest
  end.
End PyStr.

(** ** models.py and the JSON the authority serves *)

Module Models.
Record ElectoralSection := {       (* class Section *)
  uf : string;
  municipio_codigo : string;
  municipio_nome : string;
  zona : string;
  secao : string;
}.

(** A JSON scalar, as the manifest's "hash" field may hold one. *)
Inductive JScalar :=
  | JNull
  | JBool (b : bool)
  | JNum (n : Z)
  | JStr (s : string).

(** Python truth value: [not v] is [negb (truthy v)]. *)
Definition truthy (v : JScalar) : bool :=
  match v with
  | JNull => false
  | JBool b => b
  | JNum n => negb (n =? 0)%Z
  | JStr s => negb (String.eqb s "")
  end.

(** [f"{v}"] *)
Definition format (v : JScalar) : string :=
  match v with
  | JNull => "None"
  | JBool true => "True"
  | JBool false => "False"
  | JNum n => pretty n
  | JStr s => s
  end.

Record UrnaMeta := {
  section : ElectoralSection;
  hash : JScalar;
  status : string;
  data : string;
  hora : string;
  arquivos : list string;
}.

(** One element of "arq": [{"nm": name}] or a bare name. *)
Inductive ArqItem :=
  | ArqDict (nm : string)
  | ArqName (name : string).

(** One element of "hashes"; [None] is an absent key. *)
Record HashEntry := {
  h_hash : option JScalar;
  h_st : option string;
  h_dr : option string;
  h_hr : option string;
  h_nmarq : option (list string);
  h_arq : option (list ArqItem);
}.

Record SecJson := { s_ns : string }.

Record ZonaJson := { z_cd : string; z_sec : option (list SecJson) }.

Record MunJson := { mu_cd : string; mu_nm : string; mu_zon : option (list ZonaJson) }.

Record EstadoJson := {
  e_cd : option string;
  e_ds : option string;
  e_mu : option (list MunJson);
}.

(** A JSON document as the navigator reads it: the keys "abr" and "hashes"
    of an object, each possibly absent. Keys read with [d[k]] are fields
    of the records above, keys read with [d.get(k, ...)] are options. *)
Record Body := {
  b_abr : option (list EstadoJson);
  b_hashes : option (list HashEntry);
}.
End Models.

(** ** downloader/tse_api.py *)

Module TSEApi.
Import Config Models Client.

Record StateConfig := {
  sc_uf : string;
  sc_nome : string;
  municipios : list MunJson;
}.

Definition JsonNet := string -> nat -> JsonReply Body.

Definition state_config_url (ciclo pleito uf : string) : string :=
  TSE_BASE_URL +:+ "/" +:+ ciclo +:+ "/arquivo-urna/" +:+ pleito
    +:+ "/config/" +:+ uf +:+ "/" +:+ uf +:+ "-p000" +:+ pleito +:+ "-cs.json".

Definition get_state_config (net : JsonNet) (ciclo pleito uf : string)
  : Outcome (option StateConfig) * list Event :=
  let uf := PyStr.lower uf in
  let url := state_config_url ciclo pleito uf in
  match fetch_json (net url) url with
  | (Raised e, evs) => (Raised e, evs)
  | (Returned None, evs) => (Returned None, evs)
  | (Returned (Some body), evs) =>
      match b_abr body with
      | None | Some [] => (Returned None, evs)
      | Some (estado :: _) =>
          (Returned (Some {| sc_uf := default uf (e_cd estado);
                             sc_nome := default (PyStr.upper uf) (e_ds estado);
                             municipios := default [] (e_mu estado) |}), evs)
      end
  end.

Definition section_meta_url (ciclo pleito : string) (s : ElectoralSection) : string :=
  let uf := PyStr.lower (uf s) in
  let mun := municipio_codigo s in
  let zona := zona s in
  let secao := secao s in
  TSE_BASE_URL +:+ "/" +:+ ciclo +:+ "/arquivo-urna/" +:+ pleito
    +:+ "/dados/" +:+ uf +:+ "/" +:+ mun +:+ "/" +:+ zona +:+ "/" +:+ secao
    +:+ "/p000" +:+ pleito +:+ "-" +:+ uf +:+ "-m" +:+ mun +:+ "-z" +:+ zona
    +:+ "-s" +:+ secao +:+ "-aux.json".

(** [hash_val == "0" or not hash_val] *)
Definition no_file_hash (hash_val : JScalar) : bool :=
  match hash_val with
  | JStr "0" => true
  | _ => negb (truthy hash_val)
  end.

(** The body of [for h in data["hashes"]]. *)
Definition urna_of_hash (s : ElectoralSection) (h : HashEntry) : option UrnaMeta :=
  let hash_val := default (JStr "") (h_hash h) in
  if no_file_hash hash_val then None
  else
    let arquivos :=
      match h_nmarq h, h_arq h with
      | Some names, _ => names
      | None, Some arq =>
          map (fun a => match a with ArqDict nm => nm | ArqName name => name end) arq
      | None, None => []
      end in
    Some {| section := s;
            hash := hash_val;
            status := default "" (h_st h);
            data := default "" (h_dr h);
            hora := default "" (h_hr h);
            arquivos := arquivos |}.

Definition get_section_meta (net : JsonNet) (ciclo pleito : string)
    (s : ElectoralSection) : Outcome (list UrnaMeta) * list Event :=
  let url := section_meta_url ciclo pleito s in
  match fetch_json (net url) url with
  | (Raised e, evs) => (Raised e, evs)
  | (Returned None, evs) => (Returned [], evs)
  | (Returned (Some body), evs) =>
      match b_hashes body with
      | None => (Returned [], evs)
      | Some hashes => (Returned (omap (urna_of_hash s) hashes), evs)
      end
  end.

Definition build_file_url (ciclo pleito : string) (s : ElectoralSection)
    (hash_val : JScalar) (filename : string) : string :=
  let uf := PyStr.lower (uf s) in
  TSE_BASE_URL +:+ "/" +:+ ciclo +:+ "/arquivo-urna/" +:+ pleito
    +:+ "/dados/" +:+ uf +:+ "/" +:+ municipio_codigo s +:+ "/" +:+ zona s
    +:+ "/" +:+ secao s +:+ "/" +:+ format hash_val +:+ "/" +:+ filename.

Definition iter_sections (cfg : StateConfig) : list ElectoralSection :=
  mun ← municipios cfg;
  zon ← default [] (mu_zon mun);
  sec ← default [] (z_sec zon);
  [ {| uf := sc_uf cfg;
       municipio_codigo := mu_cd mun;
       municipio_nome := mu_nm mun;
       zona := z_cd zon;
       secao := s_ns sec |} ].

Definition count_sections (cfg : StateConfig) : nat :=
  foldl (fun total mun =>
           foldl (fun total zon => total + length (default [] (z_sec zon)))
                 total (default [] (mu_zon mun)))
        0 (municipios cfg).
End TSEApi.

(** ** downloader/manager.py *)

Module DownloadManager.
Import Config Models Client TSEApi.

(** [self._stats] *)
Record Stats := {
  downloaded : nat;
  skipped : nat;
  errors : nat;
  sections_processed : nat;
}.

(** [results] of [download_section_files] *)
Record Results := { ok : nat; skip : nat; fail : nat }.

Definition FileNet := string -> nat -> StreamReply.

Definition add_results (st : Stats) (r : Results) : Stats :=
  {| downloaded := downloaded st + ok r;
     skipped := skipped st + skip r;
     errors := errors st + fail r;
     sections_processed := sections_processed st |}.

Definition add_error (st : Stats) : Stats :=
  {| downloaded := downloaded st;
     skipped := skipped st;
     errors := errors st + 1;
     sections_processed := sections_processed st |}.

Definition add_section (st : Stats) : Stats :=
  {| downloaded := downloaded st;
     skipped := skipped st;
     errors := errors st;
     sections_processed := sections_processed st + 1 |}.

(** [sections[i : i + BATCH]] for [i] in [range(0, len(sections), BATCH)] *)
Fixpoint batches {A} (fuel BATCH : nat) (sections : list A) : list (list A) :=
  match fuel, sections with
  | O, _ | _, [] => []
  | S fuel', _ => take BATCH sections :: batches fuel' BATCH (drop BATCH sections)
  end.

Section Manager.
Variable raw_dir : Path.
(** whether [self._on_section_done] is set; what the callback does is
    the builder's business, and an exception it raises is swallowed *)
Variable on_section_done : bool.
Variable json_net : JsonNet.
Variable file_net : FileNet.
(** [random.sample] *)
Variable sample : list ElectoralSection -> nat -> list ElectoralSection.
Variables ciclo pleito : string.
(** [file_types]: [None] and the empty list both mean no filter *)
Variable file_types : list string.

Definition _section_dir (s : ElectoralSection) : Path :=
  raw_dir ++ [PyStr.lower (uf s); municipio_codigo s; zona s; secao s].

(** the file-type test at the head of the loop over [urna.arquivos] *)
Definition wanted (filename : string) : bool :=
  match file_types with
  | [] => true
  | _ => existsb (PyStr.endswith filename) file_types
         || existsb (PyStr.contains filename) file_types
  end.

(** one iteration's bookkeeping after [ok = await client.download_file] *)
Definition count_file (results : Results) (is_ok dest_exists : bool) : Results :=
  if is_ok then
    if dest_exists
    then {| ok := ok results + 1; skip := skip results; fail := fail results |}
    else {| ok := ok results; skip := skip results + 1; fail := fail results |}
  else {| ok := ok results; skip := skip results; fail := fail results + 1 |}.

Fixpoint download_files (urna : UrnaMeta) (filenames : list string)
    (results : Results) (fs : Disk) : Outcome Results * Disk * list Event :=
  match filenames with
  | [] => (Returned results, fs, [])
  | filename :: rest =>
      if wanted filename then
        let url := build_file_url ciclo pleito (section urna) (hash urna) filename in
        let dest := _section_dir (section urna) ++ [filename] in
        match download_file (file_net url) url dest true fs with
        | (Raised e, fs', evs) => (Raised e, fs', evs)
        | (Returned is_ok, fs', evs) =>
            let results' := count_file results is_ok (bool_decide (is_Some (fs' !! dest))) in
            let '(o, fs'', evs') := download_files urna rest results' fs' in
            (o, fs'', evs ++ evs')
        end
      else download_files urna rest results fs
  end.

Definition download_section_files (urna : UrnaMeta) (fs : Disk)
  : Outcome Results * Disk * list Event :=
  download_files urna (arquivos urna) {| ok := 0; skip := 0; fail := 0 |} fs.

(** [for urna in urnas: ...] inside [_process_one_section] *)
Fixpoint download_urnas (urnas : list UrnaMeta) (st : Stats) (fs : Disk)
  : Outcome unit * Stats * Disk * list Event :=
  match urnas with
  | [] => (Returned tt, st, fs, [])
  | urna :: rest =>
      match download_section_files urna fs with
      | (Raised e, fs', evs) => (Raised e, st, fs', evs)
      | (Returned results, fs', evs) =>
          let '(o, st', fs'', evs') :=
            download_urnas rest (add_results st results) fs' in
          (o, st', fs'', evs ++ evs')
      end
  end.

(** the [try:] block of [_process_one_section] *)
Definition try_section (s : ElectoralSection) (st : Stats) (fs : Disk)
  : Outcome unit * Stats * Disk * list Event :=
  match get_section_meta json_net ciclo pleito s with
  | (Raised e, evs) => (Raised e, st, fs, evs)
  | (Returned urnas, evs) =>
      match download_urnas urnas st fs with
      | (Raised e, st', fs', evs') => (Raised e, st', fs', evs ++ evs')
      | (Returned _, st', fs', evs') =>
          let callback :=
            if on_section_done then [EvCallback (_section_dir s) pleito] else [] in
          (Returned tt, add_section st', fs', evs ++ evs' ++ callback)
      end
  end.

(** [try: ... except Exception as e: ...; self._stats["errors"] += 1] *)
Definition _process_one_section (s : ElectoralSection) (st : Stats) (fs : Disk)
  : Stats * Disk * list Event :=
  match try_section s st fs with
  | (Returned _, st', fs', evs) => (st', fs', evs)
  | (Raised _, st', fs', evs) => (add_error st', fs', evs)
  end.

(** [asyncio.gather] over the tasks of one batch: the tasks are taken in
    list order. *)
Fixpoint process_sections (sections : list ElectoralSection) (st : Stats) (fs : Disk)
  : Stats * Disk * list Event :=
  match sections with
  | [] => (st, fs, [])
  | s :: rest =>
      let '(st', fs', evs) := _process_one_section s st fs in
      let '(st'', fs'', evs') := process_sections rest st' fs' in
      (st'', fs'', evs ++ evs')
  end.

(** [for batch_start in range(0, len(sections), BATCH)] *)
Fixpoint process_batches (bs : list (list ElectoralSection)) (st : Stats) (fs : Disk)
  : Stats * Disk * list Event :=
  match bs with
  | [] => (st, fs, [])
  | batch :: rest =>
      let '(st', fs', evs) := process_sections batch st fs in
      let '(st'', fs'', evs') := process_batches rest st' fs' in
      (st'', fs'', evs ++ evs')
  end.

Definition BATCH : nat := 500.

(** the sections [download_state] works on, after the municipality
    filter and the sampling *)
Definition select_sections (cfg : StateConfig)
    (max_sections : option nat) (municipio_filter : list string)
  : list ElectoralSection :=
  let sections := iter_sections cfg in
  let sections :=
    match municipio_filter with
    | [] => sections
    | _ =>
        List.filter
          (fun s =>
             bool_decide (municipio_codigo s ∈ municipio_filter)
             || bool_decide (PyStr.upper (municipio_nome s)
                               ∈ map PyStr.upper municipio_filter))
          sections
    end in
  match max_sections with
  | Some n =>
      if negb (Nat.eqb n 0) && Nat.ltb n (length sections)
      then sample sections n
      else sections
  | None => sections
  end.

Definition download_state (uf : string)
    (max_sections : option nat) (municipio_filter : list string)
    (st : Stats) (fs : Disk) : Outcome Stats * Disk * list Event :=
  match get_state_config json_net ciclo pleito uf with
  | (Raised e, evs) => (Raised e, fs, evs)
  | (Returned None, evs) => (Returned st, fs, evs)
  | (Returned (Some cfg), evs) =>
      let sections := select_sections cfg max_sections municipio_filter in
      let '(st', fs', evs') :=
        process_batches (batches (length sections) BATCH sections) st fs in
      (Returned st', fs', evs ++ evs')
  end.
End Manager.

Definition zero_stats : Stats :=
  {| downloaded := 0; skipped := 0; errors := 0; sections_processed := 0 |}.
End DownloadManager.

(** ** Python values, as the ASN.1 decoder returns them *)

Module Py.
#[local] Set Warnings "-register-all".

Inductive PyVal :=
  | VNone
  | VBool (b : bool)
  | VInt (n : Z)
  | VStr (s : string)
  | VBytes (b : bytes)
  | VTuple (items : list PyVal)
  | VList (items : list PyVal)
  | VDict (fields : list (string * PyVal)).

(** A value that went through [str(...)] or not. [StrOf v] stands for the
    text [str(v)] of a [v] that is not itself a string. *)
Inductive Field :=
  | Plain (v : PyVal)
  | StrOf (v : PyVal).

(** [str(v)] *)
Definition py_str (v : PyVal) : Field :=
  match v with
  | VStr _ => Plain v
  | _ => StrOf v
  end.

(** truth value of [v] in [if v], [not v], [v or w] *)
Definition truthy (v : PyVal) : bool :=
  match v with
  | VNone => false
  | VBool b => b
  | VInt n => negb (n =? 0)%Z
  | VStr s => negb (String.eqb s "")
  | VBytes b => negb (Nat.eqb (length b) 0)
  | VTuple items | VList items => negb (Nat.eqb (length items) 0)
  | VDict fields => negb (Nat.eqb (length fields) 0)
  end.

(** [v or w] *)
Definition py_or (v w : PyVal) : PyVal := if truthy v then v else w.

Fixpoint assoc (key : string) (fields : list (string * PyVal)) : option PyVal :=
  match fields with
  | [] => None
  | (k, v) :: rest => if String.eqb k key then Some v else assoc key rest
  end.

(** [d.get(key, dflt)]; [None] when [d] has no [get] (AttributeError) *)
Definition get (d : PyVal) (key : string) (dflt : PyVal) : option PyVal :=
  match d with
  | VDict fields => Some (default dflt (assoc key fields))
  | _ => None
  end.

(** [isinstance(v, tuple)], [isinstance(v, str)], [isinstance(v, dict)],
    [isinstance(v, int)] (a [bool] is an [int]) *)
Definition is_tuple (v : PyVal) : bool :=
  match v with VTuple _ => true | _ => false end.

Definition is_str (v : PyVal) : bool :=
  match v with VStr _ => true | _ => false end.

Definition is_dict (v : PyVal) : bool :=
  match v with VDict _ => true | _ => false end.

Definition as_int (v : PyVal) : option Z :=
  match v with
  | VInt n => Some n
  | VBool b => Some (if b then 1 else 0)%Z
  | _ => None
  end.

(** [t[i]] on a tuple; [None] is an IndexError *)
Definition item (t : list PyVal) (i : nat) : option PyVal := t !! i.

Fixpoint chars (s : string) : list PyVal :=
  match s with
  | EmptyString => []
  | String c s' => VStr (String c EmptyString) :: chars s'
  end.

(** the values a [for] loop over [v] visits; [None] is a TypeError *)
Definition iterate (v : PyVal) : option (list PyVal) :=
  match v with
  | VList items | VTuple items => Some items
  | VDict fields => Some (map (fun kv => VStr (fst kv)) fields)
  | VStr s => Some (chars s)
  | VBytes b => Some (map (fun c => VInt (Z.of_N (Byte.to_N c))) b)
  | VNone | VBool _ | VInt _ => None
  end.

(** whether [v] can be a dictionary key *)
Fixpoint hashable (v : PyVal) : bool :=
  match v with
  | VList _ | VDict _ => false
  | VTuple items => forallb hashable items
  | _ => true
  end.
End Py.

(** ** models.py (ballot records), parsers/asn1_helper.py, parsers/bu.py *)

Module BU.
Import Py.

Inductive TipoVoto := NOMINAL | BRANCO | NULO | LEGENDA | CARGO_SEM_CANDIDATO.

(** [TipoVoto.value] *)
Definition value (t : TipoVoto) : string :=
  match t with
  | NOMINAL => "nominal"
  | BRANCO => "branco"
  | NULO => "nulo"
  | LEGENDA => "legenda"
  | CARGO_SEM_CANDIDATO => "cargoSemCandidato"
  end.

Inductive Fase := SIMULADO | OFICIAL | TREINAMENTO.

Inductive SpecVersion := V1 | V2.

Record VotoTupla := {
  tipo_voto : TipoVoto;
  quantidade : PyVal;
  codigo_votavel : PyVal;
  partido : PyVal;
  vt_hash : PyVal;
  ordem_hash : PyVal;
}.

(** [CARGOS.get(codigo, f"Cargo {codigo}")]: a name of the table, or the
    text "Cargo " followed by [str(codigo)] *)
Inductive NomeCargo :=
  | Known (name : string)
  | Cargo (codigo : PyVal).

Record ResultadoCargo := {
  codigo_cargo : PyVal;
  nome_cargo : NomeCargo;
  comparecimento : PyVal;
  votos : list VotoTupla;
}.

Record ResultadoEleicao := {
  id_eleicao : PyVal;
  eleitores_aptos : PyVal;
  eleitores_aptos_secao : PyVal;
  eleitores_aptos_tte : PyVal;
  resultados : list ResultadoCargo;
  ultimo_hash : PyVal;
  assinatura_ultimo_hash : PyVal;
}.

Record BoletimUrna := {
  uf : string;
  municipio : PyVal;
  zona : PyVal;
  secao : PyVal;
  local_votacao : PyVal;
  modelo_urna : PyVal;
  numero_serie : PyVal;
  numero_interno : PyVal;
  codigo_carga : Field;
  tipo_urna : Field;
  tipo_arquivo : Field;
  versao_votacao : PyVal;
  fase : Fase;
  spec_version : SpecVersion;
  data_hora_emissao : PyVal;
  hora_abertura : PyVal;
  hora_encerramento : PyVal;
  qtd_eleitores_lib_codigo : PyVal;
  qtd_eleitores_comp_biometrico : PyVal;
  resultados_por_eleicao : list ResultadoEleicao;
  historico_correspondencias : PyVal;
}.

(** [detect_spec_version], on [file_path.name] *)
Definition detect_spec_version (name : string) : SpecVersion :=
  if PyStr.endswith name ".dat" || PyStr.endswith name ".vsc" then V2
  else if existsb (PyStr.endswith name) [".bu"; ".rdv"; ".logjez"; ".imgbu"; ".vscmr"]
  then V1
  else if PyStr.contains name "-bu." || PyStr.contains name "-rdv."
          || PyStr.contains name "-vota."
  then V2
  else V1.

(** [_unwrap_tuple(val)], with [index=1] *)
Definition _unwrap_tuple (val : PyVal) : PyVal :=
  match val with
  | VTuple (_ :: x :: _) => x
  | _ => val
  end.

Definition _CARGO_NAME_MAP : list (string * Z) :=
  [ ("presidente", 1); ("vicePresidente", 2); ("governador", 3);
    ("viceGovernador", 4); ("senador", 5); ("deputadoFederal", 6);
    ("deputadoEstadual", 7); ("deputadoDistrital", 8);
    ("primeiroSuplenteSenador", 9); ("segundoSuplenteSenador", 10);
    ("prefeito", 11); ("vicePrefeito", 12); ("vereador", 13) ]%Z.

(** [config.CARGOS] *)
Definition CARGOS : list (Z * string) :=
  [ (1, "Presidente"); (3, "Governador"); (5, "Senador");
    (6, "Deputado Federal"); (7, "Deputado Estadual"); (11, "Prefeito");
    (13, "Vereador") ]%Z.

Definition _TIPO_VOTO_NAMES : list (string * TipoVoto) :=
  [ ("nominal", NOMINAL); ("branco", BRANCO); ("nulo", NULO);
    ("legenda", LEGENDA); ("cargoSemCandidato", CARGO_SEM_CANDIDATO) ].

Definition _TIPO_VOTO_CODES : list (Z * TipoVoto) :=
  [ (1, NOMINAL); (2, BRANCO); (3, NULO); (4, LEGENDA);
    (5, CARGO_SEM_CANDIDATO) ]%Z.

Definition lookup_name {A} (key : string) (table : list (string * A)) : option A :=
  snd <$> List.find (fun kv => String.eqb (fst kv) key) table.

Definition lookup_code {A} (key : Z) (table : list (Z * A)) : option A :=
  snd <$> List.find (fun kv => (fst kv =? key)%Z) table.

(** [_TIPO_VOTO_MAP.get(tipo_raw, TipoVoto.NOMINAL)]: the table has the
    five names and the codes 1 to 5 as keys; [None] is the TypeError of an
    unhashable key *)
Definition _TIPO_VOTO_MAP_get (tipo_raw : PyVal) : option TipoVoto :=
  if hashable tipo_raw then
    Some (default NOMINAL
            match tipo_raw with
            | VStr s => lookup_name s _TIPO_VOTO_NAMES
            | _ => n ← as_int tipo_raw; lookup_code n _TIPO_VOTO_CODES
            end)
  else None.

(** [CARGOS.get(codigo_cargo, f"Cargo {codigo_cargo}")] *)
Definition CARGOS_get (codigo_cargo : PyVal) : option NomeCargo :=
  if hashable codigo_cargo then
    Some match as_int codigo_cargo ≫= (fun n => lookup_code n CARGOS) with
         | Some name => Known name
         | None => Cargo codigo_cargo
         end
  else None.

(** one iteration of [for vv in totais.get("votosVotaveis", [])] *)
Definition parse_voto (vv : PyVal) : option VotoTupla :=
  tipo_raw ← get vv "tipoVoto" (VStr "nominal");
  tipo_raw ← match tipo_raw with
             | VTuple items =>
                 first ← item items 0;
                 if is_str first then Some first else item items 1
             | _ => Some tipo_raw
             end;
  tipo_voto ← _TIPO_VOTO_MAP_get tipo_raw;
  ident_votavel ← get vv "identificacaoVotavel" (VDict []);
  let ident_votavel := py_or ident_votavel (VDict []) in
  codigo_votavel ← get ident_votavel "codigo" VNone;
  partido ← get ident_votavel "partido" VNone;
  quantidade ← get vv "quantidadeVotos" (VInt 0);
  hash ← get vv "hash" VNone;
  ordem_hash ← get vv "ordemGeracaoHash" VNone;
  Some {| tipo_voto := tipo_voto;
          quantidade := quantidade;
          codigo_votavel := codigo_votavel;
          partido := partido;
          vt_hash := hash;
          ordem_hash := ordem_hash |}.

(** one iteration of [for totais in res_votacao.get("totaisVotosCargo", [])] *)
Definition parse_totais (res_votacao totais : PyVal) : option ResultadoCargo :=
  codigo_cargo_raw ← get totais "codigoCargo" (VTuple [VNone; VInt 0]);
  codigo_cargo ← match codigo_cargo_raw with
                 | VTuple items =>
                     cargo_val ← item items 1;
                     match cargo_val with
                     | VStr name =>
                         Some (VInt (default 0%Z (lookup_name name _CARGO_NAME_MAP)))
                     | _ => Some cargo_val
                     end
                 | _ => Some codigo_cargo_raw
                 end;
  votos_raw ← get totais "votosVotaveis" (VList []);
  vvs ← iterate votos_raw;
  votos ← mapM parse_voto vvs;
  nome ← CARGOS_get codigo_cargo;
  comparecimento ← get res_votacao "qtdComparecimento" (VInt 0);
  Some {| codigo_cargo := codigo_cargo;
          nome_cargo := nome;
          comparecimento := comparecimento;
          votos := votos |}.

(** one iteration of [for res_votacao in res.get("resultadosVotacao", [])] *)
Definition parse_votacao (res_votacao : PyVal) : option (list ResultadoCargo) :=
  totais_raw ← get res_votacao "totaisVotosCargo" (VList []);
  totais ← iterate totais_raw;
  mapM (parse_totais res_votacao) totais.

Definition _parse_resultado_eleicao (res : PyVal) (spec_version : SpecVersion)
  : option ResultadoEleicao :=
  votacoes_raw ← get res "resultadosVotacao" (VList []);
  votacoes ← iterate votacoes_raw;
  resultados_cargo ← mapM parse_votacao votacoes;
  ultimo_hash ← get res "ultimoHashVotosVotavel" VNone;
  assinatura ← get res "assinaturaUltimoHashVotosVotavel" VNone;
  id_eleicao ← get res "idEleicao" (VInt 0);
  aptos ← get res "qtdEleitoresAptos" (VInt 0);
  aptos_secao ← get res "qtdEleitoresAptosSecao" VNone;
  aptos_tte ← get res "qtdEleitoresAptosTTE" VNone;
  Some {| id_eleicao := id_eleicao;
          eleitores_aptos := aptos;
          eleitores_aptos_secao := aptos_secao;
          eleitores_aptos_tte := aptos_tte;
          resultados := concat resultados_cargo;
          ultimo_hash := ultimo_hash;
          assinatura_ultimo_hash := assinatura |}.
End BU.

Module BUParser.
Import Py BU.

(** [Fase(fase_raw) if isinstance(fase_raw, int) else Fase.OFICIAL], with
    the ValueError of an unknown code handled by [Fase.OFICIAL] *)
Definition fase_of (fase_raw : PyVal) : Fase :=
  match as_int fase_raw with
  | Some 1%Z => SIMULADO
  | Some 3%Z => TREINAMENTO
  | _ => OFICIAL
  end.

(** the text kept from a tagged field of [urna]: [raw[0]] when it is a
    string, else [str(raw[1])], for a tuple; [str(raw)] for another true
    value; [None] otherwise *)
Definition tipo_urna_of (tipo_urna_raw : PyVal) : option Field :=
  match tipo_urna_raw with
  | VTuple items =>
      first ← item items 0;
      if is_str first then Some (Plain first)
      else py_str <$> item items 1
  | _ =>
      Some (if truthy tipo_urna_raw then py_str tipo_urna_raw else Plain VNone)
  end.

Definition tipo_arquivo_of (tipo_arquivo_raw : PyVal) : option Field :=
  match tipo_arquivo_raw with
  | VTuple items => Plain <$> item items 0
  | _ =>
      Some (if truthy tipo_arquivo_raw then py_str tipo_arquivo_raw else Plain VNone)
  end.

(** [_build_bu(envelope, bu, spec_version)]; [None] when it raises *)
Definition _build_bu (envelope bu : PyVal) (spec_version : SpecVersion)
  : option BoletimUrna :=
  ident ← get envelope "identificacao" (VTuple [VNone; VDict []]);
  ident_data ← match ident with
               | VTuple items => item items 1
               | _ => Some ident
               end;
  mz ← get ident_data "municipioZona" (VDict []);
  urna_bu ← get bu "urna" (VDict []);
  urna_data ← (if truthy urna_bu then Some urna_bu
               else get envelope "urna" (VDict []));
  '(codigo_carga, numero_interno, tipo_urna, tipo_arquivo, versao_votacao) ←
    (if truthy urna_data then
       corr ← get urna_data "correspondenciaResultado" (VDict []);
       '(codigo_carga, numero_interno) ←
         (if truthy corr then
            carga ← get corr "carga" (VDict []);
            if truthy carga then
              codigo ← get carga "codigoCarga" (VStr "");
              numero ← get carga "numeroInternoUrna" VNone;
              Some (py_str codigo, numero)
            else Some (Plain VNone, VNone)
          else Some (Plain VNone, VNone));
       tipo_urna_raw ← get urna_data "tipoUrna" VNone;
       tipo_urna ← tipo_urna_of tipo_urna_raw;
       versao_votacao ← get urna_data "versaoVotacao" VNone;
       tipo_arquivo_raw ← get urna_data "tipoArquivo" VNone;
       tipo_arquivo ← tipo_arquivo_of tipo_arquivo_raw;
       Some (codigo_carga, numero_interno, tipo_urna, tipo_arquivo, versao_votacao)
     else Some (Plain VNone, VNone, Plain VNone, Plain VNone, VNone));
  fase_env ← get envelope "fase" (VInt 2);
  fase_raw ← get bu "fase" fase_env;
  fase_raw ← match fase_raw with
             | VTuple items => item items 1
             | _ => Some fase_raw
             end;
  dados_sa_raw ← get bu "dadosSecaoSA" VNone;
  let dados_sa := if is_tuple dados_sa_raw then _unwrap_tuple dados_sa_raw
                  else py_or dados_sa_raw (VDict []) in
  let dados_sa := if is_dict dados_sa then dados_sa else VDict [] in
  hora_abertura ← get dados_sa "dataHoraAbertura" VNone;
  hora_encerramento ← get dados_sa "dataHoraEncerramento" VNone;
  eleicoes_raw ← get bu "resultadosVotacaoPorEleicao" (VList []);
  eleicoes ← iterate eleicoes_raw;
  resultados ← mapM (fun res => _parse_resultado_eleicao res spec_version) eleicoes;
  uf_raw ← get ident_data "uf" (VStr "");
  let uf := match uf_raw with VStr s => s | _ => "" end in
  municipio ← get mz "municipio" (VInt 0);
  zona ← get mz "zona" (VInt 0);
  secao ← get ident_data "secao" (VInt 0);
  local_votacao ← get ident_data "localVotacao" VNone;
  emissao ← get bu "dataHoraEmissao" VNone;
  lib_codigo ← get bu "qtdEleitoresLibCodigo" (VInt 0);
  comp_biometrico ← get bu "qtdEleitoresCompBiometrico" (VInt 0);
  historico ← get bu "historicoCorrespondencias" VNone;
  Some {| uf := uf;
          municipio := municipio;
          zona := zona;
          secao := secao;
          local_votacao := local_votacao;
          modelo_urna := VNone;
          numero_serie := VNone;
          numero_interno := numero_interno;
          codigo_carga := codigo_carga;
          tipo_urna := tipo_urna;
          tipo_arquivo := tipo_arquivo;
          versao_votacao := versao_votacao;
          fase := fase_of fase_raw;
          spec_version := spec_version;
          data_hora_emissao := emissao;
          hora_abertura := hora_abertura;
          hora_encerramento := hora_encerramento;
          qtd_eleitores_lib_codigo := lib_codigo;
          qtd_eleitores_comp_biometrico := comp_biometrico;
          resultados_por_eleicao := resultados;
          historico_correspondencias := historico |}.

Section Decoder.
(** [get_compiler(spec_version).decode(entity, bytearray(data))] of
    asn1tools, over the schema files of the repository's [spec/]
    directory; [None] when it raises *)
Variable asn1_decode : SpecVersion -> string -> bytes -> option PyVal.

(** [decode_envelope(data, inner_entity, spec_version)] *)
Definition decode_envelope (data : bytes) (inner_entity : string)
    (spec_version : SpecVersion) : option (PyVal * PyVal) :=
  envelope ← asn1_decode spec_version "EntidadeEnvelopeGenerico" data;
  inner_data ← match envelope with
               | VDict fields => assoc "conteudo" fields
               | _ => None
               end;
  inner_bytes ← match inner_data with VBytes b => Some b | _ => None end;
  inner ← asn1_decode spec_version inner_entity inner_bytes;
  Some (envelope, inner).

(** [BUParser.parse(file_path)], reading the file from [disk] *)
Definition parse (disk : Disk) (file_path : Path) : option BoletimUrna :=
  let spec_version := detect_spec_version (default "" (last file_path)) in
  raw ← disk !! file_path;
  '(envelope, bu) ← decode_envelope raw "EntidadeBoletimUrna" spec_version;
  _build_bu envelope bu spec_version.
End Decoder.
End BUParser.

(** ** analyzer/batch.py: what the store and the builder use of it *)

Module BatchAnalyzer.
Import Py BU.

Fixpoint string_drop (n : nat) (s : string) : string :=
  match n, s with
  | O, _ => s
  | S _, EmptyString => EmptyString
  | S n', String _ s' => string_drop n' s'
  end.

(** [s.split("-")[0]] *)
Fixpoint before_dash (s : string) : string :=
  match s with
  | EmptyString => EmptyString
  | String c s' => if Ascii.eqb c "-" then EmptyString else String c (before_dash s')
  end.

(** [bu_path.name] *)
Definition name (p : Path) : string := default "" (last p).

(** [bu_path.parent] *)
Definition parent (p : Path) : Path := removelast p.

Definition extract_pleito_from_filename (bu_path : Path) : string :=
  if PyStr.startswith (name bu_path) "o00"
  then before_dash (string_drop 3 (name bu_path))
  else "".

Definition pleito_to_turno (pleito : string) : Z :=
  if String.eqb pleito "406" then 1
  else if String.eqb pleito "407" then 2
  else if String.eqb pleito "452" then 1
  else if String.eqb pleito "453" then 2
  else 1.

(** the index of the first part equal to "raw" *)
Fixpoint raw_index (parts : Path) : option nat :=
  match parts with
  | [] => None
  | p :: rest => if String.eqb p "raw" then Some 0 else S <$> raw_index rest
  end.

(** [parts[-k] if len(parts) >= k else ""] *)
Definition from_end (parts : Path) (k : nat) : string :=
  if Nat.leb k (length parts) then default "" (parts !! (length parts - k)) else "".

(** the (uf, municipio, zona, secao) that [_analyze_section] reads off
    [section_dir.parts] *)
Definition locate (parts : Path) : string * string * string * string :=
  match raw_index parts with
  | Some i =>
      if Nat.ltb (i + 4) (length parts)
      then (default "" (parts !! (i + 1)), default "" (parts !! (i + 2)),
            default "" (parts !! (i + 3)), default "" (parts !! (i + 4)))
      else (from_end parts 4, from_end parts 3, from_end parts 2, from_end parts 1)
  | None => (from_end parts 4, from_end parts 3, from_end parts 2, from_end parts 1)
  end.

(** The log-event collaborator's answer for one log file. *)
Record LogEvents := {
  le_modelo : option string;
  votos_computados : Z;
  erros : Z;
  alertas_mesario : Z;
  substituicoes : Z;
  reboots : Z;
}.

Record LogTiming := {
  lt_hora_abertura : option string;
  lt_hora_encerramento : option string;
  duracao_votacao_min : option Z;
}.

(** The columns of an [Issue] that reach the store; [detalhes] is
    [str(issue.detalhes)] when that is true, else [None]. *)
Record Issue := {
  codigo : string;
  severidade : string;
  descricao : string;
  base_legal : option string;
  detalhes : option string;
}.

Record LogResult := {
  lr_events : LogEvents;
  lr_timing : LogTiming;
  lr_issues : list Issue;
}.

(** The analyzers outside the pipeline's core, as functions of what they
    are given. *)
Record Collaborators := {
  (** [full_analysis(bu)] followed by [analyze_bu(bu)] *)
  bu_issues : BoletimUrna -> list Issue;
  (** the model read from the signature file next to the BU, already
      normalised; [None] when there is no such file, it does not parse or
      it names no model *)
  signature_modelo : Path -> Path -> option string;
  (** [analyze_log] on the log file next to the BU; [None] when there is
      no such file or it raises *)
  log_analysis : Path -> Path -> option BoletimUrna -> option LogResult;
}.

(** The [result] dictionary of [_analyze_section]; what it holds under
    "bu", "tipo_urna" and "versao_sw" is read off [a_bu_obj]. *)
Record Analysis := {
  a_uf : string;
  a_municipio : string;
  a_zona : string;
  a_secao : string;
  a_turno : Z;
  a_bu_obj : option BoletimUrna;
  a_modelo : option string;
  a_issues : list Issue;
  a_log_timing : option LogTiming;
  a_log_events : option LogEvents;
}.

Definition nonempty (o : option string) : bool :=
  match o with Some s => negb (String.eqb s "") | None => false end.

Section Analyzer.
(** [self._bu_parser.parse(bu_file)] when [bu_file.exists()]; [None] when
    the file is absent or the parser raises *)
Variable parse : Path -> option BoletimUrna.
Variable collab : Collaborators.

(** [_analyze_section(section_dir, bu_file=bu_file)] *)
Definition _analyze_section (section_dir bu_file : Path) : Analysis :=
  let '(uf, municipio, zona, secao) := locate section_dir in
  let pleito := extract_pleito_from_filename bu_file in
  let turno := pleito_to_turno pleito in
  let bu := parse bu_file in
  let modelo_sig := signature_modelo collab section_dir bu_file in
  let log := log_analysis collab section_dir bu_file bu in
  let modelo_log := log ≫= (fun l => le_modelo (lr_events l)) in
  {| a_uf := uf;
     a_municipio := municipio;
     a_zona := zona;
     a_secao := secao;
     a_turno := turno;
     a_bu_obj := bu;
     a_modelo := if negb (nonempty modelo_sig) && nonempty modelo_log
                 then modelo_log else modelo_sig;
     a_issues := from_option (bu_issues collab) [] bu
                 ++ from_option lr_issues [] log;
     a_log_timing := lr_timing <$> log;
     a_log_events := lr_events <$> log |}.
End Analyzer.

(** numeric fields of a ballot record hold ints (the schema declares them
    INTEGER); this reads one *)
Definition int_of (v : PyVal) : Z := default 0%Z (as_int v).

(** [sum(v.quantidade for v in cargo.votos if v.tipo_voto.value == kind)] *)
Definition sum_kind (kind : string) (votos : list VotoTupla) : Z :=
  foldr (fun v total =>
           if String.eqb (value (tipo_voto v)) kind
           then (int_of (quantidade v) + total)%Z else total)
        0%Z votos.
End BatchAnalyzer.

(** ** database/duckdb_store.py *)

Module DuckDBStore.
Import Py BU BatchAnalyzer.

(** [round(num / den * 100, 2)], kept as the quotient it rounds *)
Record Pct := { pct_num : Z; pct_den : Z }.

(** A row of [secoes] without its primary key [id]. *)
Record SecaoRow := {
  turno : Z;
  uf : string;
  regiao : string;
  municipio : string;
  zona : string;
  secao : string;
  modelo_urna : option string;
  tipo_urna : Field;
  versao_sw : PyVal;
  fuso_offset : Z;
  emissao : PyVal;
  eleitores_aptos : Z;
  comparecimento : Z;
  lib_codigo : Z;
  comp_biometrico : Z;
  pct_biometria : option Pct;
  pct_abstencao : option Pct;
  hora_abertura : option string;
  hora_encerramento : option string;
  duracao_min : option Z;
  reboots : Z;
  erros_log : Z;
  alertas_mesario : Z;
  votos_log : Z;
  substituicoes : Z;
  is_reserva : bool;
  has_issues : bool;
  n_issues : nat;
}.

Record VotoRow := {
  v_secao_id : string;
  v_eleicao_id : PyVal;
  v_cargo : NomeCargo;
  v_codigo_cargo : PyVal;
  v_tipo_voto : string;
  v_codigo_candidato : PyVal;
  v_partido : PyVal;
  v_quantidade : PyVal;
}.

(** A row of [issues] without the [id] drawn from [issue_seq]. *)
Record IssueRow := {
  i_secao_id : string;
  i_codigo : string;
  i_severidade : string;
  i_descricao : string;
  i_base_legal : option string;
  i_detalhes : option string;
}.

Record TotaisRow := {
  t_secao_id : string;
  t_eleicao_id : PyVal;
  t_cargo : NomeCargo;
  t_codigo_cargo : PyVal;
  t_comparecimento : PyVal;
  t_nominais : Z;
  t_brancos : Z;
  t_nulos : Z;
  t_legenda : Z;
  t_total : Z;
}.

(** The database: [secoes] has a primary key, the other tables are bags
    kept in insertion order, [issue_seq] is the sequence's next value. *)
Record Store := {
  secoes : gmap string SecaoRow;
  votos : list VotoRow;
  issues : list (Z * IssueRow);
  totais_cargo : list TotaisRow;
  issue_seq : Z;
}.

Definition empty_store : Store :=
  {| secoes := ∅; votos := []; issues := []; totais_cargo := []; issue_seq := 1 |}.

(** The statements the code issues. *)
Inductive Stmt :=
  | InsertOrReplaceSecao (id : string) (row : SecaoRow)
      (* INSERT OR REPLACE INTO secoes VALUES (...) *)
  | InsertIssue (row : IssueRow)
      (* INSERT INTO issues VALUES (nextval('issue_seq'), ...) *)
  | InsertVoto (row : VotoRow)
      (* INSERT INTO votos VALUES (...) *)
  | InsertTotais (row : TotaisRow).
      (* INSERT INTO totais_cargo VALUES (...) *)

(** [self._conn.execute(stmt)] *)
Definition execute (db : Store) (stmt : Stmt) : Store :=
  match stmt with
  | InsertOrReplaceSecao id row =>
      {| secoes := <[id := row]> (secoes db); votos := votos db;
         issues := issues db; totais_cargo := totais_cargo db;
         issue_seq := issue_seq db |}
  | InsertIssue row =>
      {| secoes := secoes db; votos := votos db;
         issues := issues db ++ [(issue_seq db, row)];
         totais_cargo := totais_cargo db;
         issue_seq := (issue_seq db + 1)%Z |}
  | InsertVoto row =>
      {| secoes := secoes db; votos := votos db ++ [row];
         issues := issues db; totais_cargo := totais_cargo db;
         issue_seq := issue_seq db |}
  | InsertTotais row =>
      {| secoes := secoes db; votos := votos db;
         issues := issues db; totais_cargo := totais_cargo db ++ [row];
         issue_seq := issue_seq db |}
  end.

(** [executemany], and a run of [execute] calls *)
Definition execute_all (db : Store) (stmts : list Stmt) : Store :=
  foldl execute db stmts.

(** [_UF_REGIAO.get(uf.lower(), "desconhecida")], from [config.REGIOES] *)
Definition REGIOES : list (string * list string) :=
  [ ("norte", ["ac"; "am"; "ap"; "pa"; "ro"; "rr"; "to"]);
    ("nordeste", ["al"; "ba"; "ce"; "ma"; "pb"; "pe"; "pi"; "rn"; "se"]);
    ("centro_oeste", ["df"; "go"; "ms"; "mt"]);
    ("sudeste", ["es"; "mg"; "rj"; "sp"]);
    ("sul", ["pr"; "rs"; "sc"]) ].

Definition _UF_REGIAO_get (uf : string) : string :=
  match List.find (fun r => existsb (String.eqb uf) (snd r)) REGIOES with
  | Some r => fst r
  | None => "desconhecida"
  end.

(** [TIMEZONE_OFFSETS.get(uf.lower(), 0)] *)
Definition TIMEZONE_OFFSETS_get (uf : string) : Z :=
  if String.eqb uf "ac" then (-2)
  else if existsb (String.eqb uf) ["am"; "mt"; "ms"; "ro"; "rr"] then (-1)
  else 0.

(** [f"{turno}T/{uf}/{municipio}/{zona}/{secao}"] *)
Definition format_secao_id (turno : Z) (uf municipio zona secao : string) : string :=
  pretty turno +:+ "T/" +:+ uf +:+ "/" +:+ municipio +:+ "/" +:+ zona +:+ "/" +:+ secao.

Definition secao_id_of (a : Analysis) : string :=
  format_secao_id (a_turno a) (a_uf a) (a_municipio a) (a_zona a) (a_secao a).

(** the largest [comparecimento] over all offices of all elections,
    starting from 0 *)
Definition max_comparecimento (eleicoes : list ResultadoEleicao) : Z :=
  foldl (fun acc el =>
           foldl (fun acc c =>
                    let comp := int_of (BU.comparecimento c) in
                    if (acc <? comp)%Z then comp else acc)
                 acc (resultados el))
        0%Z eleicoes.

(** the parameters of the INSERT into [secoes] *)
Definition secao_row (a : Analysis) : SecaoRow :=
  let bu := a_bu_obj a in
  let eleicoes := from_option resultados_por_eleicao [] bu in
  let eleitores_aptos :=
    match eleicoes with
    | el :: _ => int_of (BU.eleitores_aptos el)
    | [] => 0%Z
    end in
  let comparecimento := max_comparecimento eleicoes in
  let lib_codigo := from_option (fun b => int_of (qtd_eleitores_lib_codigo b)) 0%Z bu in
  let comp_bio := from_option (fun b => int_of (qtd_eleitores_comp_biometrico b)) 0%Z bu in
  let total_bio := (lib_codigo + comp_bio)%Z in
  let timing := a_log_timing a in
  let log_events := a_log_events a in
  let tipo_urna := from_option BU.tipo_urna (Plain VNone) bu in
  {| turno := a_turno a;
     uf := a_uf a;
     regiao := _UF_REGIAO_get (PyStr.lower (a_uf a));
     municipio := a_municipio a;
     zona := a_zona a;
     secao := a_secao a;
     modelo_urna := a_modelo a;
     tipo_urna := tipo_urna;
     versao_sw := from_option versao_votacao VNone bu;
     fuso_offset := TIMEZONE_OFFSETS_get (PyStr.lower (a_uf a));
     emissao := from_option data_hora_emissao VNone bu;
     eleitores_aptos := eleitores_aptos;
     comparecimento := comparecimento;
     lib_codigo := lib_codigo;
     comp_biometrico := comp_bio;
     pct_biometria :=
       if (0 <? total_bio)%Z
       then Some {| pct_num := comp_bio; pct_den := total_bio |} else None;
     pct_abstencao :=
       if (0 <? eleitores_aptos)%Z
       then Some {| pct_num := eleitores_aptos - comparecimento;
                    pct_den := eleitores_aptos |}
       else None;
     hora_abertura := timing ≫= lt_hora_abertura;
     hora_encerramento := timing ≫= lt_hora_encerramento;
     duracao_min := timing ≫= duracao_votacao_min;
     reboots := from_option BatchAnalyzer.reboots 0%Z log_events;
     erros_log := from_option erros 0%Z log_events;
     alertas_mesario := from_option BatchAnalyzer.alertas_mesario 0%Z log_events;
     votos_log := from_option votos_computados 0%Z log_events;
     substituicoes := from_option BatchAnalyzer.substituicoes 0%Z log_events;
     is_reserva := match tipo_urna with
                   | Plain (VStr s) => String.eqb s "reservaSecao"
                   | _ => false
                   end;
     has_issues := negb (Nat.eqb (length (a_issues a)) 0);
     n_issues := length (a_issues a) |}.

Definition issue_row (secao_id : string) (issue : Issue) : IssueRow :=
  {| i_secao_id := secao_id;
     i_codigo := codigo issue;
     i_severidade := severidade issue;
     i_descricao := descricao issue;
     i_base_legal := base_legal issue;
     i_detalhes := detalhes issue |}.

Definition voto_row (secao_id : string) (eleicao : ResultadoEleicao)
    (cargo : ResultadoCargo) (voto : VotoTupla) : VotoRow :=
  {| v_secao_id := secao_id;
     v_eleicao_id := id_eleicao eleicao;
     v_cargo := nome_cargo cargo;
     v_codigo_cargo := codigo_cargo cargo;
     v_tipo_voto := value (tipo_voto voto);
     v_codigo_candidato := codigo_votavel voto;
     v_partido := partido voto;
     v_quantidade := quantidade voto |}.

(** The four counters of the loop over [cargo.votos]. *)
Record Tally := { nominais : Z; brancos : Z; nulos : Z; legenda : Z }.

(** the [if tipo == "nominal": ... elif ...] chain *)
Definition tally_vote (t : Tally) (voto : VotoTupla) : Tally :=
  let tipo := value (tipo_voto voto) in
  let q := int_of (quantidade voto) in
  if String.eqb tipo "nominal" then
    {| nominais := nominais t + q; brancos := brancos t; nulos := nulos t;
       legenda := legenda t |}
  else if String.eqb tipo "branco" then
    {| nominais := nominais t; brancos := brancos t + q; nulos := nulos t;
       legenda := legenda t |}
  else if String.eqb tipo "nulo" then
    {| nominais := nominais t; brancos := brancos t; nulos := nulos t + q;
       legenda := legenda t |}
  else if String.eqb tipo "legenda" then
    {| nominais := nominais t; brancos := brancos t; nulos := nulos t;
       legenda := legenda t + q |}
  else t.

Definition tally (votos : list VotoTupla) : Tally :=
  foldl tally_vote {| nominais := 0; brancos := 0; nulos := 0; legenda := 0 |} votos.

Definition totais_row (secao_id : string) (eleicao : ResultadoEleicao)
    (cargo : ResultadoCargo) : TotaisRow :=
  let t := tally (BU.votos cargo) in
  {| t_secao_id := secao_id;
     t_eleicao_id := id_eleicao eleicao;
     t_cargo := nome_cargo cargo;
     t_codigo_cargo := codigo_cargo cargo;
     t_comparecimento := BU.comparecimento cargo;
     t_nominais := nominais t;
     t_brancos := brancos t;
     t_nulos := nulos t;
     t_legenda := legenda t;
     t_total := nominais t + brancos t + nulos t + legenda t |}.

(** the (eleicao, cargo) pairs in the order of the nested loops *)
Definition cargos_of (a : Analysis) : list (ResultadoEleicao * ResultadoCargo) :=
  eleicao ← from_option resultados_por_eleicao [] (a_bu_obj a);
  cargo ← resultados eleicao;
  [(eleicao, cargo)].

(** the statements of [_process_section], in the order it issues them *)
Definition section_statements (a : Analysis) : list Stmt :=
  let secao_id := secao_id_of a in
  [InsertOrReplaceSecao secao_id (secao_row a)]
  ++ map (fun issue => InsertIssue (issue_row secao_id issue)) (a_issues a)
  ++ concat (map (fun '(eleicao, cargo) =>
                    map (fun voto => InsertVoto (voto_row secao_id eleicao cargo voto))
                        (BU.votos cargo)
                    ++ [InsertTotais (totais_row secao_id eleicao cargo)])
                 (cargos_of a)).

Section Store.
Variable parse : Path -> option BoletimUrna.
Variable collab : Collaborators.

(** [_process_section(analyzer, section_dir, bu_file=bu_file)] *)
Definition _process_section (db : Store) (section_dir bu_file : Path) : Store :=
  execute_all db (section_statements (_analyze_section parse collab section_dir bu_file)).

(** [_bu_file_to_secao_id(bu_file, analyzer)]; "" when the path does not
    have four parts after "raw" *)
Definition _bu_file_to_secao_id (bu_file : Path) : string :=
  let parts := parent bu_file in
  match raw_index parts with
  | Some raw_idx =>
      match parts !! (raw_idx + 1), parts !! (raw_idx + 2),
            parts !! (raw_idx + 3), parts !! (raw_idx + 4) with
      | Some uf, Some mun, Some zona, Some secao =>
          let pleito := extract_pleito_from_filename bu_file in
          format_secao_id (pleito_to_turno pleito) uf mun zona secao
      | _, _, _, _ => ""
      end
  | None => ""
  end.
End Store.

(** the rows of [votos] that belong to one section *)
Definition votos_of (secao_id : string) (db : Store) : list VotoRow :=
  List.filter (fun r => String.eqb (v_secao_id r) secao_id) (votos db).
End DuckDBStore.

(** ** Finding ballot files on disk *)

Module Glob.
Import BatchAnalyzer.

(** the order of [sorted] on paths: part by part, each part as a string *)
Fixpoint path_leb (p q : Path) : bool :=
  match p, q with
  | [], _ => true
  | _ :: _, [] => false
  | a :: p', b :: q' =>
      if String.eqb a b then path_leb p' q' else String.leb a b
  end.

Definition path_le (p q : Path) : Prop := path_leb p q = true.

#[export] Instance path_le_dec p q : Decision (path_le p q).
Proof. unfold path_le. apply _. Defined.

Definition sorted (paths : list Path) : list Path := merge_sort path_le paths.

(** the files of the disk *)
Definition files (disk : Disk) : list Path := elements (dom disk).

(** [sorted(base.rglob("*" + suffix))] *)
Definition rglob (disk : Disk) (base : Path) (suffix : string) : list Path :=
  sorted (List.filter
            (fun f => bool_decide (base `prefix_of` parent f)
                      && PyStr.endswith (name f) suffix)
            (files disk)).

(** [section_dir.glob(prefix + "*" + suffix)] *)
Definition glob (disk : Disk) (section_dir : Path) (prefix suffix : string)
  : list Path :=
  List.filter
    (fun f => bool_decide (parent f = section_dir)
              && negb (Nat.eqb (length f) 0)
              && PyStr.startswith (name f) prefix
              && PyStr.endswith (string_drop (String.length prefix) (name f)) suffix)
    (files disk).

(** [BatchAnalyzer.find_bu_files()] *)
Definition find_bu_files (disk : Disk) (raw_dir : Path) : list Path :=
  rglob disk raw_dir ".bu" ++ rglob disk raw_dir "-bu.dat".
End Glob.

(** ** scripts/rebuild_parallel.py: the worker's result and its insertion *)

Module RebuildParallel.
Import BU BatchAnalyzer DuckDBStore.

(** The dictionary [parse_section] returns. *)
Inductive BatchItem :=
  | ItemError (file : Path)
  | ItemOk (secao_id : string) (secao : SecaoRow) (issues : list IssueRow)
           (votos : list VotoRow) (totais : list TotaisRow).

Section Worker.
Variable parse : Path -> option BoletimUrna.
Variable collab : Collaborators.

Definition parse_section (bu_file : Path) : BatchItem :=
  let a := _analyze_section parse collab (parent bu_file) bu_file in
  let secao_id := secao_id_of a in
  ItemOk secao_id (secao_row a)
         (map (issue_row secao_id) (a_issues a))
         (concat (map (fun '(eleicao, cargo) =>
                         map (voto_row secao_id eleicao cargo) (BU.votos cargo))
                      (cargos_of a)))
         (map (fun '(eleicao, cargo) => totais_row secao_id eleicao cargo)
              (cargos_of a)).
End Worker.

Definition item_secoes (item : BatchItem) : list Stmt :=
  match item with
  | ItemError _ => []
  | ItemOk id secao _ _ _ => [InsertOrReplaceSecao id secao]
  end.

Definition item_issues (item : BatchItem) : list Stmt :=
  match item with
  | ItemError _ => []
  | ItemOk _ _ issues _ _ => map InsertIssue issues
  end.

Definition item_votos (item : BatchItem) : list Stmt :=
  match item with
  | ItemError _ => []
  | ItemOk _ _ _ votos _ => map InsertVoto votos
  end.

Definition item_totais (item : BatchItem) : list Stmt :=
  match item with
  | ItemError _ => []
  | ItemOk _ _ _ _ totais => map InsertTotais totais
  end.

(** [insert_batch(store, batch)]: four [executemany] calls *)
Definition insert_batch (db : Store) (batch : list BatchItem) : Store :=
  let db := execute_all db (batch ≫= item_secoes) in
  let db := execute_all db (batch ≫= item_issues) in
  let db := execute_all db (batch ≫= item_votos) in
  execute_all db (batch ≫= item_totais).
End RebuildParallel.

(** ** scripts/download_and_build.py: the snapshot *)

Module Snapshot.
Import BatchAnalyzer.

(** what is left of a name's tail when its last suffix is cut *)
Fixpoint cut_suffix (tail : string) : string :=
  match tail with
  | EmptyString => EmptyString
  | String c rest =>
      if negb (PyStr.contains rest ".") && Ascii.eqb c "."
      then EmptyString
      else String c (cut_suffix rest)
  end.

(** [p.stem], for a name that does not end in a dot: the name without its
    last suffix; a dot in first position does not start a suffix *)
Definition stem (n : string) : string :=
  match n with
  | EmptyString => EmptyString
  | String c rest => String c (cut_suffix rest)
  end.

(** [p.with_suffix(suffix)] *)
Definition with_suffix (p : Path) (suffix : string) : Path :=
  parent p ++ [stem (name p) +:+ suffix].

Section CreateSnapshot.
(** what the database holds: the store of the builder *)
Variable DB : Type.
(** [config.DB_DIR] *)
Variable DB_DIR : Path.

Definition DEFAULT_DB_PATH : Path := DB_DIR ++ ["eleicoes_2022.duckdb"].
Definition SNAPSHOT_PATH : Path :=
  parent DEFAULT_DB_PATH ++ ["eleicoes_2022_live.duckdb"].

Definition tmp_snap : Path := with_suffix SNAPSHOT_PATH ".duckdb.tmp".
Definition wal : Path := with_suffix SNAPSHOT_PATH ".duckdb.wal".

(** What a file of the database directory holds. *)
Inductive FileData :=
  | Complete (db : DB)      (* a finished database file *)
  | Partial (db : DB)       (* a copy of it that stopped half way *)
  | WalData.                (* a write-ahead log *)

(** The writer's database ([primary file + pending writes]), the files,
    and what was logged. *)
Inductive LogRecord := Info | Warning.

Record World := {
  db : DB;
  files : gmap Path FileData;
  logged : list LogRecord;
}.

(** The calls of the [try] block. *)
Inductive Op :=
  | OpCheckpoint                      (* store._conn.execute("CHECKPOINT") *)
  | OpUnlink (p : Path)               (* p.unlink(missing_ok=True) *)
  | OpCopy (src dst : Path)           (* shutil.copy2(src, dst) *)
  | OpRename (src dst : Path).        (* src.rename(dst) *)

(** How a call may go wrong: it raises and leaves things as they were,
    or (a copy) raises after writing part of the destination. *)
Inductive Fault := NoFault | Raises | RaisesHalfWay.

(** which call fails, by its position in the block *)
Variable fault : nat -> Fault.

Definition set_files (w : World) (fs : gmap Path FileData) : World :=
  {| db := db w; files := fs; logged := logged w |}.

Definition log (w : World) (r : LogRecord) : World :=
  {| db := db w; files := files w; logged := logged w ++ [r] |}.

(** one call: the world after it, and whether it raised *)
Definition perform (k : nat) (op : Op) (w : World) : World * bool :=
  match fault k, op with
  | Raises, _ => (w, true)
  | RaisesHalfWay, OpCopy src dst =>
      match files w !! src with
      | Some (Complete d) => (set_files w (<[dst := Partial d]> (files w)), true)
      | _ => (w, true)
      end
  | RaisesHalfWay, _ => (w, true)
  | NoFault, OpCheckpoint =>
      (set_files w (<[DEFAULT_DB_PATH := Complete (db w)]> (files w)), false)
  | NoFault, OpUnlink p => (set_files w (delete p (files w)), false)
  | NoFault, OpCopy src dst =>
      match files w !! src with
      | Some data => (set_files w (<[dst := data]> (files w)), false)
      | None => (w, true)
      end
  | NoFault, OpRename src dst =>
      match files w !! src with
      | Some data => (set_files w (<[dst := data]> (delete src (files w))), false)
      | None => (w, true)
      end
  end.

(** the calls from position [k] on, until one raises: the calls made,
    the world after each of them, and whether the last one raised *)
Fixpoint perform_all (k : nat) (ops : list Op) (w : World)
  : list (Op * World) * bool :=
  match ops with
  | [] => ([], false)
  | op :: rest =>
      let '(w', raised) := perform k op w in
      if raised then ([(op, w')], true)
      else let '(trace, raised') := perform_all (S k) rest w' in
           ((op, w') :: trace, raised')
  end.

(** the [try] block of [create_snapshot], before its [logger.info] *)
Definition snapshot_block : list Op :=
  [ OpCheckpoint;
    OpUnlink tmp_snap;
    OpCopy DEFAULT_DB_PATH tmp_snap;
    OpRename tmp_snap SNAPSHOT_PATH;
    OpUnlink wal ].

Definition last_world (w : World) (trace : list (Op * World)) : World :=
  default w (snd <$> last trace).

(** the [try] block: the trace of the calls, the world it leaves, and
    how it ends *)
Definition try_block (w : World) : list (Op * World) * World * Outcome unit :=
  let '(trace, raised) := perform_all 0 snapshot_block w in
  let w' := last_world w trace in
  if raised then (trace, w', Raised OtherException)
  else (trace, log w' Info, Returned tt).

(** [create_snapshot(store)], with its [except Exception as e:
    logger.warning(...)] *)
Definition create_snapshot (w : World)
  : list (Op * World) * World * Outcome unit :=
  match try_block w with
  | (trace, w', Raised _) => (trace, log w' Warning, Returned tt)
  | (trace, w', Returned _) => (trace, w', Returned tt)
  end.
End CreateSnapshot.

Arguments db {DB} w.
Arguments files {DB} w.
Arguments logged {DB} w.
Arguments Complete {DB} db.
Arguments Partial {DB} db.
Arguments WalData {DB}.
Arguments create_snapshot {DB} DB_DIR fault w.
End Snapshot.

(** ** scripts/download_and_build.py: the realtime builder, and
       [DuckDBStore.build_incremental] *)

Module RealtimeBuilder.
Import BU BatchAnalyzer DuckDBStore Glob.

Definition BATCH_SIZE : nat := 200.
Definition SNAPSHOT_INTERVAL : nat := 500.

(** (section_dir, bu_file, secao_id) *)
Definition QueueItem : Type := Path * Path * string.

(** What the builder does to the database file besides inserting. *)
Inductive Maintenance := DidCheckpoint | DidSnapshot.

(** Where the compile thread is in a turn of the [while] loop of
    [_compile_loop]: filling its [batch] from the queue, or in the [for]
    loop over the batch, at [item] with [rest] to follow. *)
Inductive Phase :=
  | Collecting (batch : list QueueItem)
  | Processing (item : QueueItem) (rest : list QueueItem).

Record Builder := {
  store : Store;                  (* self._store *)
  existing : gset string;         (* self._existing *)
  queue : list QueueItem;         (* self._queue *)
  phase : Phase;                  (* the compile thread *)
  compiled : nat;                 (* self._compiled *)
  errors : nat;                   (* self._errors *)
  last_snapshot : nat;            (* self._last_snapshot *)
  maintenance : list Maintenance;
}.

Definition set_queue (b : Builder) (q : list QueueItem) : Builder :=
  {| store := store b; existing := existing b; queue := q; phase := phase b;
     compiled := compiled b; errors := errors b;
     last_snapshot := last_snapshot b; maintenance := maintenance b |}.

Definition set_phase (b : Builder) (p : Phase) : Builder :=
  {| store := store b; existing := existing b; queue := queue b; phase := p;
     compiled := compiled b; errors := errors b;
     last_snapshot := last_snapshot b; maintenance := maintenance b |}.

Section Builder.
Variable raw_dir : Path.
(** the disk tree the run finds; the downloads of the run add no ballot
    file to it *)
Variable disk : Disk.
Variable parse : Path -> option BoletimUrna.
Variable collab : Collaborators.
(** whether [_process_section] raises for a ballot file (a storage
    error), before its first statement *)
Variable raises : Path -> bool.

(** [RealtimeBuilder.__init__], on the database it opens *)
Definition init (db : Store) : Builder :=
  {| store := db;
     existing := dom (secoes db);
     queue := [];
     phase := Collecting [];
     compiled := 0;
     errors := 0;
     last_snapshot := 0;
     maintenance := [DidSnapshot] |}.

(** [self._queue.put(item)] *)
Definition enqueue (b : Builder) (item : QueueItem) : Builder :=
  set_queue b (queue b ++ [item]).

(** the body of the loops of [on_section_downloaded] and
    [compile_remaining_from_disk] *)
Definition offer (b : Builder) (bu_file : Path) : Builder :=
  let secao_id := _bu_file_to_secao_id bu_file in
  if String.eqb secao_id "" || bool_decide (secao_id ∈ existing b) then b
  else enqueue b (parent bu_file, bu_file, secao_id).

(** [bu_files] of [on_section_downloaded] *)
Definition callback_files (section_dir : Path) (pleito : string) : list Path :=
  let prefix := "o00" +:+ pleito in
  glob disk section_dir prefix ".bu" ++ glob disk section_dir prefix "-bu.dat".

Definition on_section_downloaded (section_dir : Path) (pleito : string)
    (b : Builder) : Builder :=
  foldl offer b (callback_files section_dir pleito).

Definition compile_remaining_from_disk (b : Builder) : Builder :=
  foldl offer b (find_bu_files disk raw_dir).

(** the body of [for section_dir, bu_file, secao_id in batch] *)
Definition compile_item (b : Builder) (item : QueueItem) : Builder :=
  let '(section_dir, bu_file, secao_id) := item in
  if bool_decide (secao_id ∈ existing b) then b
  else if raises bu_file then
    {| store := store b; existing := existing b; queue := queue b;
       phase := phase b;
       compiled := compiled b; errors := errors b + 1;
       last_snapshot := last_snapshot b; maintenance := maintenance b |}
  else
    {| store := _process_section parse collab (store b) section_dir bu_file;
       existing := {[secao_id]} ∪ existing b;
       queue := queue b;
       phase := phase b;
       compiled := compiled b + 1;
       errors := errors b;
       last_snapshot := last_snapshot b;
       maintenance := maintenance b |}.

Definition record (b : Builder) (m : Maintenance) (last : nat) : Builder :=
  {| store := store b; existing := existing b; queue := queue b;
     phase := phase b;
     compiled := compiled b; errors := errors b;
     last_snapshot := last; maintenance := maintenance b ++ [m] |}.

(** *** The steps of the compile thread *)

(** [item = self._queue.get(timeout=2.0); batch.append(item)], with the
    batch short of [BATCH_SIZE] and an item in the queue *)
Definition get (b : Builder) : Builder :=
  match phase b, queue b with
  | Collecting batch, item :: q =>
      if Nat.ltb (length batch) BATCH_SIZE
      then set_phase (set_queue b q) (Collecting (batch ++ [item]))
      else b
  | _, _ => b
  end.

(** the inner [while] is left, the batch full or [Empty] raised:
    [if not batch: continue], else the [for] loop starts *)
Definition close_batch (b : Builder) : Builder :=
  match phase b with
  | Collecting (item :: rest) => set_phase b (Processing item rest)
  | _ => b
  end.

(** what follows the [for] loop: the checkpoint, and a snapshot every
    [SNAPSHOT_INTERVAL] compiled sections *)
Definition end_of_turn (b : Builder) : Builder :=
  let b := record b DidCheckpoint (last_snapshot b) in
  if Nat.leb SNAPSHOT_INTERVAL (compiled b - last_snapshot b)
  then record b DidSnapshot (compiled b)
  else b.

(** one iteration of the [for] loop, and the end of the turn after the
    last *)
Definition compile_next (b : Builder) : Builder :=
  match phase b with
  | Processing item rest =>
      let b := compile_item b item in
      match rest with
      | item' :: rest' => set_phase b (Processing item' rest')
      | [] => end_of_turn (set_phase b (Collecting []))
      end
  | Collecting _ => b
  end.

(** the compile thread left alone: it takes what the queue holds, up to
    [BATCH_SIZE], then compiles its batch *)
Definition thread_step (b : Builder) : Builder :=
  match phase b, queue b with
  | Processing _ _, _ => compile_next b
  | Collecting batch, _ :: _ =>
      if Nat.ltb (length batch) BATCH_SIZE then get b else close_batch b
  | Collecting _, [] => close_batch b
  end.

(** a bound on the steps the compile thread has left *)
Definition work_left (b : Builder) : nat :=
  3 * length (queue b)
  + match phase b with
    | Collecting batch => 2 * length batch
    | Processing _ rest => 2 * length rest + 1
    end.

(** [self._thread.join()] once [self._done] is set: the thread runs
    until it is at the head of its loop with the queue empty *)
Fixpoint join (fuel : nat) (b : Builder) : Builder :=
  match fuel with
  | O => b
  | S fuel' =>
      match phase b, queue b with
      | Collecting [], [] => b
      | _, _ => join fuel' (thread_step b)
      end
  end.

(** [finish()] *)
Definition finish (b : Builder) : Builder :=
  let b := join (work_left b) b in
  record b DidSnapshot (last_snapshot b).

(** *** The two threads

    The main thread offers ballot files to the queue: those of
    [compile_remaining_from_disk], then those of the callback of every
    section the downloads report.  The compile thread takes items from the
    queue and compiles them.  The threads meet at the queue and at
    [self._existing], and a step is one operation of one thread on them. *)
Inductive Step :=
  | Offer          (* the main thread: the next ballot file *)
  | Get            (* the compile thread *)
  | CloseBatch
  | CompileNext.

(** the ballot files the main thread offers, in order, when the downloads
    report the sections [downloads] *)
Definition main_offers (downloads : list (Models.ElectoralSection * string))
  : list Path :=
  find_bu_files disk raw_dir
  ++ flat_map (fun '(s, pleito) =>
                 callback_files (DownloadManager._section_dir raw_dir s) pleito)
              downloads.

(** the run up to [finish()]: the steps of [schedule] in order, and then
    what the main thread still had to offer *)
Fixpoint interleave (schedule : list Step) (to_offer : list Path) (b : Builder)
  : Builder :=
  match schedule with
  | [] => foldl offer b to_offer
  | Offer :: schedule' =>
      match to_offer with
      | bu_file :: to_offer' => interleave schedule' to_offer' (offer b bu_file)
      | [] => interleave schedule' [] b
      end
  | Get :: schedule' => interleave schedule' to_offer (get b)
  | CloseBatch :: schedule' => interleave schedule' to_offer (close_batch b)
  | CompileNext :: schedule' => interleave schedule' to_offer (compile_next b)
  end.

(** [main()]: a builder on the database, the files already on disk and
    the downloads interleaved with the compile thread, then [finish] *)
Definition main (db : Store) (downloads : list (Models.ElectoralSection * string))
    (schedule : list Step) : Builder :=
  finish (interleave schedule (main_offers downloads) (init db)).

(** *** [DuckDBStore.build_incremental] *)

(** [new_bu_files]: the ballot files of the tree whose SectionId the
    database does not hold *)
Definition new_bu_files (db : Store) : list Path :=
  let existing := dom (secoes db) in
  List.filter
    (fun bu_file =>
       let secao_id := _bu_file_to_secao_id bu_file in
       negb (String.eqb secao_id "") && negb (bool_decide (secao_id ∈ existing)))
    (find_bu_files disk raw_dir).

(** the body of [for i, bu_file in enumerate(new_bu_files)], on the
    database and the [processed] and [errors] counters *)
Definition compile_new (state : Store * nat * nat) (bu_file : Path)
  : Store * nat * nat :=
  let '(db, processed, errors) := state in
  if raises bu_file then (db, processed, errors + 1)
  else (_process_section parse collab db (parent bu_file) bu_file,
        processed + 1, errors).

(** the database [build_incremental] leaves, and its counters *)
Definition build_incremental (db : Store) : Store * nat * nat :=
  foldl compile_new (db, 0, 0) (new_bu_files db).
End Builder.
End RealtimeBuilder.

(** * Properties *)

(** ** Concrete runs used below *)

Module Scenarios.
Import Config Client Models TSEApi DownloadManager.

(** six attempts answered 429, then a body *)
Definition six_429 : nat -> JsonReply nat :=
  fun k => if Nat.ltb k 6 then JResponse 429 None else JResponse 200 (Some 7).

(** six attempts that cannot connect, then a body *)
Definition six_connect_errors : nat -> JsonReply nat :=
  fun k => if Nat.ltb k 6 then JTransport ConnectError else JResponse 200 (Some 7).

Definition always {A} (r : A) : nat -> A := fun _ => r.

(** a body of two chunks that breaks off with a read timeout, then 404 *)
Definition broken_then_404 : nat -> StreamReply :=
  fun k => match k with
           | O => SResponse 200 [[Byte.x61]; [Byte.x62]] (Some ReadTimeout)
           | _ => SResponse 404 [] None
           end.

Definition df_1 : ElectoralSection :=
  {| uf := "DF"; municipio_codigo := "97012"; municipio_nome := "BRASILIA";
     zona := "0001"; secao := "0001" |}.

Definition df_2 : ElectoralSection :=
  {| uf := "DF"; municipio_codigo := "97012"; municipio_nome := "BRASILIA";
     zona := "0001"; secao := "0002" |}.

Definition entry (h : JScalar) (names : list string) : HashEntry :=
  {| h_hash := Some h; h_st := Some "Totalizado"; h_dr := None; h_hr := None;
     h_nmarq := Some names; h_arq := None |}.

Definition manifest (entries : list HashEntry) : Body :=
  {| b_abr := None; b_hashes := Some entries |}.

(** every manifest lists one ballot file under the hash "abc" *)
Definition one_file_net : JsonNet :=
  fun _ _ => JResponse 200 (Some (manifest [entry (JStr "abc") ["o00406-x.bu"]])).

(** the manifest of [df_1] cannot be fetched; the others list one file *)
Definition df_1_broken_net : JsonNet :=
  fun url k =>
    if String.eqb url (section_meta_url "ele2022" "406" df_1)
    then JTransport OtherError
    else one_file_net url k.

(** the state file of DF lists the one section [df_1]; every manifest
    lists one ballot file *)
Definition df_net : JsonNet :=
  fun url k =>
    if String.eqb url (state_config_url "ele2022" "406" "df")
    then JResponse 200
           (Some {| b_abr :=
                      Some [ {| e_cd := Some "DF"; e_ds := Some "DISTRITO FEDERAL";
                                e_mu :=
                                  Some [ {| mu_cd := "97012"; mu_nm := "BRASILIA";
                                            mu_zon :=
                                              Some [ {| z_cd := "0001";
                                                        z_sec := Some [ {| s_ns := "0001" |} ] |} ] |} ] |} ];
                    b_hashes := None |})
    else one_file_net url k.

(** every file is gone *)
Definition all_404 : FileNet := fun _ _ => SResponse 404 [] None.

(** every file arrives in one chunk *)
Definition all_ok : FileNet := fun _ _ => SResponse 200 [[Byte.x61]] None.
End Scenarios.

Module BallotScenarios.
Import Py BU BatchAnalyzer.

(** a decoder that accepts every envelope and finds an empty record in it *)
Definition toy_decode (v : SpecVersion) (entity : string) (data : bytes) : option PyVal :=
  if String.eqb entity "EntidadeEnvelopeGenerico"
  then Some (VDict [("conteudo", VBytes data)])
  else Some (VDict []).

(** three ballot files with the same bytes: two named after the scheme
    of 2022, one after the scheme of 2024 *)
Definition twin_disk : Disk :=
  <[ ["raw"; "o00406-1.bu"] := [Byte.x30] ]>
    (<[ ["raw"; "o00407-1.bu"] := [Byte.x30] ]>
       (<[ ["raw"; "o00452-1-bu.dat"] := [Byte.x30] ]> ∅)).

(** a ballot record with one election, one office and one vote tuple *)
Definition one_vote : VotoTupla :=
  {| tipo_voto := NOMINAL; quantidade := VInt 7; codigo_votavel := VInt 13;
     partido := VInt 13; vt_hash := VNone; ordem_hash := VNone |}.

Definition one_vote_bu : BoletimUrna :=
  {| BU.uf := ""; BU.municipio := VInt 97012; BU.zona := VInt 1; BU.secao := VInt 1;
     local_votacao := VNone; BU.modelo_urna := VNone; numero_serie := VNone;
     numero_interno := VNone; codigo_carga := Plain VNone;
     BU.tipo_urna := Plain (VStr "secao"); tipo_arquivo := Plain VNone;
     versao_votacao := VNone; fase := OFICIAL; spec_version := V1;
     data_hora_emissao := VNone; BU.hora_abertura := VNone;
     BU.hora_encerramento := VNone;
     qtd_eleitores_lib_codigo := VInt 3; qtd_eleitores_comp_biometrico := VInt 4;
     resultados_por_eleicao :=
       [ {| id_eleicao := VInt 544; BU.eleitores_aptos := VInt 10;
            eleitores_aptos_secao := VNone; eleitores_aptos_tte := VNone;
            resultados :=
              [ {| codigo_cargo := VInt 1; nome_cargo := Known "Presidente";
                   BU.comparecimento := VInt 7; BU.votos := [one_vote] |} ];
            ultimo_hash := VNone; assinatura_ultimo_hash := VNone |} ];
     historico_correspondencias := VNone |}.

(** no signature file, no log file, no issue found *)
Definition no_collab : Collaborators :=
  {| bu_issues := fun _ => [];
     signature_modelo := fun _ _ => None;
     log_analysis := fun _ _ _ => None |}.

Definition df_bu_file : Path := ["data"; "raw"; "df"; "97012"; "0001"; "0001"; "o00406-x.bu"].
End BallotScenarios.

(** ** Notions the properties are stated with *)

Module Notions.
Import Client Models TSEApi Py.

(** an event that touches the disk touches [dest] *)
Definition touches_only (dest : Path) (ev : Event) : Prop :=
  match ev with
  | EvOpen p | EvWrite p _ | EvUnlink p => p = dest
  | _ => True
  end.

(** a manifest entry that names a file group *)
Definition real_entry (h : HashEntry) : bool :=
  negb (no_file_hash (default (JStr "") (h_hash h))).

(** the document without its entries whose hash is "0" or empty *)
Definition without_no_file (b : Body) : Body :=
  {| b_abr := b_abr b; b_hashes := List.filter real_entry <$> b_hashes b |}.

Definition map_reply (f : Body -> Body) (r : JsonReply Body) : JsonReply Body :=
  match r with
  | JResponse status body => JResponse status (f <$> body)
  | JTransport e => JTransport e
  end.

(** the network whose every JSON document went through [f] *)
Definition answer_with (f : Body -> Body) (net : JsonNet) : JsonNet :=
  fun url k => map_reply f (net url k).

Definition map_outcome {A B} (f : A -> B) (o : Outcome A) : Outcome B :=
  match o with Returned a => Returned (f a) | Raised e => Raised e end.

End Notions.

Module StoreNotions.
Import Py BU BatchAnalyzer DuckDBStore.

(** the rows a list of statements adds to [votos] *)
Definition inserted_votos (stmts : list Stmt) : list VotoRow :=
  omap (fun s => match s with InsertVoto r => Some r | _ => None end) stmts.

(** the vote rows of one analysed section, in the order they are inserted *)
Definition section_votos (a : Analysis) : list VotoRow :=
  concat (map (fun '(eleicao, cargo) =>
                 map (voto_row (secao_id_of a) eleicao cargo) (BU.votos cargo))
              (cargos_of a)).

(** what a statement does to [secoes] *)
Definition upsert (m : gmap string SecaoRow) (s : Stmt) : gmap string SecaoRow :=
  match s with
  | InsertOrReplaceSecao id row => <[id := row]> m
  | _ => m
  end.
End StoreNotions.

(** ** A database with one compiled section and a disk tree with one more *)

Module ResumeScenario.
Import Py BU BatchAnalyzer DuckDBStore RealtimeBuilder.

Definition raw_dir : Path := ["data"; "raw"].

Definition new_bu_file : Path :=
  ["data"; "raw"; "df"; "97012"; "0001"; "0002"; "o00406-y.bu"].

Definition disk : Disk :=
  <[ BallotScenarios.df_bu_file := [Byte.x30] ]> (<[ new_bu_file := [Byte.x31] ]> ∅).

Definition parse (f : Path) : option BoletimUrna := Some BallotScenarios.one_vote_bu.

Definition db : Store :=
  _process_section parse BallotScenarios.no_collab empty_store
    (parent BallotScenarios.df_bu_file) BallotScenarios.df_bu_file.

Definition downloads : list (Models.ElectoralSection * string) :=
  [(Scenarios.df_2, "406")].

(** the compile thread takes the new file while the main thread is still
    offering, and the callback offers it again while it is compiled *)
Definition schedule : list Step :=
  [Offer; Offer; Get; CloseBatch; Offer; CompileNext; Get; CloseBatch].
End ResumeScenario.

Module BuilderNotions.
Import Py BU BatchAnalyzer DuckDBStore Glob RealtimeBuilder.

(** the items the compile thread has taken and not yet compiled *)
Definition in_hand (b : Builder) : list QueueItem :=
  match phase b with
  | Collecting batch => batch
  | Processing item rest => item :: rest
  end.

(** the ballot file is compiled, queued, or in the hands of the compile
    thread *)
Definition covered (b : Builder) (f : Path) : Prop :=
  _bu_file_to_secao_id f ∈ existing b
  \/ (parent f, f, _bu_file_to_secao_id f) ∈ queue b ++ in_hand b.

Section Tree.
Variable raw_dir : Path.
Variable disk : Disk.

(** the SectionIds of the ballot files of the disk tree *)
Definition disk_ids : gset string :=
  list_to_set (List.filter (fun id => negb (String.eqb id ""))
                 (map _bu_file_to_secao_id (find_bu_files disk raw_dir))).

(** no two ballot files of the disk tree have the same SectionId *)
Definition one_file_per_section : Prop :=
  NoDup (List.filter (fun id => negb (String.eqb id ""))
           (map _bu_file_to_secao_id (find_bu_files disk raw_dir))).

(** a queue item made from a ballot file of the disk tree *)
Definition from_disk (item : QueueItem) : Prop :=
  exists f, f ∈ find_bu_files disk raw_dir
            /\ _bu_file_to_secao_id f <> ""
            /\ item = (parent f, f, _bu_file_to_secao_id f).

(** what holds of a builder at every moment of a run over the database
    [db0] *)
Record invariant (db0 : Store) (b : Builder) : Prop := {
  inv_existing : existing b = dom (secoes (store b));
  inv_base : dom (secoes db0) ⊆ existing b;
  inv_bound : existing b ⊆ dom (secoes db0) ∪ disk_ids;
  inv_compiled : compiled b = size (existing b ∖ dom (secoes db0));
  inv_errors : errors b = 0;
  inv_rows : forall id, id ∈ dom (secoes db0) ->
               secoes (store b) !! id = secoes db0 !! id
               /\ votos_of id (store b) = votos_of id db0;
  inv_items : forall item, item ∈ queue b ++ in_hand b -> from_disk item;
}.

End Tree.
End BuilderNotions.

(** ** config.py: the file suffixes of the two schemes *)

Module FileTypes.
(** the values of [FILE_TYPES_V1] *)
Definition FILE_TYPES_V1 : list string :=
  [".bu"; ".rdv"; ".logjez"; ".imgbu"; ".vscmr"].

(** the values of [FILE_TYPES_V2] *)
Definition FILE_TYPES_V2 : list string :=
  ["-bu.dat"; "-rdv.dat"; "-log.jez"; "-imgbu.dat"; "-vota.vsc"].
End FileTypes.

(** ** analyzer/batch.py: the sections found on disk *)

Module FindSections.
Import BatchAnalyzer Glob.

(** [base = self._raw_dir], or [base / uf.lower()] for a [uf] that is
    true *)
Definition base_dir (raw_dir : Path) (uf : option string) : Path :=
  match uf with
  | Some u => if String.eqb u "" then raw_dir else raw_dir ++ [PyStr.lower u]
  | None => raw_dir
  end.

(** the list [sections] that [find_sections] builds before it makes a
    set of it *)
Definition section_list (disk : Disk) (base : Path) : list Path :=
  foldl (fun sections bu_file =>
           if bool_decide (parent bu_file ∈ sections) then sections
           else sections ++ [parent bu_file])
        (map parent (rglob disk base ".bu"))
        (rglob disk base "-bu.dat").

(** [find_sections(uf)]: the set [set(sections)]; the list the code
    returns lists it in an order the code does not fix *)
Definition find_sections (disk : Disk) (raw_dir : Path) (uf : option string)
  : gset Path :=
  list_to_set (section_list disk (base_dir raw_dir uf)).

(** [find_bu_files(uf)] *)
Definition find_bu_files_of (disk : Disk) (raw_dir : Path) (uf : option string)
  : list Path :=
  find_bu_files disk (base_dir raw_dir uf).
End FindSections.

(** ** database/duckdb_store.py: [clear] and the full build;
       scripts/rebuild_db.py and scripts/rebuild_parallel.py: their loops *)

Module StoreBuild.
Import BU BatchAnalyzer DuckDBStore Glob RebuildParallel.

(** [clear()]: the four tables emptied, the sequence dropped and created
    again with START 1 *)
Definition clear (db : Store) : Store :=
  {| secoes := ∅; votos := []; issues := []; totais_cargo := []; issue_seq := 1 |}.

Section Build.
Variable raw_dir : Path.
Variable disk : Disk.
Variable parse : Path -> option BoletimUrna.
Variable collab : Collaborators.
(** whether [_process_section] raises for a ballot file *)
Variable raises : Path -> bool.
(** how many of its statements [_process_section] has run when it raises
    for a ballot file: none when the analysis raises, some when a
    statement does.  The store opens no transaction, so what has run
    stays. *)
Variable written : Path -> nat.

(** the statements of [_process_section] for a ballot file *)
Definition statements_of (bu_file : Path) : list Stmt :=
  section_statements (_analyze_section parse collab (parent bu_file) bu_file).

(** the database after a call of [_process_section] that raises *)
Definition interrupted (db : Store) (bu_file : Path) : Store :=
  execute_all db (take (written bu_file) (statements_of bu_file)).

(** the statements that a call of [_process_section] runs, whether it
    returns or raises *)
Definition statements_run (bu_file : Path) : list Stmt :=
  if raises bu_file then take (written bu_file) (statements_of bu_file)
  else statements_of bu_file.

(** the loop of [build_from_raw]; it has no handler, so an exception of
    [_process_section] ends it *)
Fixpoint process_files (bu_files : list Path) (db : Store) : Outcome unit * Store :=
  match bu_files with
  | [] => (Returned tt, db)
  | bu_file :: rest =>
      if raises bu_file then (Raised OtherException, interrupted db bu_file)
      else process_files rest (_process_section parse collab db (parent bu_file) bu_file)
  end.

(** [build_from_raw()]: the count it returns, and the database it
    leaves *)
Definition build_from_raw (db : Store) : Outcome nat * Store :=
  match process_files (find_bu_files disk raw_dir) (clear db) with
  | (Returned _, db') => (Returned (size (secoes db')), db')
  | (Raised e, db') => (Raised e, db')
  end.

(** scripts/rebuild_db.py: the body of its loop, on the database and the
    [compiled] and [errors] counters *)
Definition recompile (state : Store * nat * nat) (bu_file : Path)
  : Store * nat * nat :=
  let '(db, compiled, errors) := state in
  if raises bu_file then (interrupted db bu_file, compiled, errors + 1)
  else (_process_section parse collab db (parent bu_file) bu_file,
        compiled + 1, errors).

(** scripts/rebuild_db.py, [main()] from [store.clear()] to the end of
    the loop *)
Definition recompile_all (db : Store) : Store * nat * nat :=
  foldl recompile (clear db, 0, 0) (find_bu_files disk raw_dir).

(** scripts/rebuild_db.py, [main()]: it leaves before touching the
    database when it finds fewer than 900 000 ballot files *)
Definition rebuild_db_main (db : Store) : option (Store * nat * nat) :=
  if (Z.of_nat (length (find_bu_files disk raw_dir)) <? 900000)%Z then None
  else Some (recompile_all db).
End Build.

(** *** scripts/rebuild_parallel.py: the loop over the workers' results *)

Definition BATCH_SIZE : nat := 500.

Record Progress := {
  store : Store;
  batch : list BatchItem;
  compiled : nat;
  skipped : nat;
  errors : nat;
}.

(** [existing_ids]: loaded when the database holds a section, empty
    otherwise *)
Definition existing_ids_of (db : Store) : gset string :=
  if Nat.ltb 0 (size (secoes db)) then dom (secoes db) else ∅.

(** the body of [for i, result in enumerate(pool.imap_unordered(...))];
    [None] is a worker that returned nothing.  The checkpoints and the
    snapshots of the loop touch the database file, not its tables. *)
Definition take_result (existing_ids : gset string) (p : Progress)
    (result : option BatchItem) : Progress :=
  match result with
  | None | Some (ItemError _) =>
      {| store := store p; batch := batch p; compiled := compiled p;
         skipped := skipped p; errors := errors p + 1 |}
  | Some (ItemOk secao_id _ _ _ _ as item) =>
      if negb (bool_decide (existing_ids = ∅)) && bool_decide (secao_id ∈ existing_ids)
      then {| store := store p; batch := batch p; compiled := compiled p;
              skipped := skipped p + 1; errors := errors p |}
      else
        let batch' := batch p ++ [item] in
        if Nat.leb BATCH_SIZE (length batch')
        then {| store := insert_batch (store p) batch'; batch := [];
                compiled := compiled p + 1; skipped := skipped p;
                errors := errors p |}
        else {| store := store p; batch := batch';
                compiled := compiled p + 1; skipped := skipped p;
                errors := errors p |}
  end.

(** the loop, and [if batch: insert_batch(store, batch)] after it; the
    results come in the order the workers finish *)
Definition take_results (db : Store) (results : list (option BatchItem)) : Progress :=
  let p := foldl (take_result (existing_ids_of db))
                 {| store := db; batch := []; compiled := 0; skipped := 0; errors := 0 |}
                 results in
  match batch p with
  | [] => p
  | _ => {| store := insert_batch (store p) (batch p); batch := [];
            compiled := compiled p; skipped := skipped p; errors := errors p |}
  end.
End StoreBuild.

(** ** What a list of statements does, table by table *)

Module StoreTables.
Import BU BatchAnalyzer DuckDBStore RebuildParallel StoreNotions.

Definition upserted (stmts : list Stmt) : list (string * SecaoRow) :=
  omap (fun s => match s with InsertOrReplaceSecao id row => Some (id, row) | _ => None end)
       stmts.

Definition inserted_issues (stmts : list Stmt) : list IssueRow :=
  omap (fun s => match s with InsertIssue row => Some row | _ => None end) stmts.

Definition inserted_totais (stmts : list Stmt) : list TotaisRow :=
  omap (fun s => match s with InsertTotais row => Some row | _ => None end) stmts.

(** the rows with the values the sequence gives them, from [seq] on *)
Fixpoint numbered (seq : Z) (rows : list IssueRow) : list (Z * IssueRow) :=
  match rows with
  | [] => []
  | row :: rest => (seq, row) :: numbered (seq + 1) rest
  end.

Definition replace_all (m : gmap string SecaoRow) (rows : list (string * SecaoRow))
  : gmap string SecaoRow :=
  foldl (fun m '(id, row) => <[id := row]> m) m rows.

(** the ids of [issues] are distinct and below the next value of the
    sequence *)
Definition issue_ids_fresh (db : Store) : Prop :=
  NoDup (map fst (issues db))
  /\ Forall (fun r => (r.1 < issue_seq db)%Z) (issues db).

(** [insert_batch] as one list of statements *)
Definition batch_statements (batch : list BatchItem) : list Stmt :=
  (batch ≫= item_secoes) ++ (batch ≫= item_issues)
  ++ (batch ≫= item_votos) ++ (batch ≫= item_totais).

(** the statements of one item, in the order of [_process_section] *)
Definition item_statements (item : BatchItem) : list Stmt :=
  item_secoes item ++ item_issues item ++ item_votos item ++ item_totais item.

(** the results that the loop of rebuild_parallel puts in a batch *)
Definition accepted (existing_ids : gset string) (results : list (option BatchItem))
  : list BatchItem :=
  omap (fun result =>
          match result with
          | Some (ItemOk secao_id _ _ _ _ as item) =>
              if bool_decide (secao_id ∈ existing_ids) then None else Some item
          | _ => None
          end)
       results.

(** [_process_section] for each file of a list, in its order *)
Definition compile_files (parse : Path -> option BoletimUrna) (collab : Collaborators)
    (db : Store) (bu_files : list Path) : Store :=
  foldl (fun db bu_file => _process_section parse collab db (parent bu_file) bu_file)
        db bu_files.

Definition is_error (result : option BatchItem) : bool :=
  match result with
  | None | Some (ItemError _) => true
  | Some (ItemOk _ _ _ _ _) => false
  end.
End StoreTables.

(** ** Counting what a run did *)

Module Counting.
Import Client.

Definition is_acquire (ev : Event) : bool :=
  match ev with EvAcquire => true | _ => false end.

(** the number of times a run waited for the rate limiter *)
Definition acquires (evs : list Event) : nat :=
  length (List.filter is_acquire evs).

Definition is_callback (ev : Event) : bool :=
  match ev with EvCallback _ _ => true | _ => false end.

(** the number of times a run called [self._on_section_done] *)
Definition callbacks (evs : list Event) : nat :=
  length (List.filter is_callback evs).

(** [n] attempts that are answered at once: an acquire and a request
    each, no pause *)
Fixpoint attempts (request : Event) (n : nat) : list Event :=
  match n with
  | O => []
  | S n' => EvAcquire :: request :: attempts request n'
  end.
End Counting.

(** ** downloader/manager.py: [download_sample] *)

Module SampleRun.
Import Config Models Client TSEApi DownloadManager.

(** [all_stats[k] += self._stats[k]] for every key *)
Definition add_stats (all_stats st : Stats) : Stats :=
  {| downloaded := downloaded all_stats + downloaded st;
     skipped := skipped all_stats + skipped st;
     errors := errors all_stats + errors st;
     sections_processed := sections_processed all_stats + sections_processed st |}.

Section Sample.
Variable raw_dir : Path.
Variable on_section_done : bool.
Variable json_net : JsonNet.
Variable file_net : FileNet.
Variable sample : list ElectoralSection -> nat -> list ElectoralSection.
Variables ciclo pleito : string.
Variable file_types : list string.

(** the loop [for uf in states]: [self._stats] is set to zero, the state
    is downloaded with [max_sections=sections_per_state] and no
    municipality filter, and its counters are added to [all_stats]; the
    loop has no handler, so an exception of [download_state] leaves it *)
Fixpoint download_states (states : list string) (sections_per_state : nat)
    (all_stats : Stats) (fs : Disk) : Outcome Stats * Disk * list Event :=
  match states with
  | [] => (Returned all_stats, fs, [])
  | uf :: rest =>
      match download_state raw_dir on_section_done json_net file_net sample
              ciclo pleito file_types uf (Some sections_per_state) [] zero_stats fs with
      | (Raised e, fs', evs) => (Raised e, fs', evs)
      | (Returned st, fs', evs) =>
          let '(o, fs'', evs') :=
            download_states rest sections_per_state (add_stats all_stats st) fs' in
          (o, fs'', evs ++ evs')
      end
  end.

(** [download_sample(client, api, ciclo, pleito, states,
    sections_per_state, file_types)] *)
Definition download_sample (states : list string) (sections_per_state : nat)
    (fs : Disk) : Outcome Stats * Disk * list Event :=
  download_states states sections_per_state zero_stats fs.
End Sample.
End SampleRun.

(** ** What a run with every file missing counts *)

Module NotFoundNotions.
Import Client Models TSEApi DownloadManager.

(** the files of a manifest that pass the file-type filter *)
Definition wanted_count (file_types : list string) (urnas : list UrnaMeta) : nat :=
  sum_list_with
    (fun urna => length (List.filter (wanted file_types) (arquivos urna))) urnas.

(** whether the manifest of a section is fetched, that is, whether
    [get_section_meta] returns *)
Definition manifest_fetched (json_net : JsonNet) (ciclo pleito : string)
    (s : ElectoralSection) : bool :=
  negb (is_raised (get_section_meta json_net ciclo pleito s).1).

(** the errors of a section none of whose files is found: one for each
    wanted file its manifest lists, or one if the manifest fetch raises *)
Definition not_found_errors (json_net : JsonNet) (ciclo pleito : string)
    (file_types : list string) (s : ElectoralSection) : nat :=
  match (get_section_meta json_net ciclo pleito s).1 with
  | Returned urnas => wanted_count file_types urnas
  | Raised _ => 1
  end.
End NotFoundNotions.

(** ** The retrying client *)

Module ClientFacts.
Import Config Client Notions.

Lemma unlink_if_exists_delete (dest : Path) (fs : Disk) :
  fst (unlink_if_exists dest fs) = delete dest fs.
Proof.
  unfold unlink_if_exists. destruct (fs !! dest) eqn:E; simpl; [done|].
  symmetry. by apply delete_id.
Qed.

Lemma sleeps_app (a b : list Event) : sleeps (a ++ b) = sleeps a ++ sleeps b.
Proof. apply omap_app. Qed.

Lemma sleeps_cons_other (ev : Event) (evs : list Event) :
  (forall s, ev <> EvSleep s) -> sleeps (ev :: evs) = sleeps evs.
Proof. intros H. destruct ev; try reflexivity. by destruct (H secs). Qed.

Lemma sleeps_unlink (dest : Path) (fs : Disk) :
  sleeps (snd (unlink_if_exists dest fs)) = [].
Proof. unfold unlink_if_exists. by destruct (fs !! dest). Qed.

#[local] Arguments sleeps : simpl never.

(** C9, as amended. After attempt [k] is answered 429 the client sleeps
    [2 ** k] seconds, with no cap; after a connect error or a read timeout
    it sleeps [min(2 ** k, 30)] seconds; in [fetch_json] and in
    [download_file] alike, the next attempt follows the pause. In
    [download_file] the same holds when the connection breaks or times out
    while the body of a successful response streams: what was written is
    removed, the client sleeps [min(2 ** k, 30)] seconds, and the next
    attempt follows. *)
Theorem backoff_after_failed_attempt :
  forall (J : Type) (jreply : nat -> JsonReply J) (sreply : nat -> StreamReply)
         (url : string) (dest : Path) (k r : nat) (fs : Disk),
    (forall body, jreply k = JResponse 429 body ->
       fetch_json_loop jreply url k (S r) =
         (fst (fetch_json_loop jreply url (S k) r),
          [EvAcquire; EvGet url; EvSleep (2 ^ Z.of_nat k)]
            ++ snd (fetch_json_loop jreply url (S k) r)))
    /\ (forall e, e = ConnectError \/ e = ReadTimeout -> jreply k = JTransport e ->
       fetch_json_loop jreply url k (S r) =
         (fst (fetch_json_loop jreply url (S k) r),
          [EvAcquire; EvGet url; EvSleep (Z.min (2 ^ Z.of_nat k) 30)]
            ++ snd (fetch_json_loop jreply url (S k) r)))
    /\ (forall chunks abort, sreply k = SResponse 429 chunks abort ->
       sleeps (snd (download_loop sreply url dest k (S r) fs)) =
         (2 ^ Z.of_nat k)%Z :: sleeps (snd (download_loop sreply url dest (S k) r fs)))
    /\ (forall e, e = ConnectError \/ e = ReadTimeout -> sreply k = STransport e ->
       sleeps (snd (download_loop sreply url dest k (S r) fs)) =
         Z.min (2 ^ Z.of_nat k) 30
           :: sleeps (snd (download_loop sreply url dest (S k) r (delete dest fs))))
    /\ (forall e status chunks,
       e = ConnectError \/ e = ReadTimeout ->
       is_success status = true ->
       sreply k = SResponse status chunks (Some e) ->
       download_loop sreply url dest k (S r) fs =
         (let '(o, fs', evs) := download_loop sreply url dest (S k) r (delete dest fs) in
          (o, fs',
           [EvAcquire; EvStream url] ++ write_events dest chunks
             ++ [EvUnlink dest; EvSleep (Z.min (2 ^ Z.of_nat k) 30)] ++ evs))
       /\ sleeps (snd (download_loop sreply url dest k (S r) fs)) =
            Z.min (2 ^ Z.of_nat k) 30
              :: sleeps (snd (download_loop sreply url dest (S k) r (delete dest fs)))).
Proof.
  intros J jreply sreply url dest k r fs. split_and!.
  - intros body H. simpl. rewrite H. simpl.
    destruct (fetch_json_loop jreply url (S k) r). reflexivity.
  - intros e He H. simpl. rewrite H.
    destruct He as [-> | ->];
      destruct (fetch_json_loop jreply url (S k) r); reflexivity.
  - intros chunks abort H. simpl. rewrite H. simpl.
    destruct (download_loop sreply url dest (S k) r fs) as [[o fs'] evs].
    reflexivity.
  - intros e He H. simpl. rewrite H.
    pose proof (unlink_if_exists_delete dest fs) as Hfs.
    pose proof (sleeps_unlink dest fs) as Hun.
    destruct (unlink_if_exists dest fs) as [fs1 un]. simpl in Hfs, Hun. subst fs1.
    destruct He as [-> | ->];
      destruct (download_loop sreply url dest (S k) r (delete dest fs)) as [[o fs'] evs];
      cbn [snd];
      rewrite !sleeps_cons_other, !sleeps_app, Hun by done; reflexivity.
  - intros e status chunks He Hs H.
    assert ((status =? 404)%Z = false) as H404.
    { unfold is_success in Hs. lia. }
    assert (download_loop sreply url dest k (S r) fs =
            (let '(o, fs', evs) := download_loop sreply url dest (S k) r (delete dest fs) in
             (o, fs',
              [EvAcquire; EvStream url] ++ write_events dest chunks
                ++ [EvUnlink dest; EvSleep (Z.min (2 ^ Z.of_nat k) 30)] ++ evs))) as Hrun.
    { cbn [download_loop]. rewrite H, H404, Hs. cbn [negb].
      unfold unlink_if_exists. rewrite lookup_insert_eq, delete_insert_eq.
      destruct He as [-> | ->];
        destruct (download_loop sreply url dest (S k) r (delete dest fs)) as [[o fs'] evs];
        unfold pow2; cbn [app]; by rewrite <- !app_assoc. }
    split; [exact Hrun|]. rewrite Hrun.
    destruct (download_loop sreply url dest (S k) r (delete dest fs)) as [[o fs'] evs].
    cbn [snd app]. unfold write_events.
    rewrite !sleeps_cons_other, !sleeps_app, !sleeps_cons_other by done.
    assert (forall l, sleeps (map (EvWrite dest) l) = []) as ->.
    { induction l as [|c l IH]; [done|]. cbn [map]. by rewrite sleeps_cons_other. }
    reflexivity.
Qed.

Lemma backoff_after_failed_attempt_witness :
  fetch_json_loop Scenarios.six_429 "u" 0 10 =
    (fst (fetch_json_loop Scenarios.six_429 "u" 1 9),
     [EvAcquire; EvGet "u"; EvSleep (2 ^ Z.of_nat 0)]
       ++ snd (fetch_json_loop Scenarios.six_429 "u" 1 9)).
Proof.
  apply (proj1 (backoff_after_failed_attempt
                  nat Scenarios.six_429 Scenarios.broken_then_404 "u" ["d"] 0 9 ∅) None).
  reflexivity.
Defined.

(** C9, as stated, fails: no single cap [c] makes every pause
    [min(2 ** k, c)]. After attempt 5 a 429 is followed by 32 seconds and a
    connect error by 30. *)
Lemma no_single_backoff_cap :
  ~ exists cap : Z,
      forall k : nat, k < 6 ->
        sleeps (snd (fetch_json Scenarios.six_429 "u")) !! k
          = Some (Z.min (2 ^ Z.of_nat k) cap)
        /\ sleeps (snd (fetch_json Scenarios.six_connect_errors "u")) !! k
          = Some (Z.min (2 ^ Z.of_nat k) cap).
Proof.
  intros [cap H]. destruct (H 5 ltac:(lia)) as [H1 H2].
  vm_compute in H1, H2.
  destruct (Z.compare 32 cap) eqn:E in H1, H2;
    rewrite ?E in *; vm_compute in H1, H2; congruence.
Qed.

Lemma unlink_if_exists_eq (dest : Path) (fs : Disk) :
  unlink_if_exists dest fs = (delete dest fs, snd (unlink_if_exists dest fs)).
Proof.
  rewrite <- unlink_if_exists_delete. by destruct (unlink_if_exists dest fs).
Qed.

(** A call of the retry loop that does not return [True] leaves the disk as
    it found it, but for [dest], which it may have removed. *)
Lemma download_loop_failed reply url dest r :
  forall k fs o fs' evs,
    download_loop reply url dest k r fs = (o, fs', evs) ->
    o <> Returned true ->
    fs' = fs \/ fs' = delete dest fs.
Proof.
  induction r as [|r IH]; intros k fs o fs' evs H Ho; simpl in H.
  - injection H as <- <- <-. by left.
  - destruct (reply k) as [status chunks abort | e].
    + destruct (status =? 404)%Z.
      { injection H as <- <- <-. by left. }
      destruct (is_success status); simpl in H.
      * destruct abort as [e|].
        -- rewrite unlink_if_exists_eq in H. rewrite delete_insert_eq in H.
           destruct e;
             try (destruct (download_loop reply url dest (S k) r (delete dest fs))
                    as [[o1 fs1] evs1] eqn:E; simpl in H;
                  injection H as <- <- <-;
                  destruct (IH _ _ _ _ _ E Ho) as [-> | ->];
                  [by right | right; by rewrite delete_delete_eq]).
           injection H as <- <- <-. by right.
        -- injection H as <- <- <-. done.
      * destruct (status =? 429)%Z.
        -- destruct (download_loop reply url dest (S k) r fs) as [[o1 fs1] evs1] eqn:E.
           simpl in H. injection H as <- <- <-. eauto.
        -- rewrite unlink_if_exists_eq in H.
           destruct (Nat.eqb k _).
           ++ injection H as <- <- <-. by right.
           ++ destruct (download_loop reply url dest (S k) r (delete dest fs))
                as [[o1 fs1] evs1] eqn:E.
              simpl in H. injection H as <- <- <-.
              destruct (IH _ _ _ _ _ E Ho) as [-> | ->];
                [by right | right; by rewrite delete_delete_eq].
    + rewrite unlink_if_exists_eq in H.
      destruct e;
        try (destruct (download_loop reply url dest (S k) r (delete dest fs))
               as [[o1 fs1] evs1] eqn:E; simpl in H;
             injection H as <- <- <-;
             destruct (IH _ _ _ _ _ E Ho) as [-> | ->];
             [by right | right; by rewrite delete_delete_eq]).
      injection H as <- <- <-. by right.
Qed.

Lemma touches_only_unlink (dest : Path) (fs : Disk) :
  Forall (touches_only dest) (snd (unlink_if_exists dest fs)).
Proof.
  unfold unlink_if_exists. destruct (fs !! dest); simpl; repeat constructor.
Qed.

Lemma touches_only_write (dest : Path) (chunks : list bytes) :
  Forall (touches_only dest) (map (EvWrite dest) chunks).
Proof. apply Forall_fmap, Forall_true. done. Qed.

Ltac touches :=
  simpl; unfold write_events;
  repeat first
    [ apply Forall_nil_2
    | apply Forall_cons_2; [exact I || reflexivity |]
    | apply Forall_app_2
    | apply touches_only_write
    | apply touches_only_unlink
    | assumption ].

(** The retry loop opens, writes and unlinks [dest] and no other path. *)
Lemma download_loop_touches reply url dest r :
  forall k fs, Forall (touches_only dest) (snd (download_loop reply url dest k r fs)).
Proof.
  induction r as [|r IH]; intros k fs; simpl; [constructor|].
  destruct (reply k) as [status chunks abort | e].
  - destruct (status =? 404)%Z; [touches|].
    destruct (is_success status); simpl.
    + destruct abort as [e|]; [|touches].
      rewrite unlink_if_exists_eq, delete_insert_eq.
      destruct e;
        try (specialize (IH (S k) (delete dest fs));
             destruct (download_loop reply url dest (S k) r (delete dest fs))
               as [[o1 fs1] evs1]);
        touches.
    + destruct (status =? 429)%Z.
      * specialize (IH (S k) fs).
        destruct (download_loop reply url dest (S k) r fs) as [[o1 fs1] evs1].
        touches.
      * rewrite unlink_if_exists_eq.
        destruct (Nat.eqb k _); simpl.
        -- touches.
        -- specialize (IH (S k) (delete dest fs)).
           destruct (download_loop reply url dest (S k) r (delete dest fs))
             as [[o1 fs1] evs1].
           touches.
  - rewrite unlink_if_exists_eq.
    destruct e;
      try (specialize (IH (S k) (delete dest fs));
           destruct (download_loop reply url dest (S k) r (delete dest fs))
             as [[o1 fs1] evs1]);
      touches.
Qed.

(** C8, as amended. When [download_file] returns [False] or raises, the
    disk is as it was before the call, except that [dest] may have been
    removed: nothing the call wrote is left. The call writes to [dest]
    itself, there is no temporary file. With [skip_existing] set, the
    destination does not exist with a size above zero afterwards. *)
Theorem failed_download_leaves_nothing :
  forall (reply : nat -> StreamReply) (url : string) (dest : Path)
         (skip_existing : bool) (fs fs' : Disk) (o : Outcome bool)
         (evs : list Event),
    download_file reply url dest skip_existing fs = (o, fs', evs) ->
    o <> Returned true ->
    (fs' = fs \/ fs' = delete dest fs)
    /\ Forall (touches_only dest) evs
    /\ (skip_existing = true -> exists_nonempty dest fs' = false).
Proof.
  intros reply url dest skip fs fs' o evs H Ho. unfold download_file in H.
  destruct (skip && exists_nonempty dest fs) eqn:Hskip.
  { injection H as <- <- <-. done. }
  pose proof (download_loop_failed _ _ _ _ _ _ _ _ _ H Ho) as Hfs.
  pose proof (download_loop_touches reply url dest MAX_RETRIES 0 fs) as Hev.
  rewrite H in Hev. simpl in Hev. repeat split; [done..|].
  intros ->. simpl in Hskip.
  destruct Hfs as [-> | ->]; [done|].
  unfold exists_nonempty. by rewrite lookup_delete_eq.
Qed.

Lemma failed_download_leaves_nothing_witness :
  (∅ = (∅ : Disk) \/ ∅ = delete ["raw"; "f"] (∅ : Disk))
  /\ Forall (touches_only ["raw"; "f"])
       (snd (download_file Scenarios.broken_then_404 "u" ["raw"; "f"] true ∅))
  /\ (true = true -> exists_nonempty ["raw"; "f"] ∅ = false).
Proof.
  apply (failed_download_leaves_nothing
           Scenarios.broken_then_404 "u" ["raw"; "f"] true ∅ ∅ (Returned false)).
  - vm_compute. reflexivity.
  - discriminate.
Defined.

(** C8, as stated, fails: the download does not stream to a temporary
    destination. The chunks of a response are written to the destination
    path itself, so a partial file stands there until the handler removes
    it. *)
Lemma download_writes_to_destination :
  ~ (forall (reply : nat -> StreamReply) (url : string) (dest : Path)
            (fs : Disk) (p : Path) (chunk : bytes),
        EvWrite p chunk ∈ snd (download_file reply url dest true fs) -> p <> dest).
Proof.
  intros H.
  apply (H Scenarios.broken_then_404 "u" ["raw"; "f"] ∅ ["raw"; "f"] [Byte.x61]);
    [|reflexivity].
  vm_compute. apply list_elem_of_In. vm_compute. tauto.
Qed.

(** HTTP 404 ends the call at once, in both loops: no pause, no further
    attempt, and the disk is left alone. *)
Lemma not_found_is_terminal :
  forall (J : Type) (jreply : nat -> JsonReply J) (sreply : nat -> StreamReply)
         (url : string) (dest : Path) (k r : nat) (fs : Disk),
    (forall body, jreply k = JResponse 404 body ->
       fetch_json_loop jreply url k (S r) = (Returned None, [EvAcquire; EvGet url]))
    /\ (forall chunks abort, sreply k = SResponse 404 chunks abort ->
       download_loop sreply url dest k (S r) fs
         = (Returned false, fs, [EvAcquire; EvStream url])).
Proof.
  intros. split; intros; simpl; rewrite H; reflexivity.
Qed.

Lemma fetch_json_not_found {J} (reply : nat -> JsonReply J) (url : string) body :
  reply 0 = JResponse 404 body ->
  fetch_json reply url = (Returned None, [EvAcquire; EvGet url]).
Proof.
  exact (proj1 (not_found_is_terminal J reply (fun _ => STransport OtherError)
                  url [] 0 9 ∅) body).
Qed.

Lemma download_file_not_found (reply : nat -> StreamReply) (url : string)
    (dest : Path) (fs : Disk) chunks abort :
  exists_nonempty dest fs = false ->
  reply 0 = SResponse 404 chunks abort ->
  download_file reply url dest true fs = (Returned false, fs, [EvAcquire; EvStream url]).
Proof.
  intros Hne H. unfold download_file. rewrite Hne.
  exact (proj2 (not_found_is_terminal unit (fun _ => JTransport OtherError) reply
                  url dest 0 9 fs) chunks abort H).
Qed.
End ClientFacts.

(** ** The download manager *)

Module ManagerFacts.
Import Config Client Models TSEApi DownloadManager Notions NotFoundNotions.

Section Run.
Variable raw_dir : Path.
Variable on_section_done : bool.
Variable json_net : JsonNet.
Variable file_net : FileNet.
Variables ciclo pleito : string.
Variable file_types : list string.

#[local] Abbreviation download_urnas := (download_urnas raw_dir file_net ciclo pleito file_types).
Abbreviation try_section := (try_section raw_dir on_section_done json_net file_net ciclo pleito file_types).
Abbreviation _process_one_section := (_process_one_section raw_dir on_section_done json_net file_net ciclo pleito file_types).
Abbreviation process_sections := (process_sections raw_dir on_section_done json_net file_net ciclo pleito file_types).
Abbreviation process_batches := (process_batches raw_dir on_section_done json_net file_net ciclo pleito file_types).

Lemma add_results_add_error st r :
  add_results (add_error st) r = add_error (add_results st r).
Proof. unfold add_results, add_error; simpl. f_equal; lia. Qed.

Lemma download_urnas_add_error urnas :
  forall st fs,
    download_urnas urnas (add_error st) fs =
      let '(o, st', fs', evs) := download_urnas urnas st fs in
      (o, add_error st', fs', evs).
Proof.
  induction urnas as [|urna rest IH]; intros st fs; simpl; [done|].
  destruct (download_section_files _ _ _ _ _ urna fs) as [[[results|e] fs'] evs]; [|done].
  rewrite add_results_add_error, IH.
  by destruct (download_urnas rest (add_results st results) fs') as [[[o st'] fs''] evs'].
Qed.

Lemma download_urnas_sections urnas :
  forall st fs,
    sections_processed (download_urnas urnas st fs).1.1.2 = sections_processed st.
Proof.
  induction urnas as [|urna rest IH]; intros st fs; simpl; [done|].
  destruct (download_section_files _ _ _ _ _ urna fs) as [[[results|e] fs'] evs]; [|done].
  specialize (IH (add_results st results) fs').
  by destruct (download_urnas rest (add_results st results) fs') as [[[o st'] fs''] evs'].
Qed.

Lemma process_one_add_error s st fs :
  _process_one_section s (add_error st) fs =
    let '(st', fs', evs) := _process_one_section s st fs in (add_error st', fs', evs).
Proof.
  unfold DownloadManager._process_one_section, DownloadManager.try_section.
  destruct (get_section_meta json_net ciclo pleito s) as [[urnas|e] evs]; [|done].
  rewrite download_urnas_add_error.
  by destruct (download_urnas urnas st fs) as [[[[[]|e] st'] fs'] evs'].
Qed.

Lemma process_sections_add_error sections :
  forall st fs,
    process_sections sections (add_error st) fs =
      let '(st', fs', evs) := process_sections sections st fs in (add_error st', fs', evs).
Proof.
  induction sections as [|s rest IH]; intros st fs; simpl; [done|].
  rewrite process_one_add_error.
  destruct (_process_one_section s st fs) as [[st' fs'] evs].
  rewrite IH. by destruct (process_sections rest st' fs') as [[st'' fs''] evs'].
Qed.

Lemma process_sections_app a b st fs :
  process_sections (a ++ b) st fs =
    let '(st1, fs1, e1) := process_sections a st fs in
    let '(st2, fs2, e2) := process_sections b st1 fs1 in
    (st2, fs2, e1 ++ e2).
Proof.
  revert st fs. induction a as [|s a IH]; intros st fs; simpl.
  - by destruct (process_sections b st fs) as [[st2 fs2] e2].
  - destruct (_process_one_section s st fs) as [[st' fs'] evs].
    rewrite IH.
    destruct (process_sections a st' fs') as [[st1 fs1] e1].
    destruct (process_sections b st1 fs1) as [[st2 fs2] e2].
    by rewrite app_assoc.
Qed.

Lemma process_batches_concat bs :
  forall st fs, process_batches bs st fs = process_sections (concat bs) st fs.
Proof.
  induction bs as [|b bs IH]; intros st fs; simpl; [done|].
  rewrite process_sections_app.
  destruct (process_sections b st fs) as [[st' fs'] evs]. by rewrite IH.
Qed.

Lemma concat_batches {A} (n : nat) (l : list A) :
  forall fuel, length l <= fuel -> concat (batches fuel (S n) l) = l.
Proof.
  intros fuel. revert l. induction fuel as [|fuel IH]; intros l Hl.
  - destruct l; [done | simpl in Hl; lia].
  - destruct l as [|x l]; [done|].
    change (batches (S fuel) (S n) (x :: l))
      with (take (S n) (x :: l) :: batches fuel (S n) (drop (S n) (x :: l))).
    simpl concat. rewrite IH.
    + exact (take_drop (S n) (x :: l)).
    + simpl. rewrite length_drop. simpl in Hl. lia.
Qed.

Lemma fetch_json_requests {J} (reply : nat -> JsonReply J) url k r :
  EvGet url ∈ snd (fetch_json_loop reply url k (S r)).
Proof.
  simpl. destruct (reply k) as [status body | e].
  - destruct (status =? 404)%Z; [set_solver|].
    destruct (is_success status); [destruct body; set_solver|].
    destruct (status =? 429)%Z.
    + destruct (fetch_json_loop reply url (S k) r). set_solver.
    + destruct (Nat.eqb k _); [set_solver|].
      destruct (fetch_json_loop reply url (S k) r). set_solver.
  - destruct e; try (destruct (fetch_json_loop reply url (S k) r)); set_solver.
Qed.

Lemma section_meta_requests s :
  EvGet (section_meta_url ciclo pleito s) ∈ snd (get_section_meta json_net ciclo pleito s).
Proof.
  unfold get_section_meta.
  assert (H : EvGet (section_meta_url ciclo pleito s)
               ∈ snd (fetch_json (json_net (section_meta_url ciclo pleito s))
                                 (section_meta_url ciclo pleito s)))
    by exact (fetch_json_requests _ _ 0 9).
  destruct (fetch_json _ _) as [[[body|]|e] evs]; simpl in *; try done.
  by destruct (b_hashes body).
Qed.

Lemma process_one_requests s st fs :
  EvGet (section_meta_url ciclo pleito s) ∈ (_process_one_section s st fs).2.
Proof.
  pose proof (section_meta_requests s) as H.
  unfold DownloadManager._process_one_section, DownloadManager.try_section.
  destruct (get_section_meta json_net ciclo pleito s) as [[urnas|e] evs]; simpl in *;
    [|done].
  destruct (download_urnas urnas st fs) as [[[[[]|e] st'] fs'] evs']; simpl; set_solver.
Qed.

(** [download_state] processes every section it selected, batch after
    batch. *)
Lemma download_state_processes_all sample uf max_sections municipio_filter cfg evs0 st fs :
  get_state_config json_net ciclo pleito uf = (Returned (Some cfg), evs0) ->
  download_state raw_dir on_section_done json_net file_net sample ciclo pleito
    file_types uf max_sections municipio_filter st fs
  = let '(st', fs', evs') :=
      process_sections (select_sections sample cfg max_sections municipio_filter) st fs in
    (Returned st', fs', evs0 ++ evs').
Proof.
  intros Hcfg. unfold download_state. rewrite Hcfg.
  by rewrite process_batches_concat, (concat_batches 499).
Qed.

Lemma process_sections_requests sections :
  forall s st fs,
    s ∈ sections ->
    EvGet (section_meta_url ciclo pleito s) ∈ (process_sections sections st fs).2.
Proof.
  induction sections as [|s0 rest IH]; intros s st fs Hs; [by apply elem_of_nil in Hs|].
  simpl. pose proof (process_one_requests s0 st fs) as H0.
  destruct (_process_one_section s0 st fs) as [[st' fs'] evs].
  specialize (IH s st' fs').
  destruct (process_sections rest st' fs') as [[st'' fs''] evs']. simpl in *.
  apply elem_of_cons in Hs as [-> | Hs]; set_solver.
Qed.

(** C5. When the manifest fetch of one section raises, the exception is
    caught and the run ends with the disk of the run without that section
    and with its stats but for [errors], which is higher by exactly one:
    [downloaded], [skipped] and [sections_processed] are those of the run
    without the section. The manifest of every section of the list is
    requested all the same; and [download_state], when that list is what it
    selected, returns those stats. Whatever the [try] block of a section
    raises is caught: [errors] is one more than what the block had counted,
    the other counters are what the block left, and the section is not
    counted as processed. *)
Theorem section_failure_is_isolated :
  forall (pre post : list ElectoralSection) (s : ElectoralSection)
         (st : Stats) (fs : Disk) (e : Exn) (evs : list Event),
    get_section_meta json_net ciclo pleito s = (Raised e, evs) ->
    let one_more_error (st1 st0 : Stats) :=
      errors st1 = errors st0 + 1
      /\ downloaded st1 = downloaded st0
      /\ skipped st1 = skipped st0
      /\ sections_processed st1 = sections_processed st0 in
    let without := (process_sections (pre ++ post) st fs).1.1 in
    one_more_error (process_sections (pre ++ s :: post) st fs).1.1 without
    /\ (process_sections (pre ++ s :: post) st fs).1.2
      = (process_sections (pre ++ post) st fs).1.2
    /\ (forall s', s' ∈ pre ++ s :: post ->
          EvGet (section_meta_url ciclo pleito s')
            ∈ (process_sections (pre ++ s :: post) st fs).2)
    /\ (forall sample uf max_sections municipio_filter cfg evs0,
          get_state_config json_net ciclo pleito uf = (Returned (Some cfg), evs0) ->
          select_sections sample cfg max_sections municipio_filter = pre ++ s :: post ->
          exists st' fs' evs',
            download_state raw_dir on_section_done json_net file_net sample ciclo pleito
              file_types uf max_sections municipio_filter st fs
            = (Returned st', fs', evs')
            /\ one_more_error st' without)
    /\ (forall s' st0 fs0,
          match try_section s' st0 fs0 with
          | (Raised _, st', fs', evs') =>
              exists st'',
                _process_one_section s' st0 fs0 = (st'', fs', evs')
                /\ one_more_error st'' st'
                /\ sections_processed st' = sections_processed st0
          | (Returned _, st', fs', evs') =>
              _process_one_section s' st0 fs0 = (st', fs', evs')
          end).
Proof.
  intros pre post s st fs e evs Hmeta one_more_error without.
  assert ((process_sections (pre ++ s :: post) st fs).1.1 = add_error without) as Hst.
  { subst without. rewrite !process_sections_app. cbn [DownloadManager.process_sections].
    destruct (process_sections pre st fs) as [[st1 fs1] e1].
    unfold DownloadManager._process_one_section, DownloadManager.try_section.
    rewrite Hmeta. rewrite process_sections_add_error.
    by destruct (process_sections post st1 fs1) as [[st2 fs2] e2]. }
  split_and!.
  - rewrite Hst. by unfold add_error.
  - rewrite !process_sections_app. cbn [DownloadManager.process_sections].
    destruct (process_sections pre st fs) as [[st1 fs1] e1].
    unfold DownloadManager._process_one_section, DownloadManager.try_section.
    rewrite Hmeta. rewrite process_sections_add_error.
    by destruct (process_sections post st1 fs1) as [[st2 fs2] e2].
  - intros s' Hs'. by apply process_sections_requests.
  - intros sample uf max_sections municipio_filter cfg evs0 Hcfg Hsel.
    rewrite (download_state_processes_all _ _ _ _ _ _ _ _ Hcfg), Hsel.
    destruct (process_sections (pre ++ s :: post) st fs) as [[st' fs'] evs'] eqn:Hrun.
    exists st', fs', (evs0 ++ evs'). split; [done|].
    cbn [fst] in Hst. rewrite Hst. by unfold add_error.
  - intros s' st0 fs0.
    unfold DownloadManager._process_one_section, DownloadManager.try_section.
    destruct (get_section_meta json_net ciclo pleito s') as [[urnas|e0] evs0].
    + pose proof (download_urnas_sections urnas st0 fs0) as Hsec.
      destruct (download_urnas urnas st0 fs0) as [[[[[]|e1] st1] fs1] evs1]; [done|].
      exists (add_error st1). split_and!; [done | by unfold add_error | done].
    + exists (add_error st0). split_and!; [done | by unfold add_error | done].
Qed.

Lemma download_files_not_found (urna : UrnaMeta) (fs : Disk) (filenames : list string) :
  (forall url, exists chunks abort, file_net url 0 = SResponse 404 chunks abort) ->
  (forall dest, exists_nonempty dest fs = false) ->
  forall results,
    exists evs,
      download_files raw_dir file_net ciclo pleito file_types urna filenames results fs
      = (Returned {| ok := ok results; skip := skip results;
                     fail := fail results
                             + length (List.filter (wanted file_types) filenames) |},
         fs, evs).
Proof.
  intros Hnet Hfs. induction filenames as [|filename rest IH]; intros results.
  - exists []. cbn [download_files List.filter length]. rewrite Nat.add_0_r.
    by destruct results.
  - cbn [download_files List.filter]. destruct (wanted file_types filename) eqn:Hw.
    + destruct (Hnet (build_file_url ciclo pleito (section urna) (hash urna) filename))
        as (chunks & abort & H).
      rewrite (ClientFacts.download_file_not_found _ _ _ _ chunks abort (Hfs _) H).
      unfold count_file.
      destruct (IH {| ok := ok results; skip := skip results; fail := fail results + 1 |})
        as [evs ->].
      eexists. cbn [ok skip fail length]. do 3 f_equal. f_equal. lia.
    + apply IH.
Qed.

Lemma download_urnas_not_found (fs : Disk) (urnas : list UrnaMeta) :
  (forall url, exists chunks abort, file_net url 0 = SResponse 404 chunks abort) ->
  (forall dest, exists_nonempty dest fs = false) ->
  forall st,
    exists evs,
      download_urnas urnas st fs
      = (Returned tt,
         {| downloaded := downloaded st; skipped := skipped st;
            errors := errors st + wanted_count file_types urnas;
            sections_processed := sections_processed st |},
         fs, evs).
Proof.
  intros Hnet Hfs. induction urnas as [|urna rest IH]; intros st.
  - exists []. cbn [DownloadManager.download_urnas]. unfold wanted_count.
    cbn [sum_list_with]. rewrite Nat.add_0_r. by destruct st.
  - cbn [DownloadManager.download_urnas]. unfold download_section_files.
    destruct (download_files_not_found urna fs (arquivos urna) Hnet Hfs
                {| ok := 0; skip := 0; fail := 0 |}) as [evs ->].
    match goal with
    | |- context [download_urnas rest ?st1 fs] => destruct (IH st1) as [evs' ->]
    end.
    eexists. unfold add_results, wanted_count.
    cbn [ok skip fail downloaded skipped errors sections_processed sum_list_with].
    do 3 f_equal. f_equal; lia.
Qed.

Lemma process_one_not_found (s : ElectoralSection) (st : Stats) (fs : Disk) :
  (forall url, exists chunks abort, file_net url 0 = SResponse 404 chunks abort) ->
  (forall dest, exists_nonempty dest fs = false) ->
  exists evs,
    _process_one_section s st fs
    = ({| downloaded := downloaded st; skipped := skipped st;
          errors := errors st + not_found_errors json_net ciclo pleito file_types s;
          sections_processed :=
            sections_processed st
            + (if manifest_fetched json_net ciclo pleito s then 1 else 0) |},
       fs, evs).
Proof.
  intros Hnet Hfs.
  unfold DownloadManager._process_one_section, DownloadManager.try_section,
    not_found_errors, manifest_fetched.
  destruct (get_section_meta json_net ciclo pleito s) as [[urnas|e] evs0]; cbn [fst is_raised negb].
  - destruct (download_urnas_not_found fs urnas Hnet Hfs st) as [evs ->].
    eexists. unfold add_section. cbn [downloaded skipped errors sections_processed].
    reflexivity.
  - eexists. unfold add_error. do 2 f_equal. f_equal; lia.
Qed.

Lemma process_sections_not_found (fs : Disk) (sections : list ElectoralSection) :
  (forall url, exists chunks abort, file_net url 0 = SResponse 404 chunks abort) ->
  (forall dest, exists_nonempty dest fs = false) ->
  forall st,
    exists st' evs,
      process_sections sections st fs = (st', fs, evs)
      /\ errors st'
         = errors st
           + sum_list_with (not_found_errors json_net ciclo pleito file_types) sections
      /\ sections_processed st'
         = sections_processed st
           + length (List.filter (manifest_fetched json_net ciclo pleito) sections)
      /\ downloaded st' = downloaded st
      /\ skipped st' = skipped st.
Proof.
  intros Hnet Hfs. induction sections as [|s rest IH]; intros st.
  - exists st, []. cbn [sum_list_with List.filter length]. split_and!; first [done | lia].
  - cbn [DownloadManager.process_sections].
    destruct (process_one_not_found s st fs Hnet Hfs) as [evs ->].
    match goal with
    | |- context [process_sections rest ?st1 fs] =>
        destruct (IH st1) as (st' & evs' & -> & He & Hp & Hd & Hs)
    end.
    exists st', (evs ++ evs'). cbn [downloaded skipped errors sections_processed] in *.
    cbn [sum_list_with List.filter].
    destruct (manifest_fetched json_net ciclo pleito s); cbn [length];
      split_and!; first [done | lia].
Qed.

(** C4, as amended. HTTP 404 ends a call at once: [fetch_json] returns
    [None] and [download_file] returns [False], with no pause and no further
    attempt. A section whose manifest is not found is processed with no
    download and no error: [sections_processed] grows by one, and
    [errors], [downloaded], [skipped] and the disk are as they were. A file
    that is not found is counted under [fail], which the manager adds to
    its [errors]: when no file is found and none is on the disk,
    [download_state] returns [errors] grown by one for every wanted file
    the manifests list (and by one for every section whose manifest fetch
    raises), with nothing counted as downloaded or skipped. *)
Theorem not_found_ends_the_call_and_counts_as_failure :
  forall (J : Type) (jreply : nat -> JsonReply J) (sreply : nat -> StreamReply)
         (url : string) (dest : Path) (k r : nat) (fs : Disk)
         (urna : UrnaMeta) (filename : string) (rest : list string)
         (results : Results) (s : ElectoralSection) (st : Stats),
    (forall body, jreply k = JResponse 404 body ->
       fetch_json_loop jreply url k (S r) = (Returned None, [EvAcquire; EvGet url]))
    /\ (forall chunks abort, sreply k = SResponse 404 chunks abort ->
       download_loop sreply url dest k (S r) fs
         = (Returned false, fs, [EvAcquire; EvStream url]))
    /\ (forall body,
          json_net (section_meta_url ciclo pleito s) 0 = JResponse 404 body ->
          let '(st', fs', _) := _process_one_section s st fs in
          fs' = fs
          /\ errors st' = errors st
          /\ sections_processed st' = sections_processed st + 1
          /\ downloaded st' = downloaded st
          /\ skipped st' = skipped st)
    /\ (forall chunks abort,
          let file_url := build_file_url ciclo pleito (section urna) (hash urna) filename in
          let file_dest := _section_dir raw_dir (section urna) ++ [filename] in
          wanted file_types filename = true ->
          exists_nonempty file_dest fs = false ->
          file_net file_url 0 = SResponse 404 chunks abort ->
          exists results',
            fail results' = fail results + 1
            /\ ok results' = ok results /\ skip results' = skip results
            /\ download_files raw_dir file_net ciclo pleito file_types
                 urna (filename :: rest) results fs
               = let '(o, fs', evs) :=
                   download_files raw_dir file_net ciclo pleito file_types
                     urna rest results' fs in
                 (o, fs', [EvAcquire; EvStream file_url] ++ evs))
    /\ (forall sample uf max_sections municipio_filter cfg evs0,
          get_state_config json_net ciclo pleito uf = (Returned (Some cfg), evs0) ->
          (forall file_url, exists chunks abort,
             file_net file_url 0 = SResponse 404 chunks abort) ->
          (forall file_dest, exists_nonempty file_dest fs = false) ->
          let sections := select_sections sample cfg max_sections municipio_filter in
          exists st' evs,
            download_state raw_dir on_section_done json_net file_net sample ciclo pleito
              file_types uf max_sections municipio_filter st fs
            = (Returned st', fs, evs)
            /\ errors st'
               = errors st
                 + sum_list_with (not_found_errors json_net ciclo pleito file_types)
                     sections
            /\ sections_processed st'
               = sections_processed st
                 + length (List.filter (manifest_fetched json_net ciclo pleito) sections)
            /\ downloaded st' = downloaded st
            /\ skipped st' = skipped st).
Proof.
  intros. split_and!.
  - intros body H. simpl. by rewrite H.
  - intros chunks abort H. simpl. by rewrite H.
  - intros body H.
    unfold DownloadManager._process_one_section, DownloadManager.try_section,
      get_section_meta.
    rewrite (ClientFacts.fetch_json_not_found _ _ body H).
    cbn [download_urnas DownloadManager.download_urnas fst].
    unfold add_section. cbn [downloaded skipped errors sections_processed].
    by destruct on_section_done.
  - intros chunks abort file_url file_dest Hw Hne H.
    eexists. split; [|split; [|split]]; cycle 3.
    + cbn [download_files]. rewrite Hw. fold file_url file_dest.
      rewrite (ClientFacts.download_file_not_found _ _ _ _ chunks abort Hne H).
      reflexivity.
    + reflexivity.
    + reflexivity.
    + reflexivity.
  - intros sample uf max_sections municipio_filter cfg evs0 Hcfg Hnet Hfs sections.
    rewrite (download_state_processes_all _ _ _ _ _ _ _ _ Hcfg). fold sections.
    destruct (process_sections_not_found fs sections Hnet Hfs st)
      as (st' & evs & -> & He & Hp & Hd & Hs).
    by exists st', (evs0 ++ evs).
Qed.

End Run.

Lemma fetch_json_loop_map (f : Body -> Body) reply url r :
  forall k,
    fetch_json_loop (fun k => map_reply f (reply k)) url k r =
      (map_outcome (fmap f) (fetch_json_loop reply url k r).1,
       (fetch_json_loop reply url k r).2).
Proof.
  induction r as [|r IH]; intros k; simpl; [done|].
  destruct (reply k) as [status body | e]; simpl.
  - destruct (status =? 404)%Z; [done|].
    destruct (is_success status); [by destruct body|].
    destruct (status =? 429)%Z.
    + rewrite IH. by destruct (fetch_json_loop reply url (S k) r).
    + destruct (Nat.eqb k _); [done|].
      rewrite IH. by destruct (fetch_json_loop reply url (S k) r).
  - destruct e; try done; rewrite IH; by destruct (fetch_json_loop reply url (S k) r).
Qed.

Lemma omap_real_entries s hashes :
  omap (urna_of_hash s) (List.filter real_entry hashes) = omap (urna_of_hash s) hashes.
Proof.
  induction hashes as [|h hashes IH]; [done|].
  change (List.filter real_entry (h :: hashes))
    with (if real_entry h then h :: List.filter real_entry hashes
          else List.filter real_entry hashes).
  destruct (real_entry h) eqn:E.
  - cbn [omap list_omap]. by rewrite IH.
  - cbn [omap list_omap]. rewrite IH.
    assert (urna_of_hash s h = None) as ->; [|done].
    unfold real_entry in E. apply negb_false_iff in E.
    unfold urna_of_hash. by rewrite E.
Qed.

Lemma get_section_meta_without net ciclo pleito s :
  get_section_meta (answer_with without_no_file net) ciclo pleito s
  = get_section_meta net ciclo pleito s.
Proof.
  unfold get_section_meta, fetch_json, answer_with.
  rewrite fetch_json_loop_map.
  destruct (fetch_json_loop _ _ 0 MAX_RETRIES) as [[[body|]|e] evs]; simpl; try done.
  destruct (b_hashes body); simpl; [|done]. by rewrite omap_real_entries.
Qed.

Lemma get_state_config_without net ciclo pleito uf :
  get_state_config (answer_with without_no_file net) ciclo pleito uf
  = get_state_config net ciclo pleito uf.
Proof.
  unfold get_state_config, fetch_json, answer_with.
  rewrite fetch_json_loop_map.
  by destruct (fetch_json_loop _ _ 0 MAX_RETRIES) as [[[body|]|e] evs].
Qed.

Lemma process_sections_without raw_dir cb net file_net ciclo pleito file_types sections :
  forall st fs,
    process_sections raw_dir cb (answer_with without_no_file net) file_net
      ciclo pleito file_types sections st fs
    = process_sections raw_dir cb net file_net ciclo pleito file_types sections st fs.
Proof.
  induction sections as [|s rest IH]; intros st fs; simpl; [done|].
  unfold _process_one_section, try_section.
  rewrite get_section_meta_without.
  destruct (get_section_meta net ciclo pleito s) as [[urnas|e] evs]; simpl;
    [destruct (download_urnas _ _ _ _ _ urnas st fs) as [[[[[]|e] st'] fs'] evs']|];
    by rewrite IH.
Qed.

Lemma process_batches_without raw_dir cb net file_net ciclo pleito file_types bs :
  forall st fs,
    process_batches raw_dir cb (answer_with without_no_file net) file_net
      ciclo pleito file_types bs st fs
    = process_batches raw_dir cb net file_net ciclo pleito file_types bs st fs.
Proof.
  induction bs as [|b bs IH]; intros st fs; simpl; [done|].
  rewrite process_sections_without.
  destruct (process_sections _ _ net _ _ _ _ b st fs) as [[st' fs'] evs].
  by rewrite IH.
Qed.

Lemma real_hash (h : JScalar) :
  no_file_hash h = false -> h <> JStr "0" /\ h <> JStr "" /\ h <> JNull.
Proof. intros H. repeat split; intros ->; discriminate. Qed.

Lemma section_meta_hashes (net : JsonNet) (ciclo pleito : string)
    (s : ElectoralSection) (urna : UrnaMeta) :
  urna ∈ default [] (match (get_section_meta net ciclo pleito s).1 with
                     | Returned urnas => Some urnas
                     | Raised _ => None
                     end) ->
  no_file_hash (hash urna) = false.
Proof.
  unfold get_section_meta.
  destruct (fetch_json (net (section_meta_url ciclo pleito s))
                       (section_meta_url ciclo pleito s)) as [[[body|]|e] evs];
    cbn [fst default from_option id]; try (by intros H%elem_of_nil).
  destruct (b_hashes body) as [hashes|]; cbn [fst default from_option id];
    [|by intros H%elem_of_nil].
  intros (h0 & _ & Hh0)%list_elem_of_omap.
  unfold urna_of_hash in Hh0.
  destruct (no_file_hash (default (JStr "") (h_hash h0))) eqn:E; [done|].
  by injection Hh0 as <-.
Qed.

(** C7. A manifest entry whose hash is absent, null, empty or "0" yields
    no [UrnaMeta]; no entry that [get_section_meta] returns has such a hash;
    and [download_state] runs the same (same stats, same disk, same requests
    in the same order) as on the manifests without those entries. *)
Theorem no_file_hash_entries_are_discarded :
  forall (raw_dir : Path) (on_section_done : bool) (net : JsonNet)
         (file_net : FileNet) (sample : list ElectoralSection -> nat -> list ElectoralSection)
         (ciclo pleito : string) (file_types : list string)
         (s : ElectoralSection) (h : HashEntry),
    (h_hash h = None \/ h_hash h = Some JNull
     \/ h_hash h = Some (JStr "") \/ h_hash h = Some (JStr "0")
     -> urna_of_hash s h = None)
    /\ (forall urna,
          urna ∈ default [] (match (get_section_meta net ciclo pleito s).1 with
                             | Returned urnas => Some urnas
                             | Raised _ => None
                             end) ->
          hash urna <> JStr "0" /\ hash urna <> JStr "" /\ hash urna <> JNull)
    /\ (forall state max_sections municipio_filter st fs,
          download_state raw_dir on_section_done (answer_with without_no_file net)
            file_net sample ciclo pleito file_types state max_sections municipio_filter st fs
          = download_state raw_dir on_section_done net
              file_net sample ciclo pleito file_types state max_sections municipio_filter st fs).
Proof.
  intros. split; [|split].
  - unfold urna_of_hash. intros [-> | [-> | [-> | ->]]]; reflexivity.
  - intros urna H. by apply real_hash, (section_meta_hashes net ciclo pleito s).
  - intros state max_sections municipio_filter st fs.
    unfold download_state. rewrite get_state_config_without.
    destruct (get_state_config net ciclo pleito state) as [[[cfg|]|e] evs]; try done.
    by rewrite process_batches_without.
Qed.

Lemma section_failure_is_isolated_witness :
  let with_section :=
    (process_sections ["raw"] true Scenarios.df_1_broken_net Scenarios.all_ok
       "ele2022" "406" [] ([] ++ Scenarios.df_1 :: [Scenarios.df_2]) zero_stats ∅).1.1 in
  let without :=
    (process_sections ["raw"] true Scenarios.df_1_broken_net Scenarios.all_ok
       "ele2022" "406" [] ([] ++ [Scenarios.df_2]) zero_stats ∅).1.1 in
  errors with_section = errors without + 1
  /\ downloaded with_section = downloaded without
  /\ skipped with_section = skipped without
  /\ sections_processed with_section = sections_processed without.
Proof.
  apply (proj1 (section_failure_is_isolated
                  ["raw"] true Scenarios.df_1_broken_net Scenarios.all_ok
                  "ele2022" "406" [] [] [Scenarios.df_2] Scenarios.df_1 zero_stats ∅
                  OtherException
                  [EvAcquire; EvGet (section_meta_url "ele2022" "406" Scenarios.df_1)]
                  eq_refl)).
Defined.

(** C4, as stated, fails: a file whose URL answers 404 does add to the
    [errors] that [download_state] returns. With one section, one listed
    file and every file answered 404, the run returns one error. *)
Lemma not_found_file_is_counted_as_error :
  ~ (forall (raw_dir : Path) (on_section_done : bool) (json_net : JsonNet)
            (file_net : FileNet)
            (sample : list ElectoralSection -> nat -> list ElectoralSection)
            (ciclo pleito : string) (file_types : list string) (uf : string)
            (max_sections : option nat) (municipio_filter : list string)
            (st : Stats) (fs : Disk),
        (forall url k, file_net url k = SResponse 404 [] None) ->
        match (download_state raw_dir on_section_done json_net file_net sample
                 ciclo pleito file_types uf max_sections municipio_filter st fs).1.1
        with
        | Returned st' => errors st' = errors st
        | Raised _ => True
        end).
Proof.
  intros H.
  specialize (H ["raw"] false Scenarios.df_net Scenarios.all_404 (fun l _ => l)
                "ele2022" "406" [] "DF" None [] zero_stats (∅ : Disk)
                (fun _ _ => eq_refl)).
  vm_compute in H. discriminate.
Qed.

Lemma not_found_ends_the_call_and_counts_as_failure_witness :
  exists st' evs,
    download_state ["raw"] false Scenarios.df_net Scenarios.all_404 (fun l _ => l)
      "ele2022" "406" [] "DF" None [] zero_stats (∅ : Disk)
    = (Returned st', (∅ : Disk), evs)
    /\ errors st' = 1
    /\ sections_processed st' = 1
    /\ downloaded st' = 0.
Proof.
  destruct (proj2 (proj2 (proj2 (proj2
              (not_found_ends_the_call_and_counts_as_failure
                 ["raw"] false Scenarios.df_net Scenarios.all_404 "ele2022" "406" []
                 unit (fun _ => JTransport OtherError) (Scenarios.all_404 "u")
                 "u" ["d"] 0 0 (∅ : Disk)
                 {| section := Scenarios.df_1; hash := JStr "abc"; status := "";
                    data := ""; hora := ""; arquivos := [] |}
                 "f" [] {| ok := 0; skip := 0; fail := 0 |} Scenarios.df_1 zero_stats))))
              (fun l _ => l) "DF" None [] _ _ eq_refl
              (fun _ => ex_intro _ [] (ex_intro _ None eq_refl))
              ltac:(intros file_dest; unfold exists_nonempty; by rewrite lookup_empty))
    as (st' & evs & Hrun & He & Hp & Hd & _).
  exists st', evs. split; [exact Hrun|].
  rewrite He, Hp, Hd. split_and!; vm_compute; reflexivity.
Defined.
End ManagerFacts.

(** ** The ballot decoder *)

Module BUFacts.
Import Py BU BUParser BatchAnalyzer DuckDBStore Notions.




Lemma build_bu_version envelope bu v r :
  _build_bu envelope bu v = Some r -> spec_version r = v.
Proof.
  unfold _build_bu. intros H.
  repeat (apply bind_Some in H;
          let x := fresh "x" in
          destruct H as (x & _ & H);
          try (destruct x as [[[[? ?] ?] ?] ?]); cbn beta iota in H).
  injection H as <-. reflexivity.
Qed.

(** C6, as amended. [parse] is a function of the file's bytes and of the
    schema version that [detect_spec_version] reads off the file's name: two
    files with the same bytes and names of the same version decode alike,
    and a decoded record carries the version of its file's name. *)
Theorem decode_is_a_function_of_bytes_and_version :
  forall (asn1_decode : SpecVersion -> string -> bytes -> option PyVal)
         (disk1 disk2 : Disk) (p q : Path),
    disk1 !! p = disk2 !! q ->
    detect_spec_version (default "" (last p)) = detect_spec_version (default "" (last q)) ->
    parse asn1_decode disk1 p = parse asn1_decode disk2 q
    /\ (forall r, parse asn1_decode disk1 p = Some r ->
          spec_version r = detect_spec_version (default "" (last p))).
Proof.
  intros decode disk1 disk2 p q Hbytes Hversion. split.
  - unfold parse. by rewrite Hbytes, Hversion.
  - intros r H. unfold parse in H.
    apply bind_Some in H as (raw & _ & H).
    apply bind_Some in H as ([envelope bu] & _ & H).
    by apply build_bu_version in H.
Qed.

Lemma decode_is_a_function_of_bytes_and_version_witness :
  parse BallotScenarios.toy_decode BallotScenarios.twin_disk ["raw"; "o00406-1.bu"]
  = parse BallotScenarios.toy_decode BallotScenarios.twin_disk ["raw"; "o00407-1.bu"]
  /\ (forall r,
        parse BallotScenarios.toy_decode BallotScenarios.twin_disk ["raw"; "o00406-1.bu"]
        = Some r ->
        spec_version r = detect_spec_version (default "" (last ["raw"; "o00406-1.bu"]))).
Proof.
  apply (decode_is_a_function_of_bytes_and_version
           BallotScenarios.toy_decode
           BallotScenarios.twin_disk BallotScenarios.twin_disk
           ["raw"; "o00406-1.bu"] ["raw"; "o00407-1.bu"]);
    reflexivity.
Defined.

(** C6, as stated, fails: two files with identical bytes, one named after
    each scheme, do not decode to the same record. *)
Lemma decode_depends_on_the_file_name :
  ~ (forall (asn1_decode : SpecVersion -> string -> bytes -> option PyVal)
            (disk : Disk) (p q : Path),
        disk !! p = disk !! q ->
        parse asn1_decode disk p = parse asn1_decode disk q).
Proof.
  intros H.
  specialize (H BallotScenarios.toy_decode BallotScenarios.twin_disk
                ["raw"; "o00406-1.bu"] ["raw"; "o00452-1-bu.dat"] eq_refl).
  vm_compute in H. discriminate.
Qed.


End BUFacts.

(** ** The store *)

Module StoreFacts.
Import Py BU BatchAnalyzer DuckDBStore RebuildParallel StoreNotions.

Lemma votos_execute_all stmts :
  forall db, votos (execute_all db stmts) = votos db ++ inserted_votos stmts.
Proof.
  induction stmts as [|s stmts IH]; intros db.
  - simpl. by rewrite app_nil_r.
  - unfold execute_all in *. simpl. rewrite IH.
    destruct s; simpl; try done. by rewrite <- app_assoc.
Qed.

Lemma secoes_execute_all stmts :
  forall db, secoes (execute_all db stmts) = foldl upsert (secoes db) stmts.
Proof.
  induction stmts as [|s stmts IH]; intros db; [done|].
  unfold execute_all in *. simpl. rewrite IH. by destruct s.
Qed.

Lemma inserted_votos_app a b :
  inserted_votos (a ++ b) = inserted_votos a ++ inserted_votos b.
Proof. apply omap_app. Qed.

Lemma inserted_votos_map_voto rows : inserted_votos (map InsertVoto rows) = rows.
Proof. induction rows as [|r rows IH]; [done|]. simpl. by rewrite IH. Qed.

Lemma inserted_votos_map_issue rows : inserted_votos (map InsertIssue rows) = [].
Proof. induction rows as [|r rows IH]; [done|]. simpl. by rewrite IH. Qed.

Lemma inserted_votos_section a : inserted_votos (section_statements a) = section_votos a.
Proof.
  unfold section_statements, section_votos.
  rewrite !inserted_votos_app. simpl.
  rewrite <- (map_map (issue_row (secao_id_of a)) InsertIssue), inserted_votos_map_issue.
  simpl. induction (cargos_of a) as [|[eleicao cargo] rest IH]; [done|].
  simpl. rewrite !inserted_votos_app, IH.
  rewrite <- (map_map (voto_row (secao_id_of a) eleicao cargo) InsertVoto).
  rewrite inserted_votos_map_voto. simpl. by rewrite app_nil_r.
Qed.

Lemma upsert_section a m :
  foldl upsert m (section_statements a) = <[secao_id_of a := secao_row a]> m.
Proof.
  unfold section_statements. rewrite !foldl_app. simpl.
  generalize (<[secao_id_of a := secao_row a]> m). intros m'.
  assert (forall l m0, foldl upsert m0
            (map (fun issue => InsertIssue (issue_row (secao_id_of a) issue)) l) = m0) as ->.
  { induction l as [|x l IH]; intros m0; [done|]. simpl. apply IH. }
  induction (cargos_of a) as [|[eleicao cargo] rest IH]; [done|].
  simpl. rewrite !foldl_app. simpl.
  assert (forall l m0, foldl upsert m0
            (map (fun voto => InsertVoto (voto_row (secao_id_of a) eleicao cargo voto)) l)
          = m0) as ->.
  { induction l as [|x l IHl]; intros m0; [done|]. simpl. apply IHl. }
  apply IH.
Qed.

Lemma process_section_tables parse collab db section_dir bu_file :
  let a := _analyze_section parse collab section_dir bu_file in
  let db' := _process_section parse collab db section_dir bu_file in
  secoes db' = <[secao_id_of a := secao_row a]> (secoes db)
  /\ votos db' = votos db ++ section_votos a.
Proof.
  intros a db'. subst db'. unfold _process_section. fold a.
  by rewrite secoes_execute_all, votos_execute_all, upsert_section, inserted_votos_section.
Qed.

Lemma insert_batch_tables parse collab db bu_file :
  let a := _analyze_section parse collab (parent bu_file) bu_file in
  let db' := insert_batch db [parse_section parse collab bu_file] in
  secoes db' = <[secao_id_of a := secao_row a]> (secoes db)
  /\ votos db' = votos db ++ section_votos a.
Proof.
  intros a db'. subst db'. unfold insert_batch, parse_section. fold a.
  rewrite !secoes_execute_all, !votos_execute_all. simpl.
  rewrite !app_nil_r, inserted_votos_map_voto.
  split.
  - assert (forall l m0, foldl upsert m0 (map InsertVoto l) = m0) as ->.
    { induction l as [|x l IH]; intros m0; [done|]. simpl. apply IH. }
    assert (forall l m0, foldl upsert m0 (map InsertIssue l) = m0) as ->.
    { induction l as [|x l IH]; intros m0; [done|]. simpl. apply IH. }
    assert (forall l m0, foldl upsert m0 (map InsertTotais l) = m0) as ->.
    { induction l as [|x l IH]; intros m0; [done|]. simpl. apply IH. }
    done.
  - assert (forall l, inserted_votos (map InsertTotais l) = []) as ->.
    { induction l as [|x l IH]; [done|]. simpl. apply IH. }
    rewrite inserted_votos_map_issue. simpl. by rewrite !app_nil_r.
Qed.

(** C1, as amended. Compiling the same ballot file twice leaves exactly
    one [secoes] row under its SectionId, the same row both times: the
    section row's upsert is idempotent. The vote rows are inserted, not
    upserted: the second compilation appends the section's vote rows again,
    so the rows of that SectionId are the same set after one compilation as
    after two, each stored twice. [insert_batch] does the same. *)
Theorem recompiling_replaces_the_row_and_repeats_the_votes :
  forall (parse : Path -> option BoletimUrna) (collab : Collaborators)
         (db : Store) (section_dir bu_file : Path),
    let a := _analyze_section parse collab section_dir bu_file in
    let once := _process_section parse collab db section_dir bu_file in
    let twice := _process_section parse collab once section_dir bu_file in
    let item := parse_section parse collab bu_file in
    secoes once !! secao_id_of a = Some (secao_row a)
    /\ secoes twice = secoes once
    /\ votos once = votos db ++ section_votos a
    /\ votos twice = votos once ++ section_votos a
    /\ (forall r, r ∈ votos_of (secao_id_of a) twice <-> r ∈ votos_of (secao_id_of a) once)
    /\ secoes (insert_batch (insert_batch db [item]) [item])
       = secoes (insert_batch db [item])
    /\ votos (insert_batch (insert_batch db [item]) [item])
       = votos (insert_batch db [item])
         ++ section_votos (_analyze_section parse collab (parent bu_file) bu_file).
Proof.
  intros parse collab db section_dir bu_file a once twice item.
  destruct (process_section_tables parse collab db section_dir bu_file) as [Hs1 Hv1].
  destruct (process_section_tables parse collab once section_dir bu_file) as [Hs2 Hv2].
  destruct (insert_batch_tables parse collab db bu_file) as [Hs3 Hv3].
  destruct (insert_batch_tables parse collab (insert_batch db [item]) bu_file) as [Hs4 Hv4].
  fold a once in Hs1, Hv1, Hs2, Hv2. fold twice in Hs2, Hv2. fold item in Hs3, Hv3, Hs4, Hv4.
  repeat split.
  - rewrite Hs1. apply lookup_insert_eq.
  - rewrite Hs2, Hs1. apply insert_insert_eq.
  - done.
  - done.
  - unfold votos_of. rewrite Hv2, Hv1. rewrite !list_elem_of_In, !filter_In, !in_app_iff. tauto.
  - unfold votos_of. rewrite Hv2, Hv1. rewrite !list_elem_of_In, !filter_In, !in_app_iff. tauto.
  - rewrite Hs4, Hs3. apply insert_insert_eq.
  - done.
Qed.

(** C1, as stated, fails: the vote rows are not upserted. After the
    second compilation of a ballot file with one vote tuple, [votos] holds
    two rows for its SectionId where the first compilation left one. *)
Lemma recompiling_is_not_idempotent :
  ~ (forall (parse : Path -> option BoletimUrna) (collab : Collaborators)
            (db : Store) (section_dir bu_file : Path),
        let a := _analyze_section parse collab section_dir bu_file in
        let once := _process_section parse collab db section_dir bu_file in
        let twice := _process_section parse collab once section_dir bu_file in
        votos_of (secao_id_of a) twice = votos_of (secao_id_of a) once).
Proof.
  intros H.
  specialize (H (fun _ => Some BallotScenarios.one_vote_bu) BallotScenarios.no_collab
                empty_store
                (parent BallotScenarios.df_bu_file) BallotScenarios.df_bu_file).
  apply (f_equal length) in H.
  vm_compute in H. discriminate.
Qed.
End StoreFacts.

(** ** The snapshot *)

Module SnapshotFacts.
Import BatchAnalyzer Snapshot.

Section Publish.
Variable DB : Type.
Variable DB_DIR : Path.

Lemma parent_snoc (dir : Path) (n : string) : parent (dir ++ [n]) = dir.
Proof. unfold parent. apply removelast_last. Qed.

Lemma name_snoc (dir : Path) (n : string) : name (dir ++ [n]) = n.
Proof. unfold name. by rewrite last_snoc. Qed.

Lemma SNAPSHOT_PATH_eq : SNAPSHOT_PATH DB_DIR = DB_DIR ++ ["eleicoes_2022_live.duckdb"].
Proof. unfold SNAPSHOT_PATH, DEFAULT_DB_PATH. by rewrite parent_snoc. Qed.

Lemma tmp_snap_eq : tmp_snap DB_DIR = DB_DIR ++ ["eleicoes_2022_live.duckdb.tmp"].
Proof.
  unfold tmp_snap, with_suffix. by rewrite SNAPSHOT_PATH_eq, parent_snoc, name_snoc.
Qed.

Lemma wal_eq : wal DB_DIR = DB_DIR ++ ["eleicoes_2022_live.duckdb.wal"].
Proof.
  unfold wal, with_suffix. by rewrite SNAPSHOT_PATH_eq, parent_snoc, name_snoc.
Qed.

Lemma snoc_ne (dir : Path) (a b : string) : a <> b -> dir ++ [a] <> dir ++ [b].
Proof. intros Hab H. apply app_inv_head in H. congruence. Qed.

Ltac lookups :=
  cbn [files db logged set_files log];
  repeat first
    [ rewrite lookup_insert_eq
    | rewrite lookup_delete_eq
    | rewrite lookup_insert_ne by congruence
    | rewrite lookup_delete_ne by congruence ].

Ltac each_step :=
  repeat (apply Forall_cons_2; [cbn [snd]; lookups; first [by left | by right] |]);
  apply Forall_nil_2.

(** C3. [create_snapshot] makes its calls in this order: the checkpoint
    of the writer's file, the removal of a stale temporary file
    [eleicoes_2022_live.duckdb.tmp], the copy of the primary file
    [eleicoes_2022.duckdb] to the temporary path, the rename of the
    temporary path to the published path [eleicoes_2022_live.duckdb], the
    removal of the snapshot's write-ahead-log sidecar
    [eleicoes_2022_live.duckdb.wal]; it stops at the first call that
    raises. After every call the
    published path holds what it held before the snapshot or the complete
    new database, never a partial copy. No exception leaves the function:
    either every call succeeded, the new snapshot is published, no temporary
    file or sidecar is left and an info record is logged, or a call raised
    and a warning is logged. *)
Theorem create_snapshot_publishes_atomically (fault : nat -> Fault) (w : World DB) :
  let primary := DB_DIR ++ ["eleicoes_2022.duckdb"] in
  let published := DB_DIR ++ ["eleicoes_2022_live.duckdb"] in
  let temporary := DB_DIR ++ ["eleicoes_2022_live.duckdb.tmp"] in
  let sidecar := DB_DIR ++ ["eleicoes_2022_live.duckdb.wal"] in
  let calls :=
    [ OpCheckpoint;
      OpUnlink temporary;
      OpCopy primary temporary;
      OpRename temporary published;
      OpUnlink sidecar ] in
  let '(trace, w', o) := create_snapshot DB_DIR fault w in
  o = Returned tt
  /\ map fst trace `prefix_of` calls
  /\ Forall (fun step =>
               files (snd step) !! published = files w !! published
               \/ files (snd step) !! published = Some (Complete (db w)))
            trace
  /\ (logged w' = logged w ++ [Info] /\ map fst trace = calls
      /\ files w' !! published = Some (Complete (db w))
      /\ files w' !! temporary = None
      /\ files w' !! sidecar = None
      \/ logged w' = logged w ++ [Warning] /\ exists k, k < 5 /\ fault k <> NoFault).
Proof.
  cbv zeta. unfold create_snapshot, try_block, snapshot_block.
  rewrite SNAPSHOT_PATH_eq, tmp_snap_eq, wal_eq.
  assert (H1 := snoc_ne DB_DIR "eleicoes_2022.duckdb" "eleicoes_2022_live.duckdb" ltac:(done)).
  assert (H2 := snoc_ne DB_DIR "eleicoes_2022.duckdb" "eleicoes_2022_live.duckdb.tmp" ltac:(done)).
  assert (H3 := snoc_ne DB_DIR "eleicoes_2022.duckdb" "eleicoes_2022_live.duckdb.wal" ltac:(done)).
  assert (H4 := snoc_ne DB_DIR "eleicoes_2022_live.duckdb" "eleicoes_2022_live.duckdb.tmp" ltac:(done)).
  assert (H5 := snoc_ne DB_DIR "eleicoes_2022_live.duckdb" "eleicoes_2022_live.duckdb.wal" ltac:(done)).
  assert (H6 := snoc_ne DB_DIR "eleicoes_2022_live.duckdb.tmp" "eleicoes_2022_live.duckdb.wal" ltac:(done)).
  unfold DEFAULT_DB_PATH in *.
  remember (DB_DIR ++ ["eleicoes_2022.duckdb"]) as P eqn:HP.
  remember (DB_DIR ++ ["eleicoes_2022_live.duckdb"]) as S eqn:HS.
  remember (DB_DIR ++ ["eleicoes_2022_live.duckdb.tmp"]) as T eqn:HT.
  remember (DB_DIR ++ ["eleicoes_2022_live.duckdb.wal"]) as W eqn:HW.
  cbn [perform_all]. unfold perform, DEFAULT_DB_PATH. rewrite <- ?HP.
  destruct (fault 0) eqn:F0; cbn [perform_all perform].
  2,3: (repeat split; [by eexists | each_step
                      | right; split; [done | exists 0; split; [lia | congruence]]]).
  destruct (fault 1) eqn:F1; cbn [perform_all perform].
  2,3: (repeat split; [by eexists | each_step
                      | right; split; [done | exists 1; split; [lia | congruence]]]).
  destruct (fault 2) eqn:F2; cbn [perform_all perform]; lookups; cbn [perform_all perform].
  2,3: (repeat split; [by eexists | each_step
                      | right; split; [done | exists 2; split; [lia | congruence]]]).
  destruct (fault 3) eqn:F3; cbn [perform_all perform]; lookups; cbn [perform_all perform].
  2,3: (repeat split; [by eexists | each_step
                      | right; split; [done | exists 3; split; [lia | congruence]]]).
  destruct (fault 4) eqn:F4; cbn [perform_all perform]; lookups; cbn [perform_all perform].
  2,3: (repeat split; [by eexists | each_step
                      | right; split; [done | exists 4; split; [lia | congruence]]]).
  repeat split; [by eexists | each_step | left].
  unfold last_world. cbn. lookups. done.
Qed.
End Publish.
End SnapshotFacts.

(** ** The realtime builder *)

Module BuilderFacts.
Import Py BU BatchAnalyzer DuckDBStore Glob RealtimeBuilder.
Import StoreNotions StoreFacts BuilderNotions.

Section Resume.
Variable raw_dir : Path.
Variable disk : Disk.
Variable parse : Path -> option BoletimUrna.
Variable collab : Collaborators.
Variable raises : Path -> bool.
Hypothesis no_storage_error : forall f, f ∈ find_bu_files disk raw_dir -> raises f = false.
Variable db0 : Store.

#[local] Abbreviation Inv := (invariant raw_dir disk db0).
#[local] Abbreviation Covered := covered.
#[local] Abbreviation offer := (RealtimeBuilder.offer).
#[local] Abbreviation compile_item := (RealtimeBuilder.compile_item parse collab raises).
#[local] Abbreviation compile_next := (RealtimeBuilder.compile_next parse collab raises).

Lemma secao_id_agrees (f : Path) :
  _bu_file_to_secao_id f <> "" ->
  secao_id_of (_analyze_section parse collab (parent f) f) = _bu_file_to_secao_id f.
Proof.
  unfold _bu_file_to_secao_id, _analyze_section, secao_id_of, locate.
  destruct (raw_index (parent f)) as [i|]; [|done].
  destruct (parent f !! (i + 1)) as [uf|] eqn:E1; [|done].
  destruct (parent f !! (i + 2)) as [mun|] eqn:E2; [|done].
  destruct (parent f !! (i + 3)) as [zona|] eqn:E3; [|done].
  destruct (parent f !! (i + 4)) as [secao|] eqn:E4; [|done].
  intros _. apply lookup_lt_Some in E4 as Hlt.
  apply Nat.ltb_lt in Hlt. rewrite Hlt. reflexivity.
Qed.

Lemma init_invariant : Inv (init db0).
Proof.
  split; simpl;
    [done | done | set_solver | by rewrite difference_diag_L | done | done |].
  intros item Hitem. by apply elem_of_nil in Hitem.
Qed.

(** *** Offering files to the queue *)

Lemma invariant_same b b' :
  store b' = store b -> existing b' = existing b -> compiled b' = compiled b ->
  errors b' = errors b ->
  (forall item, item ∈ queue b' ++ in_hand b' -> item ∈ queue b ++ in_hand b) ->
  Inv b -> Inv b'.
Proof.
  intros Hs He Hc Her Hq [H1 H2 H3 H4 H5 H6 H7].
  split; rewrite ?Hs, ?He, ?Hc, ?Her; try done.
  intros item Hitem. by apply H7, Hq.
Qed.

Lemma covered_same b b' f :
  existing b ⊆ existing b' ->
  (forall item, item ∈ queue b ++ in_hand b -> item ∈ queue b' ++ in_hand b') ->
  Covered b f -> Covered b' f.
Proof. intros He Hq [H | H]; [left; by apply He | right; by apply Hq]. Qed.

Lemma offer_invariant b f :
  f ∈ find_bu_files disk raw_dir -> Inv b -> Inv (offer b f).
Proof.
  intros Hf Hb. unfold RealtimeBuilder.offer.
  destruct (String.eqb_spec (_bu_file_to_secao_id f) "") as [|Hne]; simpl;
    [done|].
  destruct (bool_decide _); [done|].
  destruct Hb as [H1 H2 H3 H4 H5 H6 H7]. split; try done.
  intros item Hitem. unfold enqueue, in_hand in Hitem. simpl in Hitem.
  rewrite <- app_assoc in Hitem.
  apply elem_of_app in Hitem as [Hitem | Hitem]; [apply H7; set_solver|].
  apply elem_of_cons in Hitem as [-> | Hitem]; [by exists f|].
  apply H7. unfold in_hand. set_solver.
Qed.

Lemma offer_keeps b f g : Covered b f -> Covered (offer b g) f.
Proof.
  apply covered_same; unfold RealtimeBuilder.offer;
    destruct (String.eqb _ _ || bool_decide _); try done.
  intros item. unfold enqueue, in_hand. simpl. set_solver.
Qed.

Lemma offer_covers b f : _bu_file_to_secao_id f <> "" -> Covered (offer b f) f.
Proof.
  intros Hne. unfold covered, RealtimeBuilder.offer.
  destruct (String.eqb_spec (_bu_file_to_secao_id f) ""); [done|]. simpl.
  destruct (bool_decide_reflect (_bu_file_to_secao_id f ∈ existing b)); simpl.
  - by left.
  - right. set_solver.
Qed.

Lemma offers_invariant fs :
  forall b, (forall f, f ∈ fs -> f ∈ find_bu_files disk raw_dir) ->
            Inv b -> Inv (foldl offer b fs).
Proof.
  induction fs as [|f fs IH]; intros b Hfs Hb; [done|].
  simpl. apply IH; [set_solver|]. apply offer_invariant; [set_solver|done].
Qed.

Lemma offers_keep fs f : forall b, Covered b f -> Covered (foldl offer b fs) f.
Proof.
  induction fs as [|g fs IH]; intros b Hb; [done|].
  simpl. by apply IH, offer_keeps.
Qed.

Lemma offers_cover fs f :
  forall b, f ∈ fs -> _bu_file_to_secao_id f <> "" -> Covered (foldl offer b fs) f.
Proof.
  induction fs as [|g fs IH]; intros b Hf Hne; [by apply elem_of_nil in Hf|].
  simpl. apply elem_of_cons in Hf as [-> | Hf]; [|by apply IH].
  by apply offers_keep, offer_covers.
Qed.

(** *** The files a section's callback finds are files of the disk tree *)

Lemma endswith_tail c s p : PyStr.endswith s p = true -> PyStr.endswith (String c s) p = true.
Proof. intros H. cbn [PyStr.endswith]. rewrite H. apply orb_true_r. Qed.

Lemma endswith_drop n : forall s p,
  PyStr.endswith (string_drop n s) p = true -> PyStr.endswith s p = true.
Proof.
  induction n as [|n IH]; intros s p H; [done|].
  destruct s as [|c s]; [done|]. apply endswith_tail, IH. exact H.
Qed.

Lemma elem_of_sorted (f : Path) (l : list Path) : f ∈ sorted l <-> f ∈ l.
Proof. unfold sorted. by rewrite merge_sort_Permutation. Qed.

Lemma glob_in_rglob (s : Models.ElectoralSection) prefix suffix f :
  f ∈ glob disk (DownloadManager._section_dir raw_dir s) prefix suffix ->
  f ∈ rglob disk raw_dir suffix.
Proof.
  unfold glob, rglob. rewrite elem_of_sorted, !list_elem_of_In, !filter_In.
  intros [Hf H]. split; [done|].
  apply andb_true_iff in H as [H Hend].
  apply andb_true_iff in H as [H _].
  apply andb_true_iff in H as [Hparent _].
  apply bool_decide_eq_true in Hparent.
  apply andb_true_iff. split.
  - apply bool_decide_eq_true. rewrite Hparent.
    unfold DownloadManager._section_dir. by apply prefix_app_r.
  - by apply endswith_drop in Hend.
Qed.

Lemma callback_files_on_disk (s : Models.ElectoralSection) pleito f :
  f ∈ callback_files disk (DownloadManager._section_dir raw_dir s) pleito ->
  f ∈ find_bu_files disk raw_dir.
Proof.
  unfold callback_files, find_bu_files. intros Hf.
  apply elem_of_app in Hf as [Hf | Hf]; apply elem_of_app;
    [left | right]; by eapply glob_in_rglob.
Qed.

Lemma main_offers_on_disk downloads f :
  f ∈ main_offers raw_dir disk downloads -> f ∈ find_bu_files disk raw_dir.
Proof.
  unfold main_offers. intros Hf. apply elem_of_app in Hf as [Hf | Hf]; [done|].
  apply list_elem_of_In, in_flat_map in Hf as ([s pleito] & _ & Hf).
  apply list_elem_of_In in Hf. by eapply callback_files_on_disk.
Qed.

(** The main thread alone makes the calls of [main()] one after the
    other. *)
Lemma main_offers_are_the_calls downloads b :
  foldl offer b (main_offers raw_dir disk downloads)
  = foldl (fun b '(s, pleito) =>
             on_section_downloaded disk (DownloadManager._section_dir raw_dir s) pleito b)
          (compile_remaining_from_disk raw_dir disk b) downloads.
Proof.
  unfold main_offers, compile_remaining_from_disk. rewrite foldl_app.
  generalize (foldl offer b (find_bu_files disk raw_dir)). clear b.
  induction downloads as [|[s pleito] downloads IH]; intros b; [done|].
  simpl. rewrite foldl_app. apply IH.
Qed.

(** *** Compiling an item *)

Lemma votos_of_other parse' collab' (db : Store) section_dir bu_file id :
  id <> secao_id_of (_analyze_section parse' collab' section_dir bu_file) ->
  votos_of id (_process_section parse' collab' db section_dir bu_file) = votos_of id db.
Proof.
  intros Hne. unfold votos_of.
  destruct (process_section_tables parse' collab' db section_dir bu_file) as [_ ->].
  rewrite List.filter_app.
  set (a := _analyze_section parse' collab' section_dir bu_file) in *.
  assert (List.filter (fun r => String.eqb (v_secao_id r) id) (section_votos a) = [])
    as ->; [|by rewrite app_nil_r].
  unfold section_votos.
  induction (cargos_of a) as [|[eleicao cargo] rest IH]; [done|].
  simpl. rewrite List.filter_app, IH, app_nil_r.
  induction (BU.votos cargo) as [|v vs IHv]; [done|].
  simpl. destruct (String.eqb_spec (secao_id_of a) id); [congruence | done].
Qed.

Lemma size_new_id (id : string) (ex base : gset string) :
  id ∉ ex -> base ⊆ ex ->
  size (({[id]} ∪ ex) ∖ base) = size (ex ∖ base) + 1.
Proof.
  intros Hid Hbase.
  replace (({[id]} ∪ ex) ∖ base) with ({[id]} ∪ (ex ∖ base)) by set_solver.
  rewrite size_union by set_solver. rewrite size_singleton. lia.
Qed.

Lemma compile_item_queue b item : queue (compile_item b item) = queue b.
Proof.
  destruct item as [[d f] id]. unfold RealtimeBuilder.compile_item.
  destruct (bool_decide _); [done|]. by destruct (raises f).
Qed.

Lemma compile_item_phase b item : phase (compile_item b item) = phase b.
Proof.
  destruct item as [[d f] id]. unfold RealtimeBuilder.compile_item.
  destruct (bool_decide _); [done|]. by destruct (raises f).
Qed.

Lemma compile_item_existing b item : existing b ⊆ existing (compile_item b item).
Proof.
  destruct item as [[d f] id]. unfold RealtimeBuilder.compile_item.
  destruct (bool_decide _); [done|]. destruct (raises f); simpl; set_solver.
Qed.

Lemma compile_item_invariant b item :
  from_disk raw_dir disk item -> Inv b -> Inv (compile_item b item).
Proof.
  intros (f & Hf & Hne & ->) [H1 H2 H3 H4 H5 H6 H7].
  unfold RealtimeBuilder.compile_item.
  destruct (bool_decide_reflect (_bu_file_to_secao_id f ∈ existing b)) as [|Hnew];
    [by split|].
  rewrite (no_storage_error f Hf).
  pose proof (secao_id_agrees f Hne) as Hid.
  destruct (process_section_tables parse collab (store b) (parent f) f) as [Hs Hv].
  split; simpl.
  - rewrite Hs, dom_insert_L, Hid, H1. done.
  - set_solver.
  - assert (_bu_file_to_secao_id f ∈ disk_ids raw_dir disk); [|set_solver].
    unfold disk_ids. apply elem_of_list_to_set, list_elem_of_In, filter_In.
    split.
    + apply in_map. by apply list_elem_of_In.
    + by destruct (String.eqb_spec (_bu_file_to_secao_id f) "").
  - rewrite H4. symmetry. by apply size_new_id.
  - done.
  - intros id Hin. destruct (H6 id Hin) as [Hrow Hvotos].
    assert (id <> _bu_file_to_secao_id f) as Hother by set_solver.
    split.
    + rewrite Hs, Hid. by rewrite lookup_insert_ne.
    + rewrite votos_of_other; [done|]. by rewrite Hid.
  - done.
Qed.

Lemma compile_item_compiles b f :
  f ∈ find_bu_files disk raw_dir ->
  _bu_file_to_secao_id f
    ∈ existing (compile_item b (parent f, f, _bu_file_to_secao_id f)).
Proof.
  intros Hf. unfold RealtimeBuilder.compile_item.
  destruct (bool_decide_reflect (_bu_file_to_secao_id f ∈ existing b)); [done|].
  rewrite (no_storage_error f Hf). simpl. set_solver.
Qed.

(** *** The steps of the compile thread *)

Lemma end_of_turn_same b :
  store (end_of_turn b) = store b /\ existing (end_of_turn b) = existing b
  /\ queue (end_of_turn b) = queue b /\ phase (end_of_turn b) = phase b
  /\ compiled (end_of_turn b) = compiled b /\ errors (end_of_turn b) = errors b.
Proof. unfold end_of_turn. by destruct (Nat.leb _ _). Qed.

Lemma get_same b :
  store (get b) = store b /\ existing (get b) = existing b
  /\ compiled (get b) = compiled b /\ errors (get b) = errors b
  /\ (forall x, x ∈ queue (get b) ++ in_hand (get b) <-> x ∈ queue b ++ in_hand b).
Proof.
  unfold get.
  destruct (phase b) as [batch | item rest] eqn:Hp; [|done].
  destruct (queue b) as [|item q] eqn:Hq; [by rewrite Hq|].
  destruct (Nat.ltb _ _); [|by rewrite Hq].
  repeat split; try done; unfold in_hand; simpl; rewrite ?Hp; set_solver.
Qed.

Lemma close_batch_same b :
  store (close_batch b) = store b /\ existing (close_batch b) = existing b
  /\ compiled (close_batch b) = compiled b /\ errors (close_batch b) = errors b
  /\ queue (close_batch b) = queue b /\ in_hand (close_batch b) = in_hand b.
Proof.
  unfold close_batch, in_hand.
  destruct (phase b) as [[|item rest] | item rest] eqn:Hp; simpl; by rewrite ?Hp.
Qed.

Lemma get_invariant b : Inv b -> Inv (get b).
Proof.
  destruct (get_same b) as (Hs & He & Hc & Her & Hitems).
  apply invariant_same; try done. intros x. by rewrite Hitems.
Qed.

Lemma get_keeps b f : Covered b f -> Covered (get b) f.
Proof.
  destruct (get_same b) as (Hs & He & Hc & Her & Hitems).
  apply covered_same; [by rewrite He|]. intros x. by rewrite Hitems.
Qed.

Lemma close_batch_invariant b : Inv b -> Inv (close_batch b).
Proof.
  destruct (close_batch_same b) as (Hs & He & Hc & Her & Hq & Hh).
  apply invariant_same; try done. by rewrite Hq, Hh.
Qed.

Lemma close_batch_keeps b f : Covered b f -> Covered (close_batch b) f.
Proof.
  destruct (close_batch_same b) as (Hs & He & Hc & Her & Hq & Hh).
  apply covered_same; [by rewrite He | by rewrite Hq, Hh].
Qed.

Lemma compile_next_processing b item rest :
  phase b = Processing item rest ->
  let b' := compile_next b in
  store b' = store (compile_item b item)
  /\ existing b' = existing (compile_item b item)
  /\ compiled b' = compiled (compile_item b item)
  /\ errors b' = errors (compile_item b item)
  /\ queue b' = queue b
  /\ in_hand b' = rest.
Proof.
  intros Hp. unfold compile_next. rewrite Hp. destruct rest as [|item' rest'].
  - destruct (end_of_turn_same (set_phase (compile_item b item) (Collecting [])))
      as (Hs & He & Hq & Hph & Hc & Her).
    unfold in_hand. simpl. rewrite Hs, He, Hq, Hph, Hc, Her. simpl.
    by rewrite compile_item_queue.
  - unfold in_hand. simpl. by rewrite compile_item_queue.
Qed.

Lemma compile_next_invariant b : Inv b -> Inv (compile_next b).
Proof.
  intros Hb. destruct (phase b) as [batch | item rest] eqn:Hp.
  { unfold compile_next. by rewrite Hp. }
  destruct (compile_next_processing b item rest Hp) as (Hs & He & Hc & Her & Hq & Hh).
  apply (invariant_same (compile_item b item)); try done.
  - intros x. rewrite Hq, Hh. unfold in_hand.
    rewrite compile_item_queue, compile_item_phase, Hp. set_solver.
  - apply compile_item_invariant; [|done].
    apply (inv_items _ _ _ _ Hb). unfold in_hand. rewrite Hp. set_solver.
Qed.

Lemma compile_next_keeps b f :
  f ∈ find_bu_files disk raw_dir -> Covered b f -> Covered (compile_next b) f.
Proof.
  intros Hf Hcov. destruct (phase b) as [batch | item rest] eqn:Hp.
  { unfold compile_next. by rewrite Hp. }
  destruct (compile_next_processing b item rest Hp) as (_ & He & _ & _ & Hq & Hh).
  unfold covered. rewrite He, Hq, Hh.
  destruct Hcov as [H | H].
  - left. by apply compile_item_existing.
  - unfold in_hand in H. rewrite Hp in H.
    apply elem_of_app in H as [H | H]; [right; set_solver|].
    apply elem_of_cons in H as [<- | H]; [|right; set_solver].
    left. by apply compile_item_compiles.
Qed.

(** *** The run up to [finish()] *)

Lemma interleave_invariant schedule :
  forall to_offer b,
    (forall f, f ∈ to_offer -> f ∈ find_bu_files disk raw_dir) ->
    Inv b -> Inv (interleave parse collab raises schedule to_offer b).
Proof.
  induction schedule as [|step schedule IH]; intros to_offer b Hfs Hb.
  - by apply offers_invariant.
  - destruct step; simpl.
    + destruct to_offer as [|f fs]; [by apply IH|].
      apply IH; [set_solver|]. apply offer_invariant; [set_solver | done].
    + by apply IH, get_invariant.
    + by apply IH, close_batch_invariant.
    + by apply IH, compile_next_invariant.
Qed.

Lemma interleave_covers schedule f :
  f ∈ find_bu_files disk raw_dir -> _bu_file_to_secao_id f <> "" ->
  forall to_offer b,
    Covered b f \/ f ∈ to_offer ->
    Covered (interleave parse collab raises schedule to_offer b) f.
Proof.
  intros Hf Hne.
  induction schedule as [|step schedule IH]; intros to_offer b H.
  - destruct H as [H | H]; [by apply offers_keep | by apply offers_cover].
  - destruct step; simpl.
    + destruct to_offer as [|g fs]; [by apply IH|].
      apply IH. destruct H as [H | H]; [left; by apply offer_keeps|].
      apply elem_of_cons in H as [-> | H]; [left; by apply offer_covers | by right].
    + apply IH. destruct H as [H | H]; [left; by apply get_keeps | by right].
    + apply IH. destruct H as [H | H]; [left; by apply close_batch_keeps | by right].
    + apply IH. destruct H as [H | H]; [left; by apply compile_next_keeps | by right].
Qed.

(** *** The compile thread runs to its end *)

Lemma thread_step_invariant b : Inv b -> Inv (thread_step parse collab raises b).
Proof.
  intros Hb. unfold thread_step.
  destruct (phase b) as [batch | item rest]; [|by apply compile_next_invariant].
  destruct (queue b); [by apply close_batch_invariant|].
  destruct (Nat.ltb _ _); [by apply get_invariant | by apply close_batch_invariant].
Qed.

Lemma thread_step_keeps b f :
  f ∈ find_bu_files disk raw_dir ->
  Covered b f -> Covered (thread_step parse collab raises b) f.
Proof.
  intros Hf Hb. unfold thread_step.
  destruct (phase b) as [batch | item rest]; [|by apply compile_next_keeps].
  destruct (queue b); [by apply close_batch_keeps|].
  destruct (Nat.ltb _ _); [by apply get_keeps | by apply close_batch_keeps].
Qed.

Lemma thread_step_works b :
  (phase b = Collecting [] -> queue b <> []) ->
  work_left (thread_step parse collab raises b) < work_left b.
Proof.
  intros Hgo. unfold thread_step, work_left.
  destruct (phase b) as [batch | item rest] eqn:Hp.
  - destruct (queue b) as [|x q] eqn:Hq.
    + unfold close_batch. rewrite Hp.
      destruct batch as [|y batch]; [by destruct Hgo|].
      simpl. rewrite Hq. simpl. lia.
    + destruct (Nat.ltb (length batch) BATCH_SIZE) eqn:Hlt.
      * unfold get. rewrite Hp, Hq, Hlt. simpl. rewrite length_app. simpl. lia.
      * unfold close_batch. rewrite Hp.
        destruct batch as [|y batch]; [discriminate|].
        simpl. rewrite Hq. simpl. lia.
  - pose proof (compile_next_processing b item rest Hp) as (_ & _ & _ & _ & Hq & Hh).
    rewrite Hq. unfold compile_next in *. rewrite Hp in *.
    destruct rest as [|item' rest'].
    + destruct (end_of_turn_same (set_phase (compile_item b item) (Collecting [])))
        as (_ & _ & _ & -> & _). simpl. lia.
    + simpl. lia.
Qed.

Lemma join_invariant fuel : forall b, Inv b -> Inv (join parse collab raises fuel b).
Proof.
  induction fuel as [|fuel IH]; intros b Hb; [done|].
  simpl. destruct (phase b) as [[|x batch] | item rest]; try destruct (queue b);
    try done; by apply IH, thread_step_invariant.
Qed.

Lemma join_keeps fuel f :
  f ∈ find_bu_files disk raw_dir ->
  forall b, Covered b f -> Covered (join parse collab raises fuel b) f.
Proof.
  intros Hf. induction fuel as [|fuel IH]; intros b Hb; [done|].
  simpl. destruct (phase b) as [[|x batch] | item rest]; try destruct (queue b);
    try done; by apply IH, thread_step_keeps.
Qed.

(** the thread ends, at the head of its loop, with the queue empty *)
Lemma join_ends fuel :
  forall b, work_left b <= fuel ->
    phase (join parse collab raises fuel b) = Collecting []
    /\ queue (join parse collab raises fuel b) = [].
Proof.
  induction fuel as [|fuel IH]; intros b Hfuel.
  - simpl. unfold work_left in Hfuel.
    destruct (queue b) as [|x q]; [|simpl in Hfuel; lia].
    destruct (phase b) as [[|x batch] | item rest]; [done | simpl in Hfuel; lia..].
  - assert ((phase b = Collecting [] -> queue b <> []) ->
            phase (join parse collab raises fuel (thread_step parse collab raises b))
              = Collecting []
            /\ queue (join parse collab raises fuel (thread_step parse collab raises b))
              = []) as Hstep.
    { intros Hgo. apply IH. pose proof (thread_step_works b Hgo). lia. }
    simpl. destruct (phase b) as [[|x batch] | item rest] eqn:Hp;
      try destruct (queue b) eqn:Hq; try done; by apply Hstep.
Qed.

(** *** [build_incremental] *)

Lemma new_bu_files_new f :
  f ∈ new_bu_files raw_dir disk db0 <->
  f ∈ find_bu_files disk raw_dir /\ _bu_file_to_secao_id f <> ""
  /\ _bu_file_to_secao_id f ∉ dom (secoes db0).
Proof.
  unfold new_bu_files. rewrite list_elem_of_In, filter_In, <- list_elem_of_In.
  rewrite andb_true_iff, !negb_true_iff, bool_decide_eq_false.
  by rewrite String.eqb_neq.
Qed.

Lemma new_bu_files_ids :
  map _bu_file_to_secao_id (new_bu_files raw_dir disk db0)
  = List.filter (fun id => negb (bool_decide (id ∈ dom (secoes db0))))
      (List.filter (fun id => negb (String.eqb id ""))
         (map _bu_file_to_secao_id (find_bu_files disk raw_dir))).
Proof.
  unfold new_bu_files. clear no_storage_error.
  induction (find_bu_files disk raw_dir) as [|f fs IH]; [done|].
  simpl. destruct (String.eqb _ ""); simpl; [done|].
  destruct (bool_decide _); simpl; by rewrite IH.
Qed.

Lemma new_ids :
  list_to_set (map _bu_file_to_secao_id (new_bu_files raw_dir disk db0))
  = disk_ids raw_dir disk ∖ dom (secoes db0).
Proof.
  rewrite new_bu_files_ids. unfold disk_ids. apply set_eq. intros id.
  rewrite elem_of_difference, !elem_of_list_to_set, list_elem_of_In, filter_In,
    <- list_elem_of_In, negb_true_iff, bool_decide_eq_false.
  done.
Qed.

Lemma compile_new_all l :
  forall db n, (forall f, f ∈ l -> f ∈ find_bu_files disk raw_dir) ->
    foldl (compile_new parse collab raises) (db, n, 0) l
    = (foldl (fun db f => _process_section parse collab db (parent f) f) db l,
       n + length l, 0).
Proof.
  induction l as [|f l IH]; intros db n Hl; simpl.
  - by rewrite Nat.add_0_r.
  - rewrite (no_storage_error f) by set_solver.
    rewrite IH by set_solver. do 2 f_equal. lia.
Qed.

Lemma process_all l :
  forall db, (forall f, f ∈ l -> _bu_file_to_secao_id f <> "") ->
    let db' := foldl (fun db f => _process_section parse collab db (parent f) f) db l in
    dom (secoes db') = dom (secoes db) ∪ list_to_set (map _bu_file_to_secao_id l)
    /\ (forall id, id ∉ map _bu_file_to_secao_id l ->
          secoes db' !! id = secoes db !! id /\ votos_of id db' = votos_of id db).
Proof.
  induction l as [|f l IH]; intros db Hl; simpl.
  - split; [set_solver | done].
  - assert (_bu_file_to_secao_id f <> "") as Hne by set_solver.
    pose proof (secao_id_agrees f Hne) as Hid.
    destruct (process_section_tables parse collab db (parent f) f) as [Hs Hv].
    destruct (IH (_process_section parse collab db (parent f) f)) as [Hdom Hrows];
      [set_solver|].
    split.
    + rewrite Hdom, Hs, dom_insert_L, Hid. set_solver.
    + intros id Hid'. apply not_elem_of_cons in Hid' as [Hother Hid'].
      destruct (Hrows id Hid') as [-> ->]. split.
      * rewrite Hs, Hid. by rewrite lookup_insert_ne.
      * rewrite votos_of_other; [done|]. by rewrite Hid.
Qed.

(** C2. A run of the builder over a database that holds K sections and
    a disk tree of ballot files, with no storage error. Whatever sections
    the downloads report, and however the offers of the main thread and
    the steps of the compile thread interleave, the run ends with the
    compile thread at the head of its loop and the queue empty; it has
    compiled exactly as many sections as the disk tree has SectionIds that
    the database did not hold, and counted no error; [secoes] holds the old
    and the new sections; and the row and the vote rows of every section
    the database held are as they were. [build_incremental] over the same
    database and tree counts no error, leaves the old and the new sections
    in [secoes] and the rows of the old ones as they were, and, when no two
    ballot files of the tree have the same SectionId, processes exactly as
    many files as there are new sections. *)
Theorem resume_compiles_exactly_the_new_sections :
  forall (downloads : list (Models.ElectoralSection * string))
         (schedule : list Step),
    let new := disk_ids raw_dir disk ∖ dom (secoes db0) in
    let unchanged (db : Store) :=
      forall id, id ∈ dom (secoes db0) ->
        secoes db !! id = secoes db0 !! id /\ votos_of id db = votos_of id db0 in
    let b := main raw_dir disk parse collab raises db0 downloads schedule in
    let r := build_incremental raw_dir disk parse collab raises db0 in
    (compiled b = size new
     /\ errors b = 0
     /\ queue b = [] /\ phase b = Collecting []
     /\ dom (secoes (store b)) = dom (secoes db0) ∪ disk_ids raw_dir disk
     /\ unchanged (store b))
    /\ (r.2 = 0
        /\ dom (secoes r.1.1) = dom (secoes db0) ∪ disk_ids raw_dir disk
        /\ unchanged r.1.1
        /\ r.1.2 = length (new_bu_files raw_dir disk db0)
        /\ (one_file_per_section raw_dir disk -> r.1.2 = size new)).
Proof.
  intros downloads schedule new unchanged b r. split.
  - set (b1 := interleave parse collab raises schedule
                 (main_offers raw_dir disk downloads) (init db0)).
    assert (Inv b1) as Hinv1.
    { apply interleave_invariant; [apply main_offers_on_disk | apply init_invariant]. }
    set (b2 := join parse collab raises (work_left b1) b1).
    assert (Inv b2) as Hinv2 by by apply join_invariant.
    destruct (join_ends (work_left b1) b1) as [Hp2 Hq2]; [done|].
    fold b2 in Hp2, Hq2.
    assert (existing b2 = dom (secoes db0) ∪ disk_ids raw_dir disk) as Hex.
    { apply set_eq. intros id. split.
      - apply (inv_bound _ _ _ _ Hinv2).
      - intros [Hin | Hin]%elem_of_union; [by apply (inv_base _ _ _ _ Hinv2)|].
        unfold disk_ids in Hin.
        apply elem_of_list_to_set, list_elem_of_In, filter_In in Hin as [Hin Hne].
        apply in_map_iff in Hin as (f & <- & Hf). apply list_elem_of_In in Hf.
        assert (_bu_file_to_secao_id f <> "") as Hne'.
        { by destruct (String.eqb_spec (_bu_file_to_secao_id f) ""). }
        assert (Covered b2 f) as [Hdone | Hheld]; [|done|].
        + apply join_keeps; [done|]. apply interleave_covers; [done..|].
          right. unfold main_offers. set_solver.
        + unfold in_hand in Hheld. rewrite Hq2, Hp2 in Hheld.
          by apply elem_of_nil in Hheld. }
    subst b new unchanged. unfold main, finish. fold b1. fold b2. simpl.
    split_and!.
    + rewrite (inv_compiled _ _ _ _ Hinv2), Hex. f_equal. set_solver.
    + apply Hinv2.
    + done.
    + done.
    + by rewrite <- (inv_existing _ _ _ _ Hinv2).
    + apply (inv_rows _ _ _ _ Hinv2).
  - subst r new unchanged. unfold build_incremental.
    rewrite compile_new_all
      by (intros f Hf; by apply new_bu_files_new in Hf as [? _]).
    destruct (process_all (new_bu_files raw_dir disk db0) db0) as [Hdom Hrows].
    { intros f Hf. by apply new_bu_files_new in Hf as (_ & ? & _). }
    simpl. split_and!.
    + done.
    + rewrite Hdom, new_ids. apply set_eq. intros id.
      destruct (decide (id ∈ dom (secoes db0))); set_solver.
    + intros id Hid. apply Hrows. intros Hin.
      apply list_elem_of_In, in_map_iff in Hin as (f & <- & Hf).
      apply list_elem_of_In, new_bu_files_new in Hf. tauto.
    + done.
    + intros Hone. rewrite <- new_ids, size_list_to_set, length_map; [done|].
      rewrite new_bu_files_ids. apply NoDup_ListNoDup, List.NoDup_filter.
      by apply NoDup_ListNoDup.
Qed.
End Resume.

Lemma resume_compiles_exactly_the_new_sections_witness :
  let b := main ResumeScenario.raw_dir ResumeScenario.disk ResumeScenario.parse
             BallotScenarios.no_collab (fun _ => false)
             ResumeScenario.db ResumeScenario.downloads ResumeScenario.schedule in
  compiled b = size (disk_ids ResumeScenario.raw_dir ResumeScenario.disk
                       ∖ dom (secoes ResumeScenario.db))
  /\ errors b = 0.
Proof.
  pose proof (resume_compiles_exactly_the_new_sections
                ResumeScenario.raw_dir ResumeScenario.disk ResumeScenario.parse
                BallotScenarios.no_collab (fun _ => false) (fun _ _ => eq_refl)
                ResumeScenario.db ResumeScenario.downloads ResumeScenario.schedule)
    as [(Hcompiled & Herrors & _) _].
  exact (conj Hcompiled Herrors).
Defined.

(** In that scenario the database holds one section and no two ballot
    files of the tree have the same SectionId; the run compiles the one new
    section, the callback's second offer of its ballot file leaves it
    compiled once, and [build_incremental] processes one file. *)
Example resume_scenario_compiles_one :
  let b := main ResumeScenario.raw_dir ResumeScenario.disk ResumeScenario.parse
             BallotScenarios.no_collab (fun _ => false)
             ResumeScenario.db ResumeScenario.downloads ResumeScenario.schedule in
  let r := build_incremental ResumeScenario.raw_dir ResumeScenario.disk
             ResumeScenario.parse BallotScenarios.no_collab (fun _ => false)
             ResumeScenario.db in
  size (secoes ResumeScenario.db) = 1
  /\ one_file_per_section ResumeScenario.raw_dir ResumeScenario.disk
  /\ compiled b = 1 /\ size (secoes (store b)) = 2
  /\ r.1.2 = 1 /\ size (secoes r.1.1) = 2.
Proof.
  split_and!; try (vm_compute; reflexivity).
  unfold one_file_per_section.
  match goal with |- NoDup ?l => apply (bool_decide_unpack (NoDup l)) end.
  vm_compute. exact I.
Qed.
End BuilderFacts.

(** ** The retrying client: bounds, errors, what a success leaves *)

Module ClientRetryFacts.
Import Config Client Notions Counting.

Lemma requests_app a b : requests (a ++ b) = requests a + requests b.
Proof. unfold requests. by rewrite List.filter_app, length_app. Qed.

Lemma acquires_app a b : acquires (a ++ b) = acquires a + acquires b.
Proof. unfold acquires. by rewrite List.filter_app, length_app. Qed.

Lemma requests_unlink (dest : Path) (fs : Disk) :
  requests (unlink_if_exists dest fs).2 = 0 /\ acquires (unlink_if_exists dest fs).2 = 0.
Proof. unfold unlink_if_exists. by destruct (fs !! dest). Qed.

Lemma requests_write (dest : Path) chunks :
  requests (write_events dest chunks) = 0 /\ acquires (write_events dest chunks) = 0.
Proof.
  unfold write_events, requests, acquires. simpl.
  induction chunks as [|c chunks IH]; [done|]. exact IH.
Qed.

Lemma fetch_json_loop_counts {J} (reply : nat -> JsonReply J) url r :
  forall k,
    requests (fetch_json_loop reply url k r).2 <= r
    /\ acquires (fetch_json_loop reply url k r).2 = requests (fetch_json_loop reply url k r).2
    /\ (0 < r -> 0 < requests (fetch_json_loop reply url k r).2).
Proof.
  induction r as [|r IH]; intros k; [unfold requests, acquires; simpl; repeat split; lia|].
  specialize (IH (S k)). cbn [fetch_json_loop].
  destruct (fetch_json_loop reply url (S k) r) as [o evs]. cbn [snd] in IH.
  destruct IH as (IH1 & IH2 & _).
  assert (forall pause, requests pause = 0 -> acquires pause = 0 ->
            requests (EvAcquire :: EvGet url :: pause ++ evs) <= S r
            /\ acquires (EvAcquire :: EvGet url :: pause ++ evs)
               = requests (EvAcquire :: EvGet url :: pause ++ evs)
            /\ (0 < S r -> 0 < requests (EvAcquire :: EvGet url :: pause ++ evs))) as Hretry.
  { intros pause Hp Ha.
    change (EvAcquire :: EvGet url :: pause ++ evs)
      with ([EvAcquire; EvGet url] ++ pause ++ evs).
    rewrite !requests_app, !acquires_app, Hp, Ha, IH2.
    change (requests [EvAcquire; EvGet url]) with 1.
    change (acquires [EvAcquire; EvGet url]) with 1. lia. }
  assert (requests [EvAcquire; EvGet url] <= S r
          /\ acquires [EvAcquire; EvGet url] = requests [EvAcquire; EvGet url]
          /\ (0 < S r -> 0 < requests [EvAcquire; EvGet url])) as Hstop.
  { change (requests [EvAcquire; EvGet url]) with 1.
    change (acquires [EvAcquire; EvGet url]) with 1. lia. }
  destruct (reply k) as [status body | e].
  - destruct (status =? 404)%Z; [exact Hstop|].
    destruct (is_success status); [by destruct body|].
    destruct (status =? 429)%Z; [by apply Hretry|].
    destruct (Nat.eqb k _); [exact Hstop | by apply (Hretry [])].
  - destruct e; first [by apply Hretry | exact Hstop].
Qed.

Lemma download_loop_counts (reply : nat -> StreamReply) url dest r :
  forall k fs,
    requests (download_loop reply url dest k r fs).2 <= r
    /\ acquires (download_loop reply url dest k r fs).2
       = requests (download_loop reply url dest k r fs).2.
Proof.
  induction r as [|r IH]; intros k fs; [unfold requests, acquires; simpl; split; lia|].
  cbn [download_loop].
  assert (forall fs' done, requests done = 0 -> acquires done = 0 ->
            let '(o, fs'', evs) := download_loop reply url dest (S k) r fs' in
            requests (EvAcquire :: EvStream url :: done ++ evs) <= S r
            /\ acquires (EvAcquire :: EvStream url :: done ++ evs)
               = requests (EvAcquire :: EvStream url :: done ++ evs)) as Hretry.
  { intros fs' done Hp Ha. specialize (IH (S k) fs').
    destruct (download_loop reply url dest (S k) r fs') as [[o fs''] evs].
    cbn [snd] in IH. destruct IH as [IH1 IH2].
    change (EvAcquire :: EvStream url :: done ++ evs)
      with ([EvAcquire; EvStream url] ++ done ++ evs).
    rewrite !requests_app, !acquires_app, Hp, Ha, IH2.
    change (requests [EvAcquire; EvStream url]) with 1.
    change (acquires [EvAcquire; EvStream url]) with 1. lia. }
  assert (forall done, requests done = 0 -> acquires done = 0 ->
            requests (EvAcquire :: EvStream url :: done) <= S r
            /\ acquires (EvAcquire :: EvStream url :: done)
               = requests (EvAcquire :: EvStream url :: done)) as Hstop.
  { intros done Hp Ha.
    change (EvAcquire :: EvStream url :: done) with ([EvAcquire; EvStream url] ++ done).
    rewrite !requests_app, !acquires_app, Hp, Ha.
    change (requests [EvAcquire; EvStream url]) with 1.
    change (acquires [EvAcquire; EvStream url]) with 1. lia. }
  assert (forall e fs' done, requests done = 0 -> acquires done = 0 ->
            let r' :=
              (let '(fs'', un) := unlink_if_exists dest fs' in
               match e with
               | ConnectError | ReadTimeout =>
                   let '(o, fs''', evs) := download_loop reply url dest (S k) r fs'' in
                   (o, fs''', EvAcquire :: EvStream url
                                :: (done ++ un ++ [EvSleep (Z.min (pow2 k) 30)]) ++ evs)
               | OtherError =>
                   (Raised OtherException, fs'', EvAcquire :: EvStream url :: done ++ un)
               end) in
            requests r'.2 <= S r /\ acquires r'.2 = requests r'.2) as Htransport.
  { intros e fs' done Hp Ha.
    destruct (requests_unlink dest fs') as [Hu1 Hu2].
    destruct (unlink_if_exists dest fs') as [fs'' un]. cbn [snd] in Hu1, Hu2.
    destruct e.
    - specialize (Hretry fs'' (done ++ un ++ [EvSleep (Z.min (pow2 k) 30)])).
      destruct (download_loop reply url dest (S k) r fs'') as [[o fs'''] evs].
      apply Hretry; rewrite ?requests_app, ?acquires_app, ?Hp, ?Ha, ?Hu1, ?Hu2; done.
    - specialize (Hretry fs'' (done ++ un ++ [EvSleep (Z.min (pow2 k) 30)])).
      destruct (download_loop reply url dest (S k) r fs'') as [[o fs'''] evs].
      apply Hretry; rewrite ?requests_app, ?acquires_app, ?Hp, ?Ha, ?Hu1, ?Hu2; done.
    - apply Hstop; rewrite ?requests_app, ?acquires_app, ?Hp, ?Ha, ?Hu1, ?Hu2; done. }
  destruct (reply k) as [status chunks abort | e].
  - destruct (status =? 404)%Z; [by apply (Hstop [])|].
    destruct (is_success status); cbn [negb].
    + destruct (requests_write dest chunks) as [Hw1 Hw2].
      destruct abort as [e|]; [|by apply Hstop].
      by apply (Htransport e).
    + destruct (status =? 429)%Z.
      * specialize (Hretry fs [EvSleep (pow2 k)] eq_refl eq_refl).
        by destruct (download_loop reply url dest (S k) r fs) as [[o fs''] evs].
      * destruct (requests_unlink dest fs) as [Hu1 Hu2].
        destruct (unlink_if_exists dest fs) as [fs' un]. cbn [snd] in Hu1, Hu2.
        destruct (Nat.eqb k _); [by apply Hstop|].
        specialize (Hretry fs' un Hu1 Hu2).
        by destruct (download_loop reply url dest (S k) r fs') as [[o fs''] evs].
  - by apply (Htransport e fs []).
Qed.

(** X1. A call of [fetch_json] issues at least one and at most
    [MAX_RETRIES] requests, a call of [download_file] at most [MAX_RETRIES]
    (none when it skips an existing file), and each request follows one
    wait for the rate limiter. *)
Theorem retries_are_bounded :
  forall (J : Type) (jreply : nat -> JsonReply J) (sreply : nat -> StreamReply)
         (url : string) (dest : Path) (skip_existing : bool) (fs : Disk),
    let evj := (fetch_json jreply url).2 in
    let evd := (download_file sreply url dest skip_existing fs).2 in
    1 <= requests evj <= MAX_RETRIES
    /\ acquires evj = requests evj
    /\ requests evd <= MAX_RETRIES
    /\ acquires evd = requests evd
    /\ (if skip_existing && exists_nonempty dest fs then requests evd = 0 else True).
Proof.
  intros J jreply sreply url dest skip fs evj evd. subst evj evd.
  destruct (fetch_json_loop_counts jreply url MAX_RETRIES 0) as (H1 & H2 & H3).
  unfold fetch_json. split; [split; [apply H3; unfold MAX_RETRIES; lia | exact H1]|].
  split; [exact H2|].
  unfold download_file.
  destruct (skip && exists_nonempty dest fs) eqn:E.
  - repeat split; try done. unfold requests; simpl; lia.
  - destruct (download_loop_counts sreply url dest MAX_RETRIES 0 fs) as [H4 H5].
    repeat split; done.
Qed.
End ClientRetryFacts.

Module ClientErrorFacts.
Import Config Client Notions Counting ClientFacts.

Lemma fetch_json_loop_http_error {J} (reply : nat -> JsonReply J) url s r :
  forall k,
    (fetch_json_loop reply url k r).1 = Raised (HTTPStatusError s) ->
    exists body, reply (MAX_RETRIES - 1) = JResponse s body
                 /\ is_success s = false /\ s <> 404%Z /\ s <> 429%Z.
Proof.
  induction r as [|r IH]; intros k; [done|].
  specialize (IH (S k)). cbn [fetch_json_loop].
  destruct (fetch_json_loop reply url (S k) r) as [o evs]. cbn [fst] in IH.
  destruct (reply k) as [status body | e] eqn:Hk.
  - destruct (Z.eqb_spec status 404); [done|].
    destruct (is_success status) eqn:Hs; [by destruct body|].
    destruct (Z.eqb_spec status 429); [exact IH|].
    destruct (Nat.eqb_spec k (MAX_RETRIES - 1)) as [->|]; [|exact IH].
    cbn [fst]. intros [= <-]. by exists body.
  - destruct e; first [exact IH | done].
Qed.

Lemma fetch_json_loop_all_errors {J} (reply : nat -> JsonReply J) url s r :
  (forall k, exists body, reply k = JResponse s body) ->
  is_success s = false -> s <> 404%Z -> s <> 429%Z ->
  forall k, k + r = MAX_RETRIES -> 0 < r ->
    fetch_json_loop reply url k r
    = (Raised (HTTPStatusError s), attempts (EvGet url) r).
Proof.
  intros Hall Hs H404 H429.
  induction r as [|r IH]; intros k Hk Hr; [lia|].
  cbn [fetch_json_loop]. destruct (Hall k) as [body ->].
  destruct (Z.eqb_spec s 404); [done|]. rewrite Hs.
  destruct (Z.eqb_spec s 429); [done|].
  destruct (Nat.eqb_spec k (MAX_RETRIES - 1)) as [Heq|Hne].
  - assert (r = 0) as -> by (unfold MAX_RETRIES in *; lia). reflexivity.
  - rewrite IH by (unfold MAX_RETRIES in *; lia). reflexivity.
Qed.

(** X2. [fetch_json] retries an HTTP error status other than 404 and 429
    at once, with no pause, and lets the error out only when the last
    attempt is answered so: if the call raises [HTTPStatusError] the last
    attempt got that status; and on a URL that always answers such a status
    the call makes [MAX_RETRIES] requests without sleeping and raises. *)
Theorem http_error_is_raised_by_the_last_attempt :
  forall (J : Type) (reply : nat -> JsonReply J) (url : string) (s : Z),
    ((fetch_json reply url).1 = Raised (HTTPStatusError s) ->
     exists body, reply (MAX_RETRIES - 1) = JResponse s body
                  /\ is_success s = false /\ s <> 404%Z /\ s <> 429%Z)
    /\ ((forall k, exists body, reply k = JResponse s body) ->
        is_success s = false -> s <> 404%Z -> s <> 429%Z ->
        fetch_json reply url
        = (Raised (HTTPStatusError s), attempts (EvGet url) MAX_RETRIES)).
Proof.
  intros J reply url s. split.
  - apply fetch_json_loop_http_error.
  - intros Hall Hs H404 H429.
    apply (fetch_json_loop_all_errors reply url s MAX_RETRIES Hall Hs H404 H429 0); unfold MAX_RETRIES; lia.
Qed.

Lemma http_error_is_raised_by_the_last_attempt_witness :
  fetch_json (Scenarios.always (JResponse 500 (@None nat))) "u"
  = (Raised (HTTPStatusError 500), attempts (EvGet "u") MAX_RETRIES).
Proof.
  apply (proj2 (http_error_is_raised_by_the_last_attempt
                  nat (Scenarios.always (JResponse 500 None)) "u" 500)).
  - intros k. by exists None.
  - reflexivity.
  - discriminate.
  - discriminate.
Defined.

Lemma download_loop_raises (reply : nat -> StreamReply) url dest r :
  forall k fs e,
    (download_loop reply url dest k r fs).1.1 = Raised e -> e = OtherException.
Proof.
  induction r as [|r IH]; intros k fs e; [done|].
  cbn [download_loop].
  destruct (reply k) as [status chunks abort | e0].
  - destruct (status =? 404)%Z; [done|].
    destruct (is_success status); cbn [negb].
    + destruct abort as [e0|]; [|done].
      destruct (unlink_if_exists dest _) as [fs1 un].
      destruct e0; try (specialize (IH (S k) fs1 e);
                        destruct (download_loop reply url dest (S k) r fs1)
                          as [[o1 fs2] evs1]; exact IH).
      cbn [fst]. by intros [= <-].
    + destruct (status =? 429)%Z.
      * specialize (IH (S k) fs e).
        by destruct (download_loop reply url dest (S k) r fs) as [[o1 fs2] evs1].
      * destruct (unlink_if_exists dest fs) as [fs1 un].
        destruct (Nat.eqb k _); [done|].
        specialize (IH (S k) fs1 e).
        by destruct (download_loop reply url dest (S k) r fs1) as [[o1 fs2] evs1].
  - destruct (unlink_if_exists dest fs) as [fs1 un].
    destruct e0; try (specialize (IH (S k) fs1 e);
                      destruct (download_loop reply url dest (S k) r fs1)
                        as [[o1 fs2] evs1]; exact IH).
    cbn [fst]. by intros [= <-].
Qed.

Lemma download_loop_all_errors (reply : nat -> StreamReply) url dest s r :
  (forall k, exists chunks abort, reply k = SResponse s chunks abort) ->
  is_success s = false -> s <> 404%Z -> s <> 429%Z ->
  forall k fs, k + r = MAX_RETRIES -> 0 < r ->
    let '(o, fs', evs) := download_loop reply url dest k r fs in
    o = Returned false /\ fs' = delete dest fs
    /\ sleeps evs = [] /\ requests evs = r.
Proof.
  intros Hall Hs H404 H429.
  induction r as [|r IH]; intros k fs Hk Hr; [lia|].
  cbn [download_loop]. destruct (Hall k) as (chunks & abort & ->).
  destruct (Z.eqb_spec s 404); [done|]. rewrite Hs. cbn [negb].
  destruct (Z.eqb_spec s 429); [done|].
  rewrite unlink_if_exists_eq.
  pose proof (sleeps_unlink dest fs) as Hsl.
  destruct (ClientRetryFacts.requests_unlink dest fs) as [Hrq _].
  destruct (Nat.eqb_spec k (MAX_RETRIES - 1)) as [Heq|Hne].
  - assert (r = 0) as -> by (unfold MAX_RETRIES in *; lia).
    repeat split.
    + rewrite !sleeps_cons_other by done. exact Hsl.
    + change (EvAcquire :: EvStream url :: (unlink_if_exists dest fs).2)
        with ([EvAcquire; EvStream url] ++ (unlink_if_exists dest fs).2).
      by rewrite ClientRetryFacts.requests_app, Hrq.
  - specialize (IH (S k) (delete dest fs)
                  ltac:(unfold MAX_RETRIES in *; lia) ltac:(unfold MAX_RETRIES in *; lia)).
    destruct (download_loop reply url dest (S k) r (delete dest fs))
      as [[o fs'] evs].
    destruct IH as (-> & -> & Hs' & Hr'). repeat split.
    + apply delete_delete_eq.
    + rewrite !sleeps_cons_other by done. by rewrite sleeps_app, Hsl, Hs'.
    + change (EvAcquire :: EvStream url :: (unlink_if_exists dest fs).2 ++ evs)
        with ([EvAcquire; EvStream url] ++ (unlink_if_exists dest fs).2 ++ evs).
      rewrite !ClientRetryFacts.requests_app, Hrq, Hr'. reflexivity.
Qed.

(** X3. [download_file] never raises an HTTP status error: whatever it
    raises is the exception of its last handler. On a URL that always
    answers an error status other than 404 and 429 it makes [MAX_RETRIES]
    requests without sleeping, removes the destination and returns
    [False]. *)
Theorem download_turns_http_errors_into_false :
  forall (reply : nat -> StreamReply) (url : string) (dest : Path)
         (skip_existing : bool) (fs : Disk) (s : Z),
    (forall e, (download_file reply url dest skip_existing fs).1.1 = Raised e ->
               e = OtherException)
    /\ ((forall k, exists chunks abort, reply k = SResponse s chunks abort) ->
        is_success s = false -> s <> 404%Z -> s <> 429%Z ->
        skip_existing && exists_nonempty dest fs = false ->
        let '(o, fs', evs) := download_file reply url dest skip_existing fs in
        o = Returned false /\ fs' = delete dest fs
        /\ sleeps evs = [] /\ requests evs = MAX_RETRIES).
Proof.
  intros reply url dest skip fs s. split.
  - intros e. unfold download_file.
    destruct (skip && exists_nonempty dest fs); [done|].
    apply download_loop_raises.
  - intros Hall Hs H404 H429 Hskip. unfold download_file. rewrite Hskip.
    apply (download_loop_all_errors reply url dest s MAX_RETRIES Hall Hs H404 H429 0 fs); unfold MAX_RETRIES; lia.
Qed.

Lemma download_turns_http_errors_into_false_witness :
  let '(o, fs', evs) :=
    download_file (Scenarios.always (SResponse 500 [] None)) "u" ["raw"; "f"] true
      (∅ : Disk) in
  o = Returned false /\ fs' = delete ["raw"; "f"] (∅ : Disk)
  /\ sleeps evs = [] /\ requests evs = MAX_RETRIES.
Proof.
  apply (proj2 (download_turns_http_errors_into_false
                  (Scenarios.always (SResponse 500 [] None)) "u" ["raw"; "f"] true
                  (∅ : Disk) 500)).
  - intros k. by exists [], None.
  - reflexivity.
  - discriminate.
  - discriminate.
  - reflexivity.
Defined.

Lemma download_loop_success (reply : nat -> StreamReply) url dest r :
  forall k fs fs' evs,
    download_loop reply url dest k r fs = (Returned true, fs', evs) ->
    exists k' status chunks,
      k <= k' < k + r
      /\ reply k' = SResponse status chunks None
      /\ is_success status = true
      /\ fs' = <[dest := concat chunks]> fs.
Proof.
  induction r as [|r IH]; intros k fs fs' evs; [done|].
  cbn [download_loop].
  assert (forall fs1 done,
            (fs1 = fs \/ fs1 = delete dest fs) ->
            (let '(o, fs'', evs1) := download_loop reply url dest (S k) r fs1 in
             (o, fs'', EvAcquire :: EvStream url :: done ++ evs1))
            = (Returned true, fs', evs) ->
            exists k' status chunks,
              k <= k' < k + S r
              /\ reply k' = SResponse status chunks None
              /\ is_success status = true
              /\ fs' = <[dest := concat chunks]> fs) as Hretry.
  { intros fs1 done Hfs1 H.
    specialize (IH (S k) fs1).
    destruct (download_loop reply url dest (S k) r fs1) as [[o fs''] evs1].
    injection H as -> -> _.
    destruct (IH _ _ eq_refl) as (k' & status & chunks & Hk & Hr & Hs & ->).
    exists k', status, chunks. repeat split; [lia | lia | done | done |].
    destruct Hfs1 as [-> | ->]; [done | apply insert_delete_eq]. }
  destruct (reply k) as [status chunks abort | e] eqn:Hk.
  - destruct (status =? 404)%Z; [done|].
    destruct (is_success status) eqn:Hs; cbn [negb].
    + destruct abort as [e|].
      * rewrite unlink_if_exists_eq, delete_insert_eq.
        destruct e; [apply Hretry; by right..| done].
      * intros [= <- _]. exists k, status, chunks. repeat split; [lia | lia | done..].
    + destruct (status =? 429)%Z; [apply Hretry; by left|].
      rewrite unlink_if_exists_eq.
      destruct (Nat.eqb k _); [done | apply Hretry; by right].
  - rewrite unlink_if_exists_eq.
    destruct e; [apply Hretry; by right..| done].
Qed.

(** X4. When [download_file] returns [True] it either skipped a file
    that was there with a size above zero, touching nothing, or one of its
    attempts was answered a success status and ran to the end of its body:
    the destination then holds exactly the bytes of that body, and every
    other path of the disk is as before. The next call skips the file if
    and only if that body was not empty. *)
Theorem successful_download_stores_the_body :
  forall (reply : nat -> StreamReply) (url : string) (dest : Path)
         (skip_existing : bool) (fs fs' : Disk) (evs : list Event),
    download_file reply url dest skip_existing fs = (Returned true, fs', evs) ->
    (skip_existing = true /\ exists_nonempty dest fs = true /\ fs' = fs /\ evs = [])
    \/ (exists k status chunks,
          k < MAX_RETRIES
          /\ reply k = SResponse status chunks None
          /\ is_success status = true
          /\ fs' = <[dest := concat chunks]> fs
          /\ forall reply',
               download_file reply' url dest true fs'
               = if Nat.eqb (length (concat chunks)) 0
                 then download_loop reply' url dest 0 MAX_RETRIES fs'
                 else (Returned true, fs', [])).
Proof.
  intros reply url dest skip fs fs' evs. unfold download_file.
  destruct (skip && exists_nonempty dest fs) eqn:E.
  - intros [= <- <-]. left. by apply andb_true_iff in E as [-> ->].
  - intros H. right.
    destruct (download_loop_success _ _ _ _ _ _ _ _ H)
      as (k & status & chunks & Hk & Hr & Hs & ->).
    exists k, status, chunks. repeat split; [lia | done..|].
    intros reply'. unfold exists_nonempty. rewrite lookup_insert_eq. cbn [andb].
    by destruct (Nat.eqb (length (concat chunks)) 0).
Qed.

Lemma successful_download_stores_the_body_witness :
  download_file (Scenarios.all_404 "u") "u" ["raw"; "f"] true
    (<[ ["raw"; "f"] := [Byte.x61] ]> (∅ : Disk))
  = (Returned true, <[ ["raw"; "f"] := [Byte.x61] ]> (∅ : Disk), []).
Proof.
  assert (download_file (Scenarios.all_ok "u") "u" ["raw"; "f"] true (∅ : Disk)
          = (Returned true, <[ ["raw"; "f"] := [Byte.x61] ]> (∅ : Disk),
             [EvAcquire; EvStream "u"; EvOpen ["raw"; "f"];
              EvWrite ["raw"; "f"] [Byte.x61]])) as Hrun
    by (vm_compute; reflexivity).
  destruct (successful_download_stores_the_body _ _ _ _ _ _ _ Hrun)
    as [(_ & H & _) | (k & status & chunks & _ & Hk & _ & _ & H)].
  - discriminate H.
  - injection Hk as <- <-. exact (H (Scenarios.all_404 "u")).
Defined.
End ClientErrorFacts.

(** ** The download manager: what its counters count *)

Module ManagerCountFacts.
Import Config Client Models TSEApi DownloadManager Notions Counting.

Lemma callbacks_app a b : callbacks (a ++ b) = callbacks a + callbacks b.
Proof. unfold callbacks. by rewrite List.filter_app, length_app. Qed.

Lemma fetch_json_loop_callbacks {J} (reply : nat -> JsonReply J) url r :
  forall k, callbacks (fetch_json_loop reply url k r).2 = 0.
Proof.
  induction r as [|r IH]; intros k; [done|].
  specialize (IH (S k)). cbn [fetch_json_loop].
  destruct (fetch_json_loop reply url (S k) r) as [o evs]. cbn [snd] in IH.
  assert (forall pause, callbacks pause = 0 ->
            callbacks (EvAcquire :: EvGet url :: pause ++ evs) = 0) as Hretry.
  { intros pause Hp.
    change (EvAcquire :: EvGet url :: pause ++ evs)
      with ([EvAcquire; EvGet url] ++ pause ++ evs).
    by rewrite !callbacks_app, Hp, IH. }
  destruct (reply k) as [status body | e].
  - destruct (status =? 404)%Z; [done|].
    destruct (is_success status); [by destruct body|].
    destruct (status =? 429)%Z; [by apply Hretry|].
    destruct (Nat.eqb k _); [done | by apply (Hretry [])].
  - destruct e; first [by apply Hretry | done].
Qed.

Lemma callbacks_unlink (dest : Path) (fs : Disk) :
  callbacks (unlink_if_exists dest fs).2 = 0.
Proof. unfold unlink_if_exists. by destruct (fs !! dest). Qed.

Lemma callbacks_write (dest : Path) chunks : callbacks (write_events dest chunks) = 0.
Proof.
  unfold write_events, callbacks. simpl.
  induction chunks as [|c chunks IH]; [done|]. exact IH.
Qed.

Lemma download_loop_callbacks (reply : nat -> StreamReply) url dest r :
  forall k fs, callbacks (download_loop reply url dest k r fs).2 = 0.
Proof.
  induction r as [|r IH]; intros k fs; [done|].
  cbn [download_loop].
  assert (forall fs' done, callbacks done = 0 ->
            callbacks (let '(o, fs'', evs) := download_loop reply url dest (S k) r fs' in
                       (o, fs'', EvAcquire :: EvStream url :: done ++ evs)).2 = 0)
    as Hretry.
  { intros fs' done Hp. specialize (IH (S k) fs').
    destruct (download_loop reply url dest (S k) r fs') as [[o fs''] evs].
    cbn [snd] in *.
    change (EvAcquire :: EvStream url :: done ++ evs)
      with ([EvAcquire; EvStream url] ++ done ++ evs).
    by rewrite !callbacks_app, Hp, IH. }
  assert (forall (o : Outcome bool) (fs' : Disk) done, callbacks done = 0 ->
            callbacks (o, fs', EvAcquire :: EvStream url :: done).2 = 0) as Hstop.
  { intros o fs' done Hp. cbn [snd].
    change (EvAcquire :: EvStream url :: done) with ([EvAcquire; EvStream url] ++ done).
    by rewrite callbacks_app, Hp. }
  destruct (reply k) as [status chunks abort | e].
  - destruct (status =? 404)%Z; [by apply Hstop|].
    destruct (is_success status); cbn [negb].
    + pose proof (callbacks_write dest chunks) as Hw.
      destruct abort as [e|]; [|by apply Hstop].
      pose proof (callbacks_unlink dest (<[dest:=concat chunks]> fs)) as Hu.
      destruct (unlink_if_exists dest _) as [fs1 un]. cbn [snd] in Hu.
      destruct e; first [apply Hretry | apply Hstop];
        by rewrite ?callbacks_app, ?Hw, ?Hu.
    + destruct (status =? 429)%Z; [by apply Hretry|].
      pose proof (callbacks_unlink dest fs) as Hu.
      destruct (unlink_if_exists dest fs) as [fs1 un]. cbn [snd] in Hu.
      destruct (Nat.eqb k _); [by apply Hstop | by apply Hretry].
  - pose proof (callbacks_unlink dest fs) as Hu.
    destruct (unlink_if_exists dest fs) as [fs1 un]. cbn [snd] in Hu.
    destruct e; first [apply Hretry | apply Hstop];
      by rewrite ?callbacks_app, ?Hu.
Qed.

Lemma download_file_callbacks reply url dest skip fs :
  callbacks (download_file reply url dest skip fs).2 = 0.
Proof.
  unfold download_file. destruct (skip && exists_nonempty dest fs); [done|].
  apply download_loop_callbacks.
Qed.

(** a file that [download_file] reports as fetched is on the disk *)
Lemma download_file_true_exists reply url dest skip fs fs' evs :
  download_file reply url dest skip fs = (Returned true, fs', evs) ->
  is_Some (fs' !! dest).
Proof.
  unfold download_file. destruct (skip && exists_nonempty dest fs) eqn:E.
  - intros [= <- _]. apply andb_true_iff in E as [_ E].
    unfold exists_nonempty in E. by destruct (fs !! dest).
  - intros H.
    destruct (ClientErrorFacts.download_loop_success _ _ _ _ _ _ _ _ H)
      as (k & status & chunks & _ & _ & _ & ->).
    rewrite lookup_insert_eq. by eexists.
Qed.

Section Run.
Variable raw_dir : Path.
Variable on_section_done : bool.
Variable json_net : JsonNet.
Variable file_net : FileNet.
Variables ciclo pleito : string.
Variable file_types : list string.

#[local] Abbreviation download_files := (download_files raw_dir file_net ciclo pleito file_types).
#[local] Abbreviation download_section_files := (download_section_files raw_dir file_net ciclo pleito file_types).
#[local] Abbreviation download_urnas := (download_urnas raw_dir file_net ciclo pleito file_types).
#[local] Abbreviation try_section := (try_section raw_dir on_section_done json_net file_net ciclo pleito file_types).
#[local] Abbreviation _process_one_section := (_process_one_section raw_dir on_section_done json_net file_net ciclo pleito file_types).
#[local] Abbreviation process_sections := (process_sections raw_dir on_section_done json_net file_net ciclo pleito file_types).

Lemma download_files_counts urna filenames :
  forall results fs,
    let '(o, fs', evs) := download_files urna filenames results fs in
    callbacks evs = 0
    /\ forall results', o = Returned results' ->
         skip results' = skip results
         /\ ok results' + fail results'
            = ok results + fail results
              + length (List.filter (wanted file_types) filenames).
Proof.
  induction filenames as [|filename rest IH]; intros results fs.
  - simpl. split; [done|]. intros results' [= <-]. lia.
  - cbn [DownloadManager.download_files List.filter].
    destruct (wanted file_types filename); [|apply IH].
    set (url := build_file_url ciclo pleito (section urna) (hash urna) filename).
    set (dest := _section_dir raw_dir (section urna) ++ [filename]).
    pose proof (download_file_callbacks (file_net url) url dest true fs) as Hcb.
    pose proof (download_file_true_exists (file_net url) url dest true fs) as Hex.
    destruct (download_file (file_net url) url dest true fs) as [[[is_ok|e] fs1] evs1].
    2: { split; [exact Hcb | done]. }
    cbn [snd] in Hcb.
    specialize (IH (count_file results is_ok (bool_decide (is_Some (fs1 !! dest)))) fs1).
    destruct (download_files urna rest _ fs1) as [[o fs2] evs2].
    destruct IH as [IHcb IH]. split; [by rewrite callbacks_app, Hcb, IHcb|].
    intros results' Ho. destruct (IH results' Ho) as [Hskip Hsum]. clear IH.
    destruct is_ok.
    + specialize (Hex fs1 evs1 eq_refl).
      rewrite (bool_decide_eq_true_2 _ Hex) in Hskip, Hsum.
      simpl in *. split; [done | lia].
    + simpl in *. split; [done | lia].
Qed.

Lemma download_urnas_counts urnas :
  forall st fs,
    let '(o, st', fs', evs) := download_urnas urnas st fs in
    callbacks evs = 0
    /\ skipped st' = skipped st
    /\ downloaded st <= downloaded st'
    /\ errors st <= errors st'
    /\ sections_processed st' = sections_processed st.
Proof.
  induction urnas as [|urna rest IH]; intros st fs; [simpl; repeat split; lia|].
  cbn [DownloadManager.download_urnas].
  pose proof (download_files_counts urna (arquivos urna)
                {| ok := 0; skip := 0; fail := 0 |} fs) as H.
  unfold DownloadManager.download_section_files.
  destruct (download_files urna (arquivos urna) _ fs) as [[[results|e] fs1] evs1].
  2: { destruct H as [Hcb _]. repeat split; [done | lia..]. }
  destruct H as [Hcb H]. destruct (H results eq_refl) as [Hskip _]. simpl in Hskip.
  specialize (IH (add_results st results) fs1).
  destruct (download_urnas rest (add_results st results) fs1) as [[[o st'] fs2] evs2].
  destruct IH as (IHcb & IH1 & IH2 & IH3 & IH4).
  simpl in *. rewrite callbacks_app, Hcb, IHcb.
  repeat split; lia.
Qed.

Lemma section_meta_callbacks s :
  callbacks (get_section_meta json_net ciclo pleito s).2 = 0.
Proof.
  unfold get_section_meta.
  pose proof (fetch_json_loop_callbacks (json_net (section_meta_url ciclo pleito s))
                (section_meta_url ciclo pleito s) MAX_RETRIES 0) as H.
  unfold fetch_json.
  destruct (fetch_json_loop _ _ 0 MAX_RETRIES) as [[[body|]|e] evs]; try done.
  by destruct (b_hashes body).
Qed.

Lemma process_one_counts s st fs :
  let '(st', fs', evs) := _process_one_section s st fs in
  skipped st' = skipped st
  /\ downloaded st <= downloaded st'
  /\ errors st <= errors st'
  /\ sections_processed st <= sections_processed st' <= sections_processed st + 1
  /\ sections_processed st + errors st + 1 <= sections_processed st' + errors st'
  /\ callbacks evs
     = if on_section_done then sections_processed st' - sections_processed st else 0.
Proof.
  unfold DownloadManager._process_one_section, DownloadManager.try_section.
  pose proof (section_meta_callbacks s) as Hm.
  destruct (get_section_meta json_net ciclo pleito s) as [[urnas|e] evs0]; cbn [snd] in Hm.
  2: { simpl. rewrite Hm. destruct on_section_done; repeat split; lia. }
  (* the manifest was fetched *)
  pose proof (download_urnas_counts urnas st fs) as H.
  destruct (download_urnas urnas st fs) as [[[[[]|e] st1] fs1] evs1];
    destruct H as (Hcb & H1 & H2 & H3 & H4); simpl;
    rewrite ?callbacks_app, ?Hm, ?Hcb, ?H4.
  - destruct on_section_done; unfold callbacks; simpl; repeat split; lia.
  - destruct on_section_done; unfold callbacks; simpl; repeat split; lia.
Qed.

Lemma process_sections_counts sections :
  forall st fs,
    let '(st', fs', evs) := process_sections sections st fs in
    skipped st' = skipped st
    /\ downloaded st <= downloaded st'
    /\ errors st <= errors st'
    /\ sections_processed st <= sections_processed st'
       <= sections_processed st + length sections
    /\ sections_processed st + errors st + length sections
       <= sections_processed st' + errors st'
    /\ callbacks evs
       = if on_section_done then sections_processed st' - sections_processed st else 0.
Proof.
  induction sections as [|s rest IH]; intros st fs.
  - unfold callbacks. simpl. destruct on_section_done; repeat split; lia.
  - cbn [DownloadManager.process_sections].
    pose proof (process_one_counts s st fs) as H1.
    destruct (_process_one_section s st fs) as [[st1 fs1] evs1].
    specialize (IH st1 fs1).
    destruct (process_sections rest st1 fs1) as [[st2 fs2] evs2].
    rewrite callbacks_app. simpl length.
    destruct H1 as (? & ? & ? & ? & ? & ->), IH as (? & ? & ? & ? & ? & ->).
    destruct on_section_done; repeat split; lia.
Qed.

(** X5. Every listed file that passes the file-type filter is counted
    once, under [ok] or under [fail]: [download_section_files] never counts
    a skip, because a file that [download_file] reports as fetched is on
    the disk. So the [skipped] that [download_state] returns is the one it
    started with. *)
Theorem no_file_is_ever_counted_as_skipped :
  forall (sample : list ElectoralSection -> nat -> list ElectoralSection)
         (urna : UrnaMeta) (uf : string) (max_sections : option nat)
         (municipio_filter : list string) (st : Stats) (fs : Disk),
    match download_section_files urna fs with
    | (Returned results, _, _) =>
        skip results = 0
        /\ ok results + fail results
           = length (List.filter (wanted file_types) (arquivos urna))
    | (Raised _, _, _) => True
    end
    /\ match download_state raw_dir on_section_done json_net file_net sample
               ciclo pleito file_types uf max_sections municipio_filter st fs with
       | (Returned st', _, _) => skipped st' = skipped st
       | (Raised _, _, _) => True
       end.
Proof.
  intros sample urna uf max_sections municipio_filter st fs. split.
  - pose proof (download_files_counts urna (arquivos urna)
                  {| ok := 0; skip := 0; fail := 0 |} fs) as H.
    unfold DownloadManager.download_section_files.
    destruct (download_files urna (arquivos urna) _ fs) as [[[results|e] fs1] evs1];
      [|done].
    destruct H as [_ H]. destruct (H results eq_refl) as [H1 H2]. simpl in *.
    split; [done | lia].
  - destruct (get_state_config json_net ciclo pleito uf) as [[[cfg|]|e] evs0] eqn:Hcfg.
    + rewrite (ManagerFacts.download_state_processes_all _ _ _ _ _ _ _ _ _ _ _ _ _ _ _ Hcfg).
      pose proof (process_sections_counts
                    (select_sections sample cfg max_sections municipio_filter) st fs) as H.
      destruct (process_sections _ st fs) as [[st' fs'] evs']. apply H.
    + unfold download_state. by rewrite Hcfg.
    + unfold download_state. by rewrite Hcfg.
Qed.

(** X6. [download_state] accounts for every section it selected: each is
    counted as processed or adds at least one error, none twice; the
    counters never go down; and with a callback set, the callback is called
    once for each section counted as processed and for no other. *)
Theorem every_section_is_accounted_for :
  forall (sample : list ElectoralSection -> nat -> list ElectoralSection)
         (uf : string) (max_sections : option nat)
         (municipio_filter : list string) (st : Stats) (fs : Disk)
         (cfg : StateConfig) (evs0 : list Event),
    get_state_config json_net ciclo pleito uf = (Returned (Some cfg), evs0) ->
    let n := length (select_sections sample cfg max_sections municipio_filter) in
    exists st' fs' evs,
      download_state raw_dir on_section_done json_net file_net sample
        ciclo pleito file_types uf max_sections municipio_filter st fs
      = (Returned st', fs', evs0 ++ evs)
      /\ sections_processed st <= sections_processed st' <= sections_processed st + n
      /\ sections_processed st + errors st + n <= sections_processed st' + errors st'
      /\ downloaded st <= downloaded st'
      /\ errors st <= errors st'
      /\ callbacks evs
         = if on_section_done then sections_processed st' - sections_processed st else 0.
Proof.
  intros sample uf max_sections municipio_filter st fs cfg evs0 Hcfg n.
  rewrite (ManagerFacts.download_state_processes_all _ _ _ _ _ _ _ _ _ _ _ _ _ _ _ Hcfg).
  pose proof (process_sections_counts
                (select_sections sample cfg max_sections municipio_filter) st fs) as H.
  destruct (process_sections _ st fs) as [[st' fs'] evs'].
  exists st', fs', evs'. destruct H as (? & ? & ? & ? & ? & ?).
  repeat split; try done; lia.
Qed.
End Run.

Lemma every_section_is_accounted_for_witness :
  exists st' fs' evs,
    download_state ["raw"] true Scenarios.df_net Scenarios.all_ok (fun l _ => l)
      "ele2022" "406" [] "DF" None [] zero_stats (∅ : Disk)
    = (Returned st', fs',
       [EvAcquire; EvGet (state_config_url "ele2022" "406" "df")] ++ evs)
    /\ callbacks evs = sections_processed st' - sections_processed zero_stats.
Proof.
  destruct (every_section_is_accounted_for
              ["raw"] true Scenarios.df_net Scenarios.all_ok "ele2022" "406" []
              (fun l _ => l) "DF" None [] zero_stats (∅ : Disk) _ _ eq_refl)
    as (st' & fs' & evs & H & _ & _ & _ & _ & Hcb).
  exists st', fs', evs. split; [exact H | exact Hcb].
Defined.

Lemma prefix_refl (s : string) : String.prefix s s = true.
Proof.
  induction s as [|c s IH]; [done|]. simpl.
  destruct (ascii_dec c c); [exact IH | done].
Qed.

Lemma endswith_contains (s p : string) :
  PyStr.endswith s p = true -> PyStr.contains s p = true.
Proof.
  induction s as [|c s IH]; cbn [PyStr.endswith PyStr.contains].
  - rewrite orb_false_r. intros ->%String.eqb_eq. by rewrite prefix_refl.
  - intros [->%String.eqb_eq | H]%orb_true_iff.
    + by rewrite prefix_refl.
    + rewrite (IH H). apply orb_true_r.
Qed.

(** X7. The file-type filter of [download_section_files] keeps a file
    name exactly when no type is asked for or one of the types occurs
    somewhere in the name: the test on the end of the name adds nothing to
    the test on its substrings. *)
Theorem file_type_filter_is_a_substring_test :
  forall (file_types : list string) (filename : string),
    wanted file_types filename = true
    <-> file_types = []
        \/ exists ft, ft ∈ file_types /\ PyStr.contains filename ft = true.
Proof.
  intros file_types filename. unfold wanted.
  destruct file_types as [|ft0 rest]; [by split; [left|]|].
  rewrite orb_true_iff, !existsb_exists. split.
  - intros [(ft & Hin & H) | (ft & Hin & H)]; right; exists ft;
      (split; [by apply list_elem_of_In|]); [by apply endswith_contains | done].
  - intros [? | (ft & Hin & H)]; [done|].
    right. exists ft. split; [by apply list_elem_of_In | done].
Qed.

Lemma length_zon (cfg_uf : string) (mun : MunJson) (zons : list ZonaJson) :
  length (zon ← zons;
          sec ← default [] (z_sec zon);
          [ {| uf := cfg_uf; municipio_codigo := mu_cd mun;
               municipio_nome := mu_nm mun; zona := z_cd zon; secao := s_ns sec |} ])
  = foldr (fun zon total => length (default [] (z_sec zon)) + total) 0 zons.
Proof.
  induction zons as [|zon zons IH]; [done|].
  cbn [mbind list_bind foldr]. rewrite length_app, IH. f_equal.
  induction (default [] (z_sec zon)) as [|sec secs IHs]; [done|].
  cbn [mbind list_bind]. simpl. by rewrite IHs.
Qed.

Lemma foldl_count {A} (f : A -> nat) (l : list A) :
  forall total, foldl (fun total x => total + f x) total l
                = total + foldr (fun x total => f x + total) 0 l.
Proof.
  induction l as [|x l IH]; intros total; simpl; [lia|]. rewrite IH. lia.
Qed.

(** X8. [count_sections] counts what [iter_sections] yields: the number
    it returns is the number of sections the iteration produces. *)
Theorem count_sections_counts_the_iteration :
  forall cfg : StateConfig, count_sections cfg = length (iter_sections cfg).
Proof.
  intros cfg. unfold count_sections, iter_sections.
  assert (forall muns total,
            foldl (fun total mun =>
                     foldl (fun total zon => total + length (default [] (z_sec zon)))
                           total (default [] (mu_zon mun)))
                  total muns
            = total
              + length (mun ← muns;
                        zon ← default [] (mu_zon mun);
                        sec ← default [] (z_sec zon);
                        [ {| uf := sc_uf cfg; municipio_codigo := mu_cd mun;
                             municipio_nome := mu_nm mun; zona := z_cd zon;
                             secao := s_ns sec |} ])) as H.
  { induction muns as [|mun muns IH]; intros total.
    - simpl. lia.
    - cbn [foldl mbind list_bind].
      rewrite IH, length_app, length_zon, foldl_count. lia. }
  by rewrite H.
Qed.
End ManagerCountFacts.

(** ** File names, ballot files on disk, SectionIds *)

Module SuffixFacts.

Lemma endswith_refl (p : string) : PyStr.endswith p p = true.
Proof. destruct p; cbn [PyStr.endswith]; by rewrite String.eqb_refl. Qed.

Lemma endswith_app_true (stem a b : string) :
  PyStr.endswith a b = true -> PyStr.endswith (stem +:+ a) b = true.
Proof.
  intros H. induction stem as [|c stem IH]; [exact H|].
  change (String c stem +:+ a) with (String c (stem +:+ a)).
  cbn [PyStr.endswith]. rewrite IH. apply orb_true_r.
Qed.

Lemma endswith_length (s p : string) :
  PyStr.endswith s p = true -> String.length p <= String.length s.
Proof.
  induction s as [|c s IH]; cbn [PyStr.endswith].
  - rewrite orb_false_r. by intros <-%String.eqb_eq.
  - intros [<-%String.eqb_eq | H]%orb_true_iff; [done|].
    specialize (IH H). simpl. lia.
Qed.

(** of two endings of a string, the shorter is an ending of the longer *)
Lemma endswith_both (s p q : string) :
  PyStr.endswith s p = true -> PyStr.endswith s q = true ->
  String.length q <= String.length p -> PyStr.endswith p q = true.
Proof.
  induction s as [|c s IH]; cbn [PyStr.endswith].
  - rewrite !orb_false_r. intros <-%String.eqb_eq <-%String.eqb_eq _. done.
  - intros [<-%String.eqb_eq | Hp]%orb_true_iff Hq Hlen.
    + cbn [PyStr.endswith]. exact Hq.
    + apply orb_true_iff in Hq as [<-%String.eqb_eq | Hq]; [|by apply IH].
      apply endswith_length in Hp. simpl in Hlen. lia.
Qed.

Lemma endswith_app_false (stem a b : string) :
  PyStr.endswith a b = false -> PyStr.endswith b a = false ->
  PyStr.endswith (stem +:+ a) b = false.
Proof.
  intros Hab Hba. destruct (PyStr.endswith (stem +:+ a) b) eqn:E; [|done].
  pose proof (endswith_app_true stem a a (endswith_refl a)) as Ha.
  destruct (Nat.le_ge_cases (String.length b) (String.length a)) as [Hle | Hle].
  - by rewrite (endswith_both _ _ _ Ha E Hle) in Hab.
  - by rewrite (endswith_both _ _ _ E Ha Hle) in Hba.
Qed.
End SuffixFacts.

Module FileNameFacts.
Import Py BU BUParser BatchAnalyzer DuckDBStore Glob FileTypes FindSections SuffixFacts.

Ltac suffix_tests :=
  repeat match goal with
         | |- context [PyStr.endswith (?stem +:+ ?a) ?b] =>
             first [ rewrite (endswith_app_true stem a b eq_refl)
                   | rewrite (endswith_app_false stem a b eq_refl eq_refl) ]
         end;
  cbn [orb].

(** X9. [detect_spec_version] gives every file name that ends in a
    suffix of [FILE_TYPES_V1] the version V1, and every name that ends in a
    suffix of [FILE_TYPES_V2] other than the log suffix the version V2. A
    name that ends in the log suffix of the second scheme, [-log.jez], is
    given V2 only when [-bu.], [-rdv.] or [-vota.] occurs in it, and V1
    otherwise. *)
Theorem file_names_select_their_version :
  forall stem : string,
    (forall suffix, suffix ∈ FILE_TYPES_V1 ->
       detect_spec_version (stem +:+ suffix) = V1)
    /\ (forall suffix, suffix ∈ FILE_TYPES_V2 -> suffix <> "-log.jez" ->
          detect_spec_version (stem +:+ suffix) = V2)
    /\ detect_spec_version (stem +:+ "-log.jez")
       = if PyStr.contains (stem +:+ "-log.jez") "-bu."
            || PyStr.contains (stem +:+ "-log.jez") "-rdv."
            || PyStr.contains (stem +:+ "-log.jez") "-vota."
         then V2 else V1.
Proof.
  intros stem. unfold FILE_TYPES_V1, FILE_TYPES_V2, detect_spec_version.
  cbn [existsb]. split; [|split].
  - intros suffix Hin. repeat (apply elem_of_cons in Hin as [-> | Hin]);
      [..|by apply elem_of_nil in Hin]; by suffix_tests.
  - intros suffix Hin Hlog. repeat (apply elem_of_cons in Hin as [-> | Hin]);
      [..|by apply elem_of_nil in Hin]; try done; by suffix_tests.
  - by suffix_tests.
Qed.

Lemma before_dash_app (pleito rest : string) :
  PyStr.contains pleito "-" = false ->
  before_dash (pleito +:+ "-" +:+ rest) = pleito.
Proof.
  induction pleito as [|c pleito IH]; intros H.
  - reflexivity.
  - change (String c pleito +:+ "-" +:+ rest) with (String c (pleito +:+ "-" +:+ rest)).
    cbn [before_dash]. cbn [PyStr.contains String.prefix] in H.
    apply orb_false_iff in H as [Hc H].
    destruct (Ascii.eqb_spec c "-") as [->|Hne].
    + simpl in Hc. by destruct pleito.
    + by rewrite IH.
Qed.

Lemma prefix_empty (s : string) : String.prefix "" s = true.
Proof. by destruct s. Qed.

Lemma extract_pleito_of_name (dir : Path) (pleito rest : string) :
  PyStr.contains pleito "-" = false ->
  extract_pleito_from_filename (dir ++ ["o00" +:+ pleito +:+ "-" +:+ rest]) = pleito.
Proof.
  intros H. unfold extract_pleito_from_filename, BatchAnalyzer.name.
  rewrite last_snoc. cbn [default from_option id].
  change ("o00" +:+ pleito +:+ "-" +:+ rest)
    with (String "o" (String "0" (String "0" (pleito +:+ "-" +:+ rest)))).
  unfold PyStr.startswith. cbn [String.prefix string_drop].
  repeat (destruct (ascii_dec _ _); [|done]). rewrite prefix_empty.
  by apply before_dash_app.
Qed.

Lemma raw_index_first (pre rest : Path) :
  "raw" ∉ pre -> raw_index (pre ++ "raw" :: rest) = Some (length pre).
Proof.
  induction pre as [|p pre IH]; intros H; [done|].
  apply not_elem_of_cons in H as [Hp H].
  cbn [raw_index app]. destruct (String.eqb_spec p "raw"); [done|].
  by rewrite IH.
Qed.

Lemma string_length_app (a b : string) :
  String.length (a +:+ b) = String.length a + String.length b.
Proof. induction a as [|c a IH]; [done|]. simpl. by rewrite IH. Qed.

Lemma format_secao_id_nonempty turno uf mun zona secao :
  format_secao_id turno uf mun zona secao <> "".
Proof.
  unfold format_secao_id. intros H.
  apply (f_equal String.length) in H. rewrite !string_length_app in H.
  simpl in H. lia.
Qed.

(** X10. The ballot file that the download manager writes for a section
    gets, from its path alone, the SectionId of that section: the turn of
    its pleito, the lower-case [uf], and the codes of the municipality, the
    zone and the section. This holds when [raw] is the last part of the raw
    directory and no earlier one, and the pleito in the file name has no
    dash. *)
Theorem downloaded_ballot_file_has_the_section_id :
  forall (pre : Path) (s : Models.ElectoralSection) (pleito rest : string),
    "raw" ∉ pre ->
    PyStr.contains pleito "-" = false ->
    let raw_dir := pre ++ ["raw"] in
    let bu_file := DownloadManager._section_dir raw_dir s
                     ++ ["o00" +:+ pleito +:+ "-" +:+ rest] in
    extract_pleito_from_filename bu_file = pleito
    /\ _bu_file_to_secao_id bu_file
       = format_secao_id (pleito_to_turno pleito) (PyStr.lower (Models.uf s))
           (Models.municipio_codigo s) (Models.zona s) (Models.secao s)
    /\ _bu_file_to_secao_id bu_file <> ""
    /\ forall parse collab,
         secao_id_of (_analyze_section parse collab (parent bu_file) bu_file)
         = _bu_file_to_secao_id bu_file.
Proof.
  intros pre s pleito rest Hpre Hdash raw_dir bu_file.
  assert (extract_pleito_from_filename bu_file = pleito) as Hpleito
    by by apply extract_pleito_of_name.
  assert (_bu_file_to_secao_id bu_file
          = format_secao_id (pleito_to_turno pleito) (PyStr.lower (Models.uf s))
              (Models.municipio_codigo s) (Models.zona s) (Models.secao s)) as Hid.
  { unfold _bu_file_to_secao_id. rewrite Hpleito.
    subst bu_file raw_dir. unfold parent. rewrite removelast_last.
    unfold DownloadManager._section_dir. rewrite <- app_assoc. cbn [app].
    rewrite raw_index_first by done.
    rewrite !lookup_app_r by lia.
    replace (length pre + 1 - length pre) with 1 by lia.
    replace (length pre + 2 - length pre) with 2 by lia.
    replace (length pre + 3 - length pre) with 3 by lia.
    replace (length pre + 4 - length pre) with 4 by lia.
    reflexivity. }
  repeat split; [done | done | rewrite Hid; apply format_secao_id_nonempty |].
  intros parse collab. apply BuilderFacts.secao_id_agrees.
  rewrite Hid. apply format_secao_id_nonempty.
Qed.

Lemma downloaded_ballot_file_has_the_section_id_witness :
  _bu_file_to_secao_id
    (DownloadManager._section_dir (["data"] ++ ["raw"]) Scenarios.df_1
       ++ ["o00" +:+ "406" +:+ "-" +:+ "x.bu"])
  = format_secao_id (pleito_to_turno "406") (PyStr.lower "DF") "97012" "0001" "0001".
Proof.
  apply (downloaded_ballot_file_has_the_section_id
           ["data"] Scenarios.df_1 "406" "x.bu").
  - by intros [? | []%elem_of_nil]%elem_of_cons.
  - reflexivity.
Defined.

Lemma elem_of_rglob (disk : Disk) (base : Path) (suffix : string) (f : Path) :
  f ∈ rglob disk base suffix
  <-> is_Some (disk !! f) /\ base `prefix_of` parent f
      /\ PyStr.endswith (name f) suffix = true.
Proof.
  unfold rglob, files. rewrite BuilderFacts.elem_of_sorted, list_elem_of_In, filter_In,
    <- list_elem_of_In, elem_of_elements, elem_of_dom, andb_true_iff,
    bool_decide_eq_true.
  done.
Qed.

Lemma NoDup_rglob (disk : Disk) (base : Path) (suffix : string) :
  NoDup (rglob disk base suffix).
Proof.
  unfold rglob, sorted, files. rewrite merge_sort_Permutation.
  apply NoDup_ListNoDup, List.NoDup_filter, NoDup_ListNoDup, NoDup_elements.
Qed.

(** X11. [find_bu_files] lists exactly the files of the disk that lie
    under the base directory, at any depth, and whose name ends in [.bu] or
    in [-bu.dat]; and it lists each of them once. *)
Theorem find_bu_files_lists_each_ballot_file_once :
  forall (disk : Disk) (base : Path),
    (forall f, f ∈ find_bu_files disk base
               <-> is_Some (disk !! f) /\ base `prefix_of` parent f
                   /\ (PyStr.endswith (name f) ".bu" = true
                       \/ PyStr.endswith (name f) "-bu.dat" = true))
    /\ NoDup (find_bu_files disk base).
Proof.
  intros disk base. split.
  - intros f. unfold find_bu_files. rewrite elem_of_app, !elem_of_rglob. tauto.
  - unfold find_bu_files. apply NoDup_app. split; [apply NoDup_rglob|].
    split; [|apply NoDup_rglob].
    intros f (_ & _ & H1)%elem_of_rglob (_ & _ & H2)%elem_of_rglob.
    assert (PyStr.endswith "-bu.dat" ".bu" = true) as H; [|done].
    apply (endswith_both (name f)); [done | done | simpl; lia].
Qed.

Lemma elem_of_section_list (disk : Disk) (base d : Path) :
  d ∈ section_list disk base
  <-> exists f, f ∈ find_bu_files disk base /\ parent f = d.
Proof.
  unfold section_list, find_bu_files.
  generalize (rglob disk base "-bu.dat") as dats.
  generalize (rglob disk base ".bu") as bus. intros bus dats.
  assert (forall l : list Path,
            d ∈ foldl (fun sections bu_file =>
                         if bool_decide (parent bu_file ∈ sections) then sections
                         else sections ++ [parent bu_file]) l dats
            <-> d ∈ l \/ exists f, f ∈ dats /\ parent f = d) as H.
  { induction dats as [|f dats IH]; intros l; simpl.
    - split; [by left | intros [? | (f & []%elem_of_nil & _)]; done].
    - rewrite IH. destruct (bool_decide_reflect (parent f ∈ l)) as [Hin | Hout].
      + split.
        * intros [? | (g & ? & ?)]; [by left | right; exists g; set_solver].
        * intros [? | (g & [-> | ?]%elem_of_cons & Hg)];
            [by left | left; by rewrite <- Hg | right; by exists g].
      + rewrite elem_of_app, list_elem_of_singleton. split.
        * intros [[? | ->] | (g & ? & ?)];
            [by left | right; exists f; set_solver | right; exists g; set_solver].
        * intros [? | (g & [-> | ?]%elem_of_cons & Hg)];
            [by left; left | left; by right | right; by exists g]. }
  rewrite H, list_elem_of_fmap. split.
  - intros [(f & -> & Hf) | (f & Hf & <-)]; exists f; set_solver.
  - intros (f & [Hf | Hf]%elem_of_app & <-); [left; by exists f | right; by exists f].
Qed.

(** X12. [find_sections] returns, without repetition, exactly the
    directories that hold a ballot file that [find_bu_files] lists for the
    same [uf]. *)
Theorem find_sections_are_the_directories_of_the_ballot_files :
  forall (disk : Disk) (raw_dir : Path) (uf : option string) (d : Path),
    d ∈ find_sections disk raw_dir uf
    <-> exists f, f ∈ find_bu_files_of disk raw_dir uf /\ parent f = d.
Proof.
  intros disk raw_dir uf d. unfold find_sections, find_bu_files_of.
  rewrite elem_of_list_to_set. apply elem_of_section_list.
Qed.

Lemma tally_from (votos : list VotoTupla) :
  forall t,
    nominais (foldl tally_vote t votos) = (nominais t + sum_kind "nominal" votos)%Z
    /\ brancos (foldl tally_vote t votos) = (brancos t + sum_kind "branco" votos)%Z
    /\ nulos (foldl tally_vote t votos) = (nulos t + sum_kind "nulo" votos)%Z
    /\ legenda (foldl tally_vote t votos) = (legenda t + sum_kind "legenda" votos)%Z.
Proof.
  induction votos as [|v votos IH]; intros t.
  - simpl. repeat split; lia.
  - cbn [foldl]. destruct (IH (tally_vote t v)) as (-> & -> & -> & ->).
    unfold tally_vote, sum_kind. cbn [foldr].
    destruct (tipo_voto v); simpl; repeat split; lia.
Qed.

(** the sum of the quantities of all the vote tuples of an office *)
Lemma all_kinds (votos : list VotoTupla) :
  foldr (fun v total => (int_of (quantidade v) + total)%Z) 0%Z votos
  = (sum_kind "nominal" votos + sum_kind "branco" votos + sum_kind "nulo" votos
     + sum_kind "legenda" votos + sum_kind "cargoSemCandidato" votos)%Z.
Proof.
  induction votos as [|v votos IH]; [done|].
  unfold sum_kind in *. cbn [foldr]. rewrite IH.
  destruct (tipo_voto v); simpl; lia.
Qed.

(** X13. The per-office counters that [_process_section] accumulates
    for [totais_cargo] are the sums that [_analyze_section] computes: each
    is the sum of the quantities of the office's vote tuples of its kind.
    The [total] of the row is the sum of the four and leaves out the votes
    of kind [cargoSemCandidato]. *)
Theorem office_totals_are_the_sums_by_kind :
  forall (secao_id : string) (eleicao : ResultadoEleicao) (cargo : ResultadoCargo),
    let row := totais_row secao_id eleicao cargo in
    let votos := BU.votos cargo in
    t_nominais row = sum_kind "nominal" votos
    /\ t_brancos row = sum_kind "branco" votos
    /\ t_nulos row = sum_kind "nulo" votos
    /\ t_legenda row = sum_kind "legenda" votos
    /\ t_total row = (t_nominais row + t_brancos row + t_nulos row + t_legenda row)%Z
    /\ (t_total row + sum_kind "cargoSemCandidato" votos)%Z
       = foldr (fun v total => (int_of (quantidade v) + total)%Z) 0%Z votos.
Proof.
  intros secao_id eleicao cargo row votos. subst row votos.
  unfold totais_row, tally. cbn [t_nominais t_brancos t_nulos t_legenda t_total].
  destruct (tally_from (BU.votos cargo)
              {| nominais := 0; brancos := 0; nulos := 0; legenda := 0 |})
    as (-> & -> & -> & ->).
  rewrite all_kinds. cbn [nominais brancos nulos legenda]. repeat split; lia.
Qed.
End FileNameFacts.

(** ** The store: statements table by table, batches, full builds *)

Module StoreBatchFacts.
Import Py BU BatchAnalyzer DuckDBStore Glob RebuildParallel.
Import StoreNotions StoreTables StoreBuild StoreFacts.

Lemma numbered_app seq a b :
  numbered seq (a ++ b) = numbered seq a ++ numbered (seq + Z.of_nat (length a)) b.
Proof.
  revert seq. induction a as [|x a IH]; intros seq.
  - simpl. by rewrite Z.add_0_r.
  - cbn [app numbered length]. rewrite IH. do 3 f_equal. lia.
Qed.

Lemma length_numbered seq rows : length (numbered seq rows) = length rows.
Proof. revert seq. induction rows as [|x rows IH]; intros seq; [done|]. simpl. by rewrite IH. Qed.

(** what a list of statements does to each table *)
Lemma execute_all_tables stmts :
  forall db,
    execute_all db stmts
    = {| secoes := replace_all (secoes db) (upserted stmts);
         votos := votos db ++ inserted_votos stmts;
         issues := issues db ++ numbered (issue_seq db) (inserted_issues stmts);
         totais_cargo := totais_cargo db ++ inserted_totais stmts;
         issue_seq := issue_seq db + Z.of_nat (length (inserted_issues stmts)) |}.
Proof.
  unfold execute_all. induction stmts as [|s stmts IH]; intros db.
  - destruct db. simpl. by rewrite !app_nil_r, Z.add_0_r.
  - cbn [foldl]. rewrite IH. destruct s; simpl; rewrite <- ?app_assoc; f_equal; lia.
Qed.

(** statements that agree table by table do the same *)
Lemma execute_all_ext db s1 s2 :
  upserted s1 = upserted s2 -> inserted_issues s1 = inserted_issues s2 ->
  inserted_votos s1 = inserted_votos s2 -> inserted_totais s1 = inserted_totais s2 ->
  execute_all db s1 = execute_all db s2.
Proof. intros H1 H2 H3 H4. by rewrite !execute_all_tables, H1, H2, H3, H4. Qed.

Lemma execute_all_app db s1 s2 :
  execute_all (execute_all db s1) s2 = execute_all db (s1 ++ s2).
Proof. unfold execute_all. by rewrite foldl_app. Qed.

Lemma insert_batch_statements db batch :
  insert_batch db batch = execute_all db (batch_statements batch).
Proof. unfold insert_batch, batch_statements. by rewrite !execute_all_app. Qed.

Ltac tables :=
  unfold upserted, inserted_issues, inserted_votos, inserted_totais.

Ltac other_table :=
  match goal with
  | |- omap _ (map _ ?rows) = [] => induction rows; [reflexivity | simpl; assumption]
  end.

Lemma item_tables (item : BatchItem) :
  (upserted (item_issues item) = [] /\ upserted (item_votos item) = []
   /\ upserted (item_totais item) = [])
  /\ (inserted_issues (item_secoes item) = [] /\ inserted_issues (item_votos item) = []
      /\ inserted_issues (item_totais item) = [])
  /\ (inserted_votos (item_secoes item) = [] /\ inserted_votos (item_issues item) = []
      /\ inserted_votos (item_totais item) = [])
  /\ (inserted_totais (item_secoes item) = [] /\ inserted_totais (item_issues item) = []
      /\ inserted_totais (item_votos item) = []).
Proof.
  tables. destruct item as [file | id secao iss vots tots]; [done|].
  cbn [item_secoes item_issues item_votos item_totais].
  repeat split; first [reflexivity | other_table].
Qed.

Lemma omap_bind_nil {B} (f : Stmt -> option B) (g : BatchItem -> list Stmt)
    (batch : list BatchItem) :
  (forall item, omap f (g item) = []) -> omap f (batch ≫= g) = [].
Proof.
  intros H. induction batch as [|item batch IH]; [done|].
  cbn [mbind list_bind]. by rewrite omap_app, H, IH.
Qed.

Lemma omap_bind_ext {B} (f : Stmt -> option B) (g h : BatchItem -> list Stmt)
    (batch : list BatchItem) :
  (forall item, omap f (g item) = omap f (h item)) ->
  omap f (batch ≫= g) = omap f (batch ≫= h).
Proof.
  intros H. induction batch as [|item batch IH]; [done|].
  cbn [mbind list_bind]. by rewrite !omap_app, H, IH.
Qed.

(** a batch does table by table what its items do one after the other *)
Lemma batch_tables (batch : list BatchItem) :
  upserted (batch_statements batch) = upserted (batch ≫= item_statements)
  /\ inserted_issues (batch_statements batch) = inserted_issues (batch ≫= item_statements)
  /\ inserted_votos (batch_statements batch) = inserted_votos (batch ≫= item_statements)
  /\ inserted_totais (batch_statements batch) = inserted_totais (batch ≫= item_statements).
Proof.
  pose proof item_tables as Hitem.
  unfold batch_statements. unfold upserted, inserted_issues, inserted_votos,
    inserted_totais in *.
  rewrite !omap_app.
  repeat split.
  - rewrite (omap_bind_nil _ item_issues), (omap_bind_nil _ item_votos),
      (omap_bind_nil _ item_totais) by (intros item; apply (Hitem item)).
    rewrite !app_nil_r. apply omap_bind_ext. intros item.
    unfold item_statements. rewrite !omap_app.
    destruct (Hitem item) as ((-> & -> & ->) & _). by rewrite !app_nil_r.
  - rewrite (omap_bind_nil _ item_secoes), (omap_bind_nil _ item_votos),
      (omap_bind_nil _ item_totais) by (intros item; apply (Hitem item)).
    rewrite !app_nil_r. cbn [app]. apply omap_bind_ext. intros item.
    unfold item_statements. rewrite !omap_app.
    destruct (Hitem item) as (_ & (-> & -> & ->) & _). by rewrite !app_nil_r.
  - rewrite (omap_bind_nil _ item_secoes), (omap_bind_nil _ item_issues),
      (omap_bind_nil _ item_totais) by (intros item; apply (Hitem item)).
    rewrite !app_nil_r. cbn [app]. apply omap_bind_ext. intros item.
    unfold item_statements. rewrite !omap_app.
    destruct (Hitem item) as (_ & _ & (-> & -> & ->) & _). by rewrite !app_nil_r.
  - rewrite (omap_bind_nil _ item_secoes), (omap_bind_nil _ item_issues),
      (omap_bind_nil _ item_votos) by (intros item; apply (Hitem item)).
    cbn [app]. apply omap_bind_ext. intros item.
    unfold item_statements. rewrite !omap_app.
    by destruct (Hitem item) as (_ & _ & _ & (-> & -> & ->)).
Qed.

Lemma insert_batch_items db batch :
  insert_batch db batch = execute_all db (batch ≫= item_statements).
Proof.
  rewrite insert_batch_statements.
  destruct (batch_tables batch) as (H1 & H2 & H3 & H4). by apply execute_all_ext.
Qed.

Lemma insert_batch_app db a b :
  insert_batch (insert_batch db a) b = insert_batch db (a ++ b).
Proof.
  by rewrite !insert_batch_items, execute_all_app, bind_app.
Qed.

Lemma insert_batch_nil db : insert_batch db [] = db.
Proof. done. Qed.

(** *** One file: the worker's item and [_process_section] *)

Section OneFile.
Variable parse : Path -> option BoletimUrna.
Variable collab : Collaborators.

Lemma cargo_tables (secao_id : string) (pairs : list (ResultadoEleicao * ResultadoCargo)) :
  let stmts :=
    concat (map (fun '(eleicao, cargo) =>
                   map (fun voto => InsertVoto (voto_row secao_id eleicao cargo voto))
                       (BU.votos cargo)
                   ++ [InsertTotais (totais_row secao_id eleicao cargo)])
                pairs) in
  upserted stmts = [] /\ inserted_issues stmts = []
  /\ inserted_votos stmts
     = concat (map (fun '(eleicao, cargo) =>
                      map (voto_row secao_id eleicao cargo) (BU.votos cargo)) pairs)
  /\ inserted_totais stmts
     = map (fun '(eleicao, cargo) => totais_row secao_id eleicao cargo) pairs.
Proof.
  unfold upserted, inserted_issues, inserted_votos, inserted_totais.
  induction pairs as [|[eleicao cargo] pairs (IH1 & IH2 & IH3 & IH4)]; [done|].
  cbn [map concat]. rewrite !omap_app, IH1, IH2, IH3, IH4.
  assert (forall vs,
    omap (fun s => match s with InsertOrReplaceSecao id row => Some (id, row) | _ => None end)
      (map (fun voto => InsertVoto (voto_row secao_id eleicao cargo voto)) vs) = []
    /\ omap (fun s => match s with InsertIssue row => Some row | _ => None end)
      (map (fun voto => InsertVoto (voto_row secao_id eleicao cargo voto)) vs) = []
    /\ omap (fun s => match s with InsertVoto r => Some r | _ => None end)
      (map (fun voto => InsertVoto (voto_row secao_id eleicao cargo voto)) vs)
      = map (voto_row secao_id eleicao cargo) vs
    /\ omap (fun s => match s with InsertTotais row => Some row | _ => None end)
      (map (fun voto => InsertVoto (voto_row secao_id eleicao cargo voto)) vs) = [])
    as Hvs.
  { induction vs as [|v vs (H1 & H2 & H3 & H4)]; [done|].
    cbn [map omap list_omap]. by rewrite H1, H2, H3, H4. }
  destruct (Hvs (BU.votos cargo)) as (-> & -> & -> & ->).
  cbn [omap list_omap app]. by rewrite app_nil_r.
Qed.

Lemma issue_tables (secao_id : string) (l : list Issue) :
  let stmts := map (fun issue => InsertIssue (issue_row secao_id issue)) l in
  upserted stmts = [] /\ inserted_issues stmts = map (issue_row secao_id) l
  /\ inserted_votos stmts = [] /\ inserted_totais stmts = [].
Proof.
  unfold upserted, inserted_issues, inserted_votos, inserted_totais.
  induction l as [|x l (H1 & H2 & H3 & H4)]; [done|].
  cbn [map omap list_omap]. by rewrite H1, H2, H3, H4.
Qed.

Lemma rows_tables :
  (forall rows, inserted_issues (map InsertIssue rows) = rows)
  /\ (forall rows, inserted_votos (map InsertVoto rows) = rows)
  /\ (forall rows, inserted_totais (map InsertTotais rows) = rows).
Proof.
  unfold inserted_issues, inserted_votos, inserted_totais.
  repeat split; intros rows; induction rows as [|x rows IH]; try done;
    cbn [map omap list_omap]; by rewrite IH.
Qed.

(** the item a worker returns for a file holds, table by table, the rows
    that [_process_section] inserts for it *)
Lemma item_is_the_section (bu_file : Path) :
  let stmts := section_statements (_analyze_section parse collab (parent bu_file) bu_file) in
  let item := item_statements (parse_section parse collab bu_file) in
  upserted item = upserted stmts /\ inserted_issues item = inserted_issues stmts
  /\ inserted_votos item = inserted_votos stmts
  /\ inserted_totais item = inserted_totais stmts.
Proof.
  cbv zeta. unfold section_statements, parse_section.
  set (a := _analyze_section parse collab (parent bu_file) bu_file).
  pose proof (item_tables (parse_section parse collab bu_file)) as Hitem.
  unfold parse_section in Hitem. fold a in Hitem.
  destruct Hitem as ((U1 & U2 & U3) & (I1 & I2 & I3) & (V1 & V2 & V3) & (T1 & T2 & T3)).
  destruct (cargo_tables (secao_id_of a) (cargos_of a)) as (C1 & C2 & C3 & C4).
  destruct (issue_tables (secao_id_of a) (a_issues a)) as (J1 & J2 & J3 & J4).
  destruct rows_tables as (R1 & R2 & R3).
  unfold item_statements.
  unfold upserted, inserted_issues, inserted_votos, inserted_totais in *.
  rewrite !omap_app, U1, U2, U3, I1, I2, I3, V1, V2, V3, T1, T2, T3,
    C1, C2, C3, C4, J1, J2, J3, J4.
  cbn [item_secoes item_issues item_votos item_totais].
  rewrite R1, R2, R3. cbn [omap list_omap app]. by rewrite !app_nil_r.
Qed.
End OneFile.
End StoreBatchFacts.

(** ** The builds *)

Module StoreBuildFacts.
Import Py BU BatchAnalyzer DuckDBStore Glob RebuildParallel RealtimeBuilder.
Import StoreNotions StoreTables StoreBuild StoreFacts StoreBatchFacts BuilderNotions.

Section Files.
Variable parse : Path -> option BoletimUrna.
Variable collab : Collaborators.

#[local] Abbreviation statements_of :=
  (fun f : Path => section_statements (_analyze_section parse collab (parent f) f)).

Lemma compile_files_statements files :
  forall db, compile_files parse collab db files = execute_all db (files ≫= statements_of).
Proof.
  unfold compile_files. induction files as [|f files IH]; intros db; [done|].
  cbn [foldl mbind list_bind]. rewrite IH. unfold _process_section.
  by rewrite execute_all_app.
Qed.

Lemma compile_files_app db a b :
  compile_files parse collab (compile_files parse collab db a) b
  = compile_files parse collab db (a ++ b).
Proof. unfold compile_files. by rewrite foldl_app. Qed.

Lemma insert_batch_compiles files db :
  insert_batch db (map (parse_section parse collab) files)
  = compile_files parse collab db files.
Proof.
  rewrite insert_batch_items, compile_files_statements.
  assert (forall {B} (f : Stmt -> option B),
            (forall file, omap f (item_statements (parse_section parse collab file))
                          = omap f (statements_of file)) ->
            omap f (map (parse_section parse collab) files ≫= item_statements)
            = omap f (files ≫= statements_of)) as Htable.
  { intros B f H. induction files as [|file files IH]; [done|].
    cbn [map mbind list_bind]. by rewrite !omap_app, H, IH. }
  apply execute_all_ext; apply Htable; intros file;
    apply (item_is_the_section parse collab file).
Qed.

(** X14. The batches of the parallel rebuild write what compiling the
    same files one by one writes: whatever the batches the files are cut
    into, inserting the workers' items batch after batch leaves the
    database, table by table and with the same issue ids, that
    [_process_section] leaves when it is called on the files in the same
    order. *)
Theorem batches_write_what_one_by_one_writes (db : Store) (batches : list (list Path)) :
  foldl (fun db files => insert_batch db (map (parse_section parse collab) files))
        db batches
  = compile_files parse collab db (concat batches).
Proof.
  revert db. induction batches as [|files batches IH]; intros db; [done|].
  cbn [foldl concat]. by rewrite IH, insert_batch_compiles, compile_files_app.
Qed.
End Files.

(** *** The ids of the issues *)

Lemma execute_fresh db stmt : issue_ids_fresh db -> issue_ids_fresh (execute db stmt).
Proof.
  intros [Hnd Hlt]. destruct stmt; try done. split; simpl.
  - rewrite map_app. apply NoDup_app. split_and!; [done| |apply NoDup_singleton].
    intros id (r & -> & Hr)%list_elem_of_fmap Hid.
    apply list_elem_of_singleton in Hid. simpl in Hid.
    rewrite Forall_forall in Hlt. specialize (Hlt r Hr). lia.
  - apply Forall_app_2.
    + eapply Forall_impl; [exact Hlt|]. intros r Hr. simpl in *. lia.
    + apply Forall_singleton. simpl. lia.
Qed.

Lemma execute_all_fresh stmts :
  forall db, issue_ids_fresh db -> issue_ids_fresh (execute_all db stmts).
Proof.
  unfold execute_all. induction stmts as [|s stmts IH]; intros db H; [done|].
  simpl. apply IH. by apply execute_fresh.
Qed.

(** X15. The ids of the issues never collide. In a database whose issue
    ids are distinct and below the next value of the sequence, as an empty
    or a cleared one is, every compilation of a section and every batch of
    the parallel rebuild leave the issue ids distinct and below the next
    value, and the rows that were there keep their ids. *)
Theorem issue_ids_stay_distinct parse collab (db : Store) (bu_file : Path)
    (batch : list BatchItem) :
  issue_ids_fresh db ->
  let db1 := _process_section parse collab db (parent bu_file) bu_file in
  let db2 := insert_batch db batch in
  (issue_ids_fresh db1 /\ issues db `prefix_of` issues db1)
  /\ (issue_ids_fresh db2 /\ issues db `prefix_of` issues db2)
  /\ issue_ids_fresh (clear db).
Proof.
  intros Hdb db1 db2. split_and!.
  - by apply execute_all_fresh.
  - subst db1. unfold _process_section. rewrite execute_all_tables. simpl.
    by apply prefix_app_r.
  - subst db2. rewrite insert_batch_statements. by apply execute_all_fresh.
  - subst db2. rewrite insert_batch_statements, execute_all_tables. simpl.
    by apply prefix_app_r.
  - split; simpl; [apply NoDup_nil_2 | apply Forall_nil_2].
Qed.

Lemma issue_ids_stay_distinct_witness :
  let db1 := _process_section ResumeScenario.parse BallotScenarios.no_collab empty_store
               (parent ResumeScenario.new_bu_file) ResumeScenario.new_bu_file in
  let db2 := insert_batch empty_store
               [parse_section ResumeScenario.parse BallotScenarios.no_collab
                  ResumeScenario.new_bu_file] in
  (issue_ids_fresh db1 /\ issues empty_store `prefix_of` issues db1)
  /\ (issue_ids_fresh db2 /\ issues empty_store `prefix_of` issues db2)
  /\ issue_ids_fresh (clear empty_store).
Proof.
  apply (issue_ids_stay_distinct ResumeScenario.parse BallotScenarios.no_collab empty_store
           ResumeScenario.new_bu_file
           [parse_section ResumeScenario.parse BallotScenarios.no_collab
              ResumeScenario.new_bu_file]).
  split; simpl; [apply NoDup_nil_2 | apply Forall_nil_2].
Defined.

(** *** scripts/rebuild_parallel.py: the loop *)

Lemma take_result_steps ids result p :
  let p' := take_result ids p result in
  insert_batch (store p') (batch p')
  = insert_batch (store p) (batch p ++ accepted ids [result])
  /\ compiled p' = compiled p + length (accepted ids [result])
  /\ errors p' = errors p + (if is_error result then 1 else 0)
  /\ compiled p' + skipped p' + errors p' = compiled p + skipped p + errors p + 1
  /\ (length (batch p) < BATCH_SIZE -> length (batch p') < BATCH_SIZE).
Proof.
  unfold take_result, accepted.
  destruct result as [[file | id secao iss vots tots]|]; cbn [omap list_omap is_error].
  - rewrite app_nil_r. simpl. split_and!; [done | lia | done | lia | done].
  - assert (negb (bool_decide (ids = ∅)) && bool_decide (id ∈ ids) = bool_decide (id ∈ ids))
      as ->.
    { destruct (bool_decide_reflect (ids = ∅)) as [-> | _]; [|done].
      simpl. symmetry. apply bool_decide_eq_false. set_solver. }
    destruct (bool_decide (id ∈ ids)).
    + rewrite app_nil_r. simpl. split_and!; [done | lia | lia | lia | done].
    + destruct (Nat.leb BATCH_SIZE _) eqn:Hfull; cbn [store batch compiled skipped errors length].
      * rewrite insert_batch_nil. split_and!; [done | lia | lia | lia |].
        intros _. unfold BATCH_SIZE. lia.
      * apply Nat.leb_gt in Hfull. split_and!; [done | lia | lia | lia | done].
  - rewrite app_nil_r. simpl. split_and!; [done | lia | done | lia | done].
Qed.

Lemma accepted_cons ids result results :
  accepted ids (result :: results) = accepted ids [result] ++ accepted ids results.
Proof. unfold accepted. cbn [omap list_omap]. by destruct (match result with Some (ItemOk id _ _ _ _ as item) => _ | _ => None end). Qed.

Lemma take_results_steps ids results :
  forall p,
    let p' := foldl (take_result ids) p results in
    insert_batch (store p') (batch p')
    = insert_batch (store p) (batch p ++ accepted ids results)
    /\ compiled p' = compiled p + length (accepted ids results)
    /\ errors p' = errors p + length (List.filter is_error results)
    /\ compiled p' + skipped p' + errors p'
       = compiled p + skipped p + errors p + length results
    /\ (length (batch p) < BATCH_SIZE -> length (batch p') < BATCH_SIZE).
Proof.
  induction results as [|result results IH]; intros p; cbn zeta.
  - simpl. rewrite app_nil_r. split_and!; [done | lia | lia | lia | done].
  - cbn [foldl]. destruct (IH (take_result ids p result)) as (H1 & H2 & H3 & H4 & H5).
    destruct (take_result_steps ids result p) as (S1 & S2 & S3 & S4 & S5).
    rewrite accepted_cons. split_and!.
    + rewrite H1, <- insert_batch_app, S1, insert_batch_app. by rewrite <- app_assoc.
    + rewrite H2, S2, length_app. lia.
    + rewrite H3, S3. cbn [List.filter]. destruct (is_error result); simpl; lia.
    + rewrite H4, S4. simpl. lia.
    + intros Hp. by apply H5, S5.
Qed.

(** X16. The loop of the parallel rebuild. Whatever the order the
    workers' results arrive in, the loop and the flush after it leave the
    database that one batch of the accepted results leaves: the results
    that are sections the database did not hold when the script started,
    in their order of arrival. Nothing is left in the batch; every
    accepted result is counted as compiled, every missing or failed result
    as an error, and the three counters add up to the number of
    results. *)
Theorem parallel_loop_inserts_the_accepted_results (db : Store)
    (results : list (option BatchItem)) :
  let p := take_results db results in
  let sections := accepted (existing_ids_of db) results in
  store p = insert_batch db sections
  /\ batch p = []
  /\ compiled p = length sections
  /\ errors p = length (List.filter is_error results)
  /\ compiled p + skipped p + errors p = length results.
Proof.
  cbv zeta. unfold take_results.
  set (p0 := {| store := db; batch := []; compiled := 0; skipped := 0; errors := 0 |}).
  destruct (take_results_steps (existing_ids_of db) results p0) as (H1 & H2 & H3 & H4 & _).
  simpl in H1, H2, H3, H4.
  destruct (batch (foldl _ p0 results)) eqn:Hb; cbn [store batch compiled skipped errors].
  - rewrite insert_batch_nil in H1. split_and!; [done | done | lia | lia | lia].
  - split_and!; [done | done | lia | lia | lia].
Qed.

(** *** The full builds *)

Section Builds.
Variable raw_dir : Path.
Variable disk : Disk.
Variable parse : Path -> option BoletimUrna.
Variable collab : Collaborators.
Variable raises : Path -> bool.
Variable written : Path -> nat.

#[local] Abbreviation good := (fun f : Path => negb (raises f)).
#[local] Abbreviation statements_of := (statements_of parse collab).
#[local] Abbreviation statements_run := (statements_run parse collab raises written).

Lemma recompile_steps files :
  forall db compiled errors,
    foldl (recompile parse collab raises written) (db, compiled, errors) files
    = (execute_all db (files ≫= statements_run),
       compiled + length (List.filter good files),
       errors + length (List.filter raises files)).
Proof.
  induction files as [|f files IH]; intros db compiled errors.
  - simpl. by rewrite !Nat.add_0_r.
  - cbn [foldl recompile List.filter mbind list_bind]. rewrite <- execute_all_app.
    unfold StoreBuild.statements_run at 1, interrupted, _process_section.
    destruct (raises f); cbn [negb length];
      rewrite IH; repeat (apply pair_equal_spec; split); first [reflexivity | lia].
Qed.

Lemma statements_run_good files :
  (forall f, f ∈ files -> raises f = true -> written f = 0) ->
  forall db,
    execute_all db (files ≫= statements_run)
    = compile_files parse collab db (List.filter good files).
Proof.
  intros Hnone. induction files as [|f files IH]; intros db; [done|].
  cbn [mbind list_bind List.filter]. rewrite <- execute_all_app.
  unfold StoreBuild.statements_run at 1.
  destruct (raises f) eqn:Hf; cbn [negb].
  - rewrite (Hnone f) by set_solver. cbn [take]. apply IH. set_solver.
  - unfold compile_files. cbn [foldl]. unfold compile_files in IH. rewrite <- IH by set_solver.
    reflexivity.
Qed.

(** X17. scripts/rebuild_db.py counts a failing file and goes on. After
    its loop the database is what the statements that ran leave in the
    cleared database, file after file in the order of the tree: all the
    statements of a ballot file whose compilation returns, and of a file
    whose compilation raises those that ran before the exception, which
    no transaction takes back. [compiled] counts the files that returned,
    [errors] the others, and the two add up to the number of ballot
    files. When every failing file fails before its first statement, the
    database is the compilation of the files that do not fail. With fewer
    than 900 000 ballot files the script leaves before the database is
    touched. *)
Theorem rebuild_skips_the_failing_files (db : Store) :
  let files := find_bu_files disk raw_dir in
  let '(db', compiled, errors) :=
    recompile_all raw_dir disk parse collab raises written db in
  (db' = execute_all (clear db) (files ≫= statements_run)
   /\ compiled = length (List.filter good files)
   /\ errors = length (List.filter raises files)
   /\ compiled + errors = length files)
  /\ ((forall f, f ∈ files -> raises f = true -> written f = 0) ->
      db' = compile_files parse collab (clear db) (List.filter good files))
  /\ (rebuild_db_main raw_dir disk parse collab raises written db = None
      <-> (Z.of_nat (length files) < 900000)%Z).
Proof.
  cbv zeta. unfold recompile_all. rewrite recompile_steps. simpl. split_and!; try done.
  - induction (find_bu_files disk raw_dir) as [|f files IH]; [done|].
    cbn [List.filter]. destruct (raises f); simpl in *; lia.
  - intros Hnone. by apply statements_run_good.
  - unfold rebuild_db_main.
    destruct (Z.ltb_spec (Z.of_nat (length (find_bu_files disk raw_dir))) 900000);
      split; try done; lia.
Qed.

Lemma process_files_steps files :
  forall db,
    match process_files parse collab raises written files db with
    | (Returned _, db') =>
        (forall f, f ∈ files -> raises f = false)
        /\ db' = compile_files parse collab db files
    | (Raised _, db') =>
        exists before f after,
          files = before ++ f :: after
          /\ raises f = true
          /\ (forall g, g ∈ before -> raises g = false)
          /\ db' = execute_all (compile_files parse collab db before)
                     (take (written f) (statements_of f))
    end.
Proof.
  induction files as [|f files IH]; intros db.
  - simpl. split; [set_solver | done].
  - cbn [process_files]. destruct (raises f) eqn:Hf.
    + exists [], f, files. split_and!; [done | done | set_solver | done].
    + specialize (IH (_process_section parse collab db (parent f) f)).
      destruct (process_files _ _ _ _ files _) as [[[] | e] db'].
      * destruct IH as [Hall ->]. split; [|done].
        intros g [-> | Hg]%elem_of_cons; [done | by apply Hall].
      * destruct IH as (before & g & after & -> & Hg & Hbefore & ->).
        exists (f :: before), g, after. split_and!; [done | done | | done].
        intros h [-> | Hh]%elem_of_cons; [done | by apply Hbefore].
Qed.

(** X18. [build_from_raw] has no handler around the compilation of a
    file. When it returns, no ballot file of the tree raised, the database
    holds exactly the compilation of all of them into the cleared database,
    and the count returned is the number of rows of [secoes]. When it
    raises, the old contents are gone all the same: the database holds the
    compilation of the files that come before the first one that raised,
    and after it the rows that the statements of that file wrote before
    the exception. *)
Theorem build_from_raw_stops_at_the_first_failure (db : Store) :
  let files := find_bu_files disk raw_dir in
  match build_from_raw raw_dir disk parse collab raises written db with
  | (Returned count, db') =>
      (forall f, f ∈ files -> raises f = false)
      /\ db' = compile_files parse collab (clear db) files
      /\ count = size (secoes db')
  | (Raised _, db') =>
      exists before f after,
        files = before ++ f :: after
        /\ raises f = true
        /\ (forall g, g ∈ before -> raises g = false)
        /\ db' = execute_all (compile_files parse collab (clear db) before)
                   (take (written f) (statements_of f))
  end.
Proof.
  cbv zeta. unfold build_from_raw.
  pose proof (process_files_steps (find_bu_files disk raw_dir) (clear db)) as H.
  destruct (process_files _ _ _ _ _ _) as [[[] | e] db']; [|done].
  destruct H as [Hall ->]. done.
Qed.

Lemma compile_files_holds files :
  forall db,
    dom (secoes db) ⊆ dom (secoes (compile_files parse collab db files))
    /\ (forall f, f ∈ files -> _bu_file_to_secao_id f <> "" ->
          _bu_file_to_secao_id f ∈ dom (secoes (compile_files parse collab db files))).
Proof.
  unfold compile_files. induction files as [|f files IH]; intros db.
  - split; [done | set_solver].
  - cbn [foldl].
    destruct (IH (_process_section parse collab db (parent f) f)) as [Hgrows Hin].
    destruct (process_section_tables parse collab db (parent f) f) as [Hs _].
    cbv zeta in Hs. rewrite Hs, dom_insert_L in Hgrows. split; [set_solver|].
    intros g [Heq | Hg]%elem_of_cons Hne; [subst g | by apply Hin].
    apply Hgrows. rewrite <- (BuilderFacts.secao_id_agrees parse collab f Hne). set_solver.
Qed.

Lemma nothing_new (db : Store) :
  (forall f, f ∈ find_bu_files disk raw_dir -> _bu_file_to_secao_id f <> "" ->
     _bu_file_to_secao_id f ∈ dom (secoes db)) ->
  build_incremental raw_dir disk parse collab raises db = (db, 0, 0).
Proof.
  intros Hall. unfold build_incremental.
  assert (new_bu_files raw_dir disk db = []) as ->; [|done].
  unfold new_bu_files. induction (find_bu_files disk raw_dir) as [|f files IH]; [done|].
  cbn [List.filter].
  destruct (String.eqb_spec (_bu_file_to_secao_id f) "") as [He | Hne]; cbn [negb andb].
  - apply IH. intros g Hg. apply Hall. set_solver.
  - rewrite bool_decide_eq_true_2 by (apply Hall; [set_solver | done]).
    cbn [negb]. apply IH. intros g Hg. apply Hall. set_solver.
Qed.

(** X19. With no storage error, a build leaves nothing for an
    incremental build to do. After [build_incremental], and after
    [build_from_raw], a run of [build_incremental] over the same tree finds
    no new ballot file: it leaves the database as it is and counts no
    section and no error. *)
Theorem a_second_build_compiles_nothing (db : Store) :
  (forall f, f ∈ find_bu_files disk raw_dir -> raises f = false) ->
  let db1 := (build_incremental raw_dir disk parse collab raises db).1.1 in
  let db2 := (build_from_raw raw_dir disk parse collab raises written db).2 in
  build_incremental raw_dir disk parse collab raises db1 = (db1, 0, 0)
  /\ build_incremental raw_dir disk parse collab raises db2 = (db2, 0, 0).
Proof.
  intros Hgood db1 db2. split; apply nothing_new; intros f Hf Hne.
  - subst db1. unfold build_incremental.
    rewrite (BuilderFacts.compile_new_all raw_dir disk parse collab raises Hgood)
      by (intros g Hg; by apply BuilderFacts.new_bu_files_new in Hg as [? _]).
    cbn [fst].
    destruct (compile_files_holds (new_bu_files raw_dir disk db) db) as [Hgrows Hin].
    unfold compile_files in Hgrows, Hin.
    destruct (decide (_bu_file_to_secao_id f ∈ dom (secoes db))) as [Hold | Hnew].
    + by apply Hgrows.
    + apply Hin; [|done]. by apply BuilderFacts.new_bu_files_new.
  - subst db2.
    unfold build_from_raw.
    pose proof (process_files_steps (find_bu_files disk raw_dir) (clear db)) as H.
    destruct (process_files _ _ _ _ _ _) as [[[] | e] db']; cbn [snd].
    + destruct H as [_ ->].
      by apply (compile_files_holds (find_bu_files disk raw_dir) (clear db)).
    + destruct H as (before & g & after & Hfiles & Hg & _).
      rewrite Hgood in Hg; [done|]. rewrite Hfiles. set_solver.
Qed.
End Builds.

Lemma a_second_build_compiles_nothing_witness :
  let raises := fun _ : Path => false in
  let build := build_incremental ResumeScenario.raw_dir ResumeScenario.disk
                 ResumeScenario.parse BallotScenarios.no_collab raises in
  let db1 := (build ResumeScenario.db).1.1 in
  let db2 := (build_from_raw ResumeScenario.raw_dir ResumeScenario.disk
                ResumeScenario.parse BallotScenarios.no_collab raises (fun _ => 0)
                ResumeScenario.db).2 in
  build db1 = (db1, 0, 0) /\ build db2 = (db2, 0, 0).
Proof.
  apply (a_second_build_compiles_nothing ResumeScenario.raw_dir ResumeScenario.disk
           ResumeScenario.parse BallotScenarios.no_collab (fun _ => false) (fun _ => 0)
           ResumeScenario.db).
  reflexivity.
Defined.
End StoreBuildFacts.

(** ** The snapshot and the rest of the directory *)

Module SnapshotFrameFacts.
Import BatchAnalyzer Snapshot SnapshotFacts.

Section Frame.
Variable DB : Type.
Variable DB_DIR : Path.

Ltac lookups :=
  cbn [files db logged set_files log];
  repeat first
    [ rewrite lookup_insert_eq
    | rewrite lookup_delete_eq
    | rewrite lookup_insert_ne by congruence
    | rewrite lookup_delete_ne by congruence ].


End Frame.
End SnapshotFrameFacts.

(** ** Samples *)

Module SampleFacts.
Import Config Client Models TSEApi DownloadManager Notions Counting SampleRun.

Section Sample.
Variable raw_dir : Path.
Variable on_section_done : bool.
Variable json_net : JsonNet.
Variable file_net : FileNet.
Variable sample : list ElectoralSection -> nat -> list ElectoralSection.
Variables ciclo pleito : string.
Variable file_types : list string.

#[local] Abbreviation download_state :=
  (download_state raw_dir on_section_done json_net file_net sample ciclo pleito file_types).
#[local] Abbreviation download_states :=
  (download_states raw_dir on_section_done json_net file_net sample ciclo pleito file_types).

Lemma select_sections_bound (cfg : StateConfig) (n : nat) :
  (forall sections k, k < length sections -> length (sample sections k) = k) ->
  0 < n ->
  length (select_sections sample cfg (Some n) []) <= n.
Proof.
  intros Hsample Hn. unfold select_sections.
  destruct (Nat.eqb_spec n 0) as [-> | _]; [lia|]. cbn [negb andb].
  destruct (Nat.ltb_spec n (length (iter_sections cfg))) as [Hlt | Hge]; [|lia].
  by rewrite Hsample.
Qed.

Lemma download_state_bound (uf : string) (n : nat) (st : Stats) (fs : Disk) :
  (forall sections k, k < length sections -> length (sample sections k) = k) ->
  0 < n ->
  match download_state uf (Some n) [] st fs with
  | (Returned st', _, _) =>
      sections_processed st' <= sections_processed st + n
      /\ skipped st' = skipped st
  | (Raised e, _, _) => (get_state_config json_net ciclo pleito uf).1 = Raised e
  end.
Proof.
  intros Hsample Hn.
  destruct (get_state_config json_net ciclo pleito uf) as [[[cfg|] | e] evs0] eqn:Hcfg.
  - rewrite (ManagerFacts.download_state_processes_all _ _ _ _ _ _ _ _ _ _ _ _ _ _ _ Hcfg).
    pose proof (ManagerCountFacts.process_sections_counts raw_dir on_section_done
                  json_net file_net ciclo pleito file_types
                  (select_sections sample cfg (Some n) []) st fs) as H.
    pose proof (select_sections_bound cfg n Hsample Hn) as Hlen.
    destruct (process_sections _ _ _ _ _ _ _ _ st fs) as [[st' fs'] evs'].
    destruct H as (? & _ & _ & ? & _). split; [lia | done].
  - unfold DownloadManager.download_state. rewrite Hcfg. split; [lia | done].
  - unfold DownloadManager.download_state. by rewrite Hcfg.
Qed.

Lemma download_states_bound (states : list string) (n : nat) :
  (forall sections k, k < length sections -> length (sample sections k) = k) ->
  0 < n ->
  forall all_stats fs,
    match download_states states n all_stats fs with
    | (Returned all_stats', _, _) =>
        sections_processed all_stats'
        <= sections_processed all_stats + n * length states
        /\ skipped all_stats' = skipped all_stats
    | (Raised e, _, _) =>
        exists uf, uf ∈ states /\ (get_state_config json_net ciclo pleito uf).1 = Raised e
    end.
Proof.
  intros Hsample Hn. induction states as [|uf rest IH]; intros all_stats fs.
  - simpl. split; [lia | done].
  - cbn [SampleRun.download_states].
    pose proof (download_state_bound uf n zero_stats fs Hsample Hn) as H1.
    destruct (download_state uf (Some n) [] zero_stats fs) as [[[st|e] fs'] evs].
    + specialize (IH (add_stats all_stats st) fs').
      destruct (download_states rest n (add_stats all_stats st) fs')
        as [[[all_stats'|e] fs''] evs'].
      * destruct H1 as [H1 H2], IH as [H3 H4]. cbn [length] in *.
        unfold add_stats, zero_stats in *. cbn [sections_processed skipped] in *.
        split; lia.
      * destruct IH as (uf' & Hin & Hraise). exists uf'. split; [set_solver | done].
    + exists uf. split; [set_solver | done].
Qed.

(** X21. A sample is bounded. With a positive [sections_per_state],
    and [random.sample] returning as many sections as it is asked for,
    [download_sample] counts at most [sections_per_state] processed
    sections for each state and no skipped file; and when it raises, the
    request for the configuration of one of the states raised. With
    [sections_per_state = 0] no limit applies: the sections selected are
    those selected with no [max_sections]. *)
Theorem a_sample_is_bounded (states : list string) (n : nat) (fs : Disk)
    (cfg : StateConfig) (municipio_filter : list string) :
  (forall sections k, k < length sections -> length (sample sections k) = k) ->
  0 < n ->
  match download_sample raw_dir on_section_done json_net file_net sample ciclo pleito
          file_types states n fs with
  | (Returned all_stats, _, _) =>
      sections_processed all_stats <= n * length states
      /\ skipped all_stats = 0
  | (Raised e, _, _) =>
      exists uf, uf ∈ states /\ (get_state_config json_net ciclo pleito uf).1 = Raised e
  end
  /\ select_sections sample cfg (Some 0) municipio_filter
     = select_sections sample cfg None municipio_filter.
Proof.
  intros Hsample Hn. split; [|done].
  unfold download_sample.
  pose proof (download_states_bound states n Hsample Hn zero_stats fs) as H.
  by destruct (download_states states n zero_stats fs) as [[[all_stats|e] fs'] evs].
Qed.
End Sample.

Lemma a_sample_is_bounded_witness :
  match download_sample ["data"; "raw"] false Scenarios.df_net Scenarios.all_ok
          (fun sections k => take k sections) "ele2022" "406" [] ["df"] 1 ∅ with
  | (Returned all_stats, _, _) =>
      sections_processed all_stats <= 1 * length ["df"] /\ skipped all_stats = 0
  | (Raised e, _, _) =>
      exists uf, uf ∈ ["df"]
                 /\ (get_state_config Scenarios.df_net "ele2022" "406" uf).1 = Raised e
  end
  /\ select_sections (fun sections k => take k sections)
       {| sc_uf := "df"; sc_nome := "DF"; municipios := [] |} (Some 0) []
     = select_sections (fun sections k => take k sections)
         {| sc_uf := "df"; sc_nome := "DF"; municipios := [] |} None [].
Proof.
  apply (a_sample_is_bounded ["data"; "raw"] false Scenarios.df_net Scenarios.all_ok
           (fun sections k => take k sections) "ele2022" "406" [] ["df"] 1 ∅
           {| sc_uf := "df"; sc_nome := "DF"; municipios := [] |} []).
  - intros sections k Hk. rewrite length_take. lia.
  - lia.
Defined.
End SampleFacts.
